(** * my_uc_analyzer: the Classifier / Designer / Critic workflow

    A shallow embedding of the agent workflow of [src/agents]:
    - [state.py]: the shared [AgentState];
    - [memory.py]: [LongTermMemory] and its lessons;
    - [query_agent.py]: the Classifier ([QueryAnalysisAgent]) and the
      embedding resolver [identify_use_case_id];
    - [design_agent_react.py]: the Designer ([DesignAgentReAct]);
    - [feedback_agent.py]: the Critic ([FeedbackAgent]);
    - [graph.py]: the graph of the three nodes and [run_design_workflow].

    Texts are Python [str] values restricted to ASCII, represented as Rocq
    strings.  Integers are unbounded ([Z]).  Every call that leaves the
    process (language model, embedding model, vector store, file system) is
    an oracle of the environment that either returns a value or raises.
    What the process reads from its surroundings (the variable
    [GROQ_API_KEY]), what a library computes in an order of its own
    ([np.dot]) and the defaults of the graph runtime that the code leaves
    as they are (its step limit and the text of the error raised at the
    limit) are fields of the environment as well. *)

From Stdlib Require Import ZArith Ascii String DecimalString Floats.
From stdpp Require Import base option list strings gmap.

Local Open Scope string_scope.
Local Open Scope list_scope.

(** ** Python strings *)

Module PyStr.

(** [c.upper()] for one ASCII character: only [a]..[z] change. *)
Definition upper_char (c : ascii) : ascii :=
  let n := nat_of_ascii c in
  if (97 <=? n)%nat && (n <=? 122)%nat then ascii_of_nat (n - 32) else c.

(** [s.upper()] *)
Fixpoint upper (s : string) : string :=
  match s with
  | EmptyString => EmptyString
  | String c s' => String (upper_char c) (upper s')
  end.

(** [s.startswith(p)] *)
Fixpoint startswith (p s : string) : bool :=
  match p, s with
  | EmptyString, _ => true
  | String _ _, EmptyString => false
  | String a p', String b s' => if Ascii.eqb a b then startswith p' s' else false
  end.

(** [needle in hay] *)
Fixpoint contains (needle hay : string) : bool :=
  match hay with
  | EmptyString => startswith needle EmptyString
  | String _ hay' => startswith needle hay || contains needle hay'
  end.

(** [c.isspace()] on ASCII: tab, LF, VT, FF, CR, the four separators
    FS GS RS US, and the space. *)
Definition isspace (c : ascii) : bool :=
  let n := nat_of_ascii c in
  ((9 <=? n)%nat && (n <=? 13)%nat) || ((28 <=? n)%nat && (n <=? 32)%nat).

(** [c in chars] *)
Fixpoint mem_char (c : ascii) (chars : string) : bool :=
  match chars with
  | EmptyString => false
  | String d chars' => Ascii.eqb c d || mem_char c chars'
  end.

(** Removal of the leading characters that satisfy [p]. *)
Fixpoint lstrip_by (p : ascii -> bool) (s : string) : string :=
  match s with
  | EmptyString => EmptyString
  | String c s' => if p c then lstrip_by p s' else s
  end.

(** Removal of the trailing characters that satisfy [p]. *)
Fixpoint rstrip_by (p : ascii -> bool) (s : string) : string :=
  match s with
  | EmptyString => EmptyString
  | String c s' =>
      match rstrip_by p s' with
      | EmptyString => if p c then EmptyString else String c EmptyString
      | r => String c r
      end
  end.

(** [s.lstrip(chars)] *)
Definition lstrip (chars s : string) : string :=
  lstrip_by (fun c => mem_char c chars) s.

(** [s.strip()] *)
Definition strip (s : string) : string :=
  rstrip_by isspace (lstrip_by isspace s).

Definition newline : ascii := ascii_of_nat 10.

(** [s.split(sep)] for a separator of one character: never empty, an
    empty text gives one empty field. *)
Fixpoint split (sep : ascii) (s : string) : list string :=
  match s with
  | EmptyString => [EmptyString]
  | String c s' =>
      if Ascii.eqb c sep then EmptyString :: split sep s'
      else match split sep s' with
           | h :: t => String c h :: t
           | [] => [String c EmptyString]
           end
  end.

(** [sep.join(parts)] *)
Fixpoint join (sep : string) (parts : list string) : string :=
  match parts with
  | [] => EmptyString
  | [p] => p
  | p :: rest => p +:+ sep +:+ join sep rest
  end.

(** Truth value of a [str]: non-empty. *)
Definition nonempty (s : string) : bool :=
  match s with EmptyString => false | _ => true end.

(** Truth value of an [Optional[str]]: neither [None] nor empty. *)
Definition truthy (o : option string) : bool :=
  match o with Some s => nonempty s | None => false end.

(** [str(x)] inside an f-string, for an [Optional[str]]. *)
Definition fmt (o : option string) : string :=
  match o with Some s => s | None => "None" end.

(** [str(n)] for an [int]. *)
Definition of_Z (n : Z) : string := NilZero.string_of_int (Z.to_int n).

End PyStr.

(** ** The Critic's text handling ([feedback_agent.py], lines 178 and 194-199) *)

(** Line 178: ["APPROVED" in evaluation.upper() and
    "NEEDS_REVISION" not in evaluation.upper()]. *)
Definition parse_verdict (evaluation : string) : bool :=
  PyStr.contains "APPROVED" (PyStr.upper evaluation)
  && negb (PyStr.contains "NEEDS_REVISION" (PyStr.upper evaluation)).

(** Line 194: [[l.strip() for l in lessons_text.strip().split("\n") if l.strip()]]. *)
Definition lesson_lines (lessons_text : string) : list string :=
  map PyStr.strip
    (filter (fun l => Is_true (PyStr.nonempty (PyStr.strip l)))
       (PyStr.split PyStr.newline (PyStr.strip lessons_text))).

(** Line 197: [lesson.lstrip("0123456789.-) ").strip()]. *)
Definition clean_lesson (lesson : string) : string :=
  PyStr.strip (PyStr.lstrip "0123456789.-) " lesson).

(** The texts handed to [memory.add_lesson] by the loop of lines 195-199,
    in order. *)
Definition lessons_to_save (lessons_text : string) : list string :=
  filter (fun l => Is_true (PyStr.nonempty l))
    (map clean_lesson (lesson_lines lessons_text)).

(** ** The shared state ([state.py]) *)

Record AgentState := mkState {
  user_query : string;
  use_case_id : option string;
  use_case_name : option string;
  description_summary : option string;
  requirement_list : option string;
  system_design : option string;
  research_search : option string;
  feedback : option string;
  is_approved : bool;
  iteration : Z;
  max_iterations : Z;
  final_response : option string;
  error : option string
}.

(** The dictionary updates [{**state, "key": value}], one setter per key
    that some step overrides. *)
Definition set_use_case_id v (s : AgentState) : AgentState :=
  mkState (user_query s) v (use_case_name s) (description_summary s)
    (requirement_list s) (system_design s) (research_search s) (feedback s)
    (is_approved s) (iteration s) (max_iterations s) (final_response s) (error s).
Definition set_use_case_name v (s : AgentState) : AgentState :=
  mkState (user_query s) (use_case_id s) v (description_summary s) (requirement_list s)
    (system_design s) (research_search s) (feedback s) (is_approved s) (iteration s)
    (max_iterations s) (final_response s) (error s).
Definition set_description_summary v (s : AgentState) : AgentState :=
  mkState (user_query s) (use_case_id s) (use_case_name s) v (requirement_list s)
    (system_design s) (research_search s) (feedback s) (is_approved s) (iteration s)
    (max_iterations s) (final_response s) (error s).
Definition set_requirement_list v (s : AgentState) : AgentState :=
  mkState (user_query s) (use_case_id s) (use_case_name s) (description_summary s) v
    (system_design s) (research_search s) (feedback s) (is_approved s) (iteration s)
    (max_iterations s) (final_response s) (error s).
Definition set_system_design v (s : AgentState) : AgentState :=
  mkState (user_query s) (use_case_id s) (use_case_name s) (description_summary s)
    (requirement_list s) v (research_search s) (feedback s) (is_approved s)
    (iteration s) (max_iterations s) (final_response s) (error s).
Definition set_research_search v (s : AgentState) : AgentState :=
  mkState (user_query s) (use_case_id s) (use_case_name s) (description_summary s)
    (requirement_list s) (system_design s) v (feedback s) (is_approved s) (iteration s)
    (max_iterations s) (final_response s) (error s).
Definition set_feedback v (s : AgentState) : AgentState :=
  mkState (user_query s) (use_case_id s) (use_case_name s) (description_summary s)
    (requirement_list s) (system_design s) (research_search s) v (is_approved s)
    (iteration s) (max_iterations s) (final_response s) (error s).
Definition set_is_approved v (s : AgentState) : AgentState :=
  mkState (user_query s) (use_case_id s) (use_case_name s) (description_summary s)
    (requirement_list s) (system_design s) (research_search s) (feedback s) v
    (iteration s) (max_iterations s) (final_response s) (error s).
Definition set_iteration v (s : AgentState) : AgentState :=
  mkState (user_query s) (use_case_id s) (use_case_name s) (description_summary s)
    (requirement_list s) (system_design s) (research_search s) (feedback s)
    (is_approved s) v (max_iterations s) (final_response s) (error s).
Definition set_max_iterations v (s : AgentState) : AgentState :=
  mkState (user_query s) (use_case_id s) (use_case_name s) (description_summary s)
    (requirement_list s) (system_design s) (research_search s) (feedback s)
    (is_approved s) (iteration s) v (final_response s) (error s).
Definition set_final_response v (s : AgentState) : AgentState :=
  mkState (user_query s) (use_case_id s) (use_case_name s) (description_summary s)
    (requirement_list s) (system_design s) (research_search s) (feedback s)
    (is_approved s) (iteration s) (max_iterations s) v (error s).
Definition set_error v (s : AgentState) : AgentState :=
  mkState (user_query s) (use_case_id s) (use_case_name s) (description_summary s)
    (requirement_list s) (system_design s) (research_search s) (feedback s)
    (is_approved s) (iteration s) (max_iterations s) (final_response s) v.

(** ** Calls that may raise *)

(** The result of a Python call: a value, or an exception with the text
    that [str(e)] gives. *)
Inductive outcome (A : Type) : Type :=
| Returns (a : A)
| Raises (msg : string).
Arguments Returns {A} a.
Arguments Raises {A} msg.

(** ** The long-term memory ([memory.py]) *)

Record DesignLesson := mkLesson {
  lesson : string;
  created_at : nat   (* the reading of the clock at creation *)
}.

Record UseCaseLessons := mkLessons {
  uc_id : string;
  uc_name : string;
  lessons : list DesignLesson
}.

(** [LongTermMemory._data]; the file at [storage_path] is written through
    the environment. *)
Record LongTermMemory := mkMemory {
  _data : gmap string UseCaseLessons
}.

(** ** The world a run executes in *)

Inductive SectionType := DESCRIPTION | REQUIREMENTS.

(** What leaves the process, in order. *)
Inductive Event :=
| EmbeddingsLoaded
| VectorSearch (uc : string) (section : SectionType)
| SummarizeCall
| DesignCall
| EvaluationCall
| LessonsCall
| FileWritten (contents : gmap string UseCaseLessons).

(** The memory object shared by the Designer and the Critic, a clock that
    counts the calls made so far, and the log of these calls. *)
Record World := mkWorld {
  memory : LongTermMemory;
  clock : nat;
  log : list Event
}.

(** A computation on the world that returns or raises; what it did to the
    world before raising stays done. *)
Definition M (A : Type) : Type := World -> outcome A * World.

Definition ret {A} (a : A) : M A := fun w => (Returns a, w).

Definition bind {A B} (c : M A) (k : A -> M B) : M B :=
  fun w => match c w with
           | (Returns a, w') => k a w'
           | (Raises msg, w') => (Raises msg, w')
           end.

(** [try: body  except Exception as e: handler(str(e))] *)
Definition try_except {A} (body : M A) (handler : string -> M A) : M A :=
  fun w => match body w with
           | (Returns a, w') => (Returns a, w')
           | (Raises msg, w') => handler msg w'
           end.

Notation "'let*' x ':=' c 'in' k" := (bind c (fun x => k))
  (at level 10, x pattern, c at level 100, k at level 200).

(** One call to the outside: the answer may depend on how many calls came
    before, so two calls with equal arguments may differ. *)
Definition call {A} (ev : Event) (oracle : nat -> outcome A) : M A :=
  fun w => (oracle (clock w), mkWorld (memory w) (S (clock w)) (log w ++ [ev])).

(** [for x in xs: body(x)] *)
Fixpoint for_each {A} (xs : list A) (body : A -> M unit) : M unit :=
  match xs with
  | [] => ret tt
  | x :: xs' => let* _ := body x in for_each xs' body
  end.

(** ** Collaborators *)

Record DocumentChunk := mkChunk {
  content : string;
  chunk_index : Z
}.

Record ToolCall := mkToolCall {
  tc_name : string;    (* [tool_call.get('name')] *)
  tc_query : string;   (* [tool_call.get('args', {}).get('query', '')] *)
  tc_id : string       (* [tool_call.get('id', '')] *)
}.

(** A message of the ReAct agent; [None] for an attribute the message's
    class does not have. *)
Record Message := mkMessage {
  msg_type : string;
  msg_content : string;
  tool_calls : option (list ToolCall);
  tool_call_id : option string
}.

(** The values a prompt template is filled with. *)
Definition PromptInput : Type := list (string * string).

Record Env := mkEnv {
  (** [HuggingFaceEmbeddings(...)]: loading the model raises, or gives its
      [embed_query] *)
  hf_embeddings : outcome (string -> list float);
  (** [vector_store.search(query, k, use_case_id, section_type)] *)
  vector_search : nat -> string -> Z -> string -> SectionType -> outcome (list DocumentChunk);
  (** [summarize_chain.invoke] *)
  summarize_chain : nat -> PromptInput -> outcome string;
  (** [self.agent.invoke({"messages": messages})["messages"]] *)
  react_agent : nat -> PromptInput -> outcome (list Message);
  (** [evaluation_chain.invoke] *)
  evaluation_chain : nat -> PromptInput -> outcome string;
  (** [lessons_chain.invoke] *)
  lessons_chain : nat -> PromptInput -> outcome string;
  (** writing the JSON file in [_save] *)
  write_file : nat -> gmap string UseCaseLessons -> outcome unit;
  (** [np.dot(a, b)] on two vectors of one length, in binary64; the order
      in which the products are added is the library's *)
  np_dot : list float -> list float -> float;
  (** [os.getenv("GROQ_API_KEY")] *)
  groq_api_key : option string;
  (** the default step limit of the graph runtime, a positive number of
      the library: [create_app] compiles the graph and
      [run_design_workflow] streams it without a config *)
  recursion_limit : nat;
  (** [str(e)] of the [GraphRecursionError] that the runtime raises at the
      limit *)
  GraphRecursionError : string
}.

(** *** [UseCaseLessons] and [LongTermMemory] *)

(** [UseCaseLessons.get_lessons_text] *)
Definition get_lessons_text (l : UseCaseLessons) : string :=
  match lessons l with
  | [] => "No previous lessons for this use case."
  | ls =>
      PyStr.join (String PyStr.newline EmptyString)
        (("Learned lessons for " +:+ uc_name l +:+ ":")
           :: imap (fun i x => "  " +:+ PyStr.of_Z (Z.of_nat (S i)) +:+ ". " +:+ lesson x) ls)
  end.

(** [LongTermMemory.get_lessons]: the entry of the use case, created empty
    on first access.  The model classes declare both fields as [str], so
    the creation raises a validation error when either is [None]. *)
Definition get_lessons (use_case_id use_case_name : option string) : M UseCaseLessons :=
  fun w =>
    let d := _data (memory w) in
    match use_case_id with
    | None => (Raises "validation error for UseCaseLessons: use_case_id", w)
    | Some i =>
        match d !! i with
        | Some l => (Returns l, w)
        | None =>
            match use_case_name with
            | None => (Raises "validation error for UseCaseLessons: use_case_name", w)
            | Some n =>
                let l := mkLessons i n [] in
                (Returns l, mkWorld (mkMemory (<[i := l]> d)) (clock w) (log w))
            end
        end
    end.

(** [LongTermMemory._save]: the whole map goes to the file. *)
Definition _save (env : Env) : M unit :=
  fun w => call (FileWritten (_data (memory w)))
             (fun t => write_file env t (_data (memory w))) w.

(** [UseCaseLessons.add_lesson] on the object that [get_lessons] returned:
    the entry of the memory itself, changed in place. *)
Definition append_lesson (use_case_id : option string) (text : string) : M unit :=
  fun w =>
    match use_case_id with
    | None => (Returns tt, w)
    | Some i =>
        let add l := mkLessons (uc_id l) (uc_name l) (lessons l ++ [mkLesson text (clock w)]) in
        (Returns tt, mkWorld (mkMemory (alter add i (_data (memory w)))) (clock w) (log w))
    end.

(** [LongTermMemory.add_lesson]: get the entry, append, rewrite the file. *)
Definition add_lesson (env : Env) (use_case_id use_case_name : option string)
    (text : string) : M unit :=
  let* _ := get_lessons use_case_id use_case_name in
  let* _ := append_lesson use_case_id text in
  _save env.

(** ** The Classifier ([query_agent.py]) *)

(** [QueryAnalysisAgent.use_case_names], in the order of the dictionary. *)
Definition use_case_names : list (string * string) :=
  [ ("5.1.1", "AI Agents to Enable Smart Life");
    ("5.1.2", "Network-Assisted Collaborative Robots");
    ("5.1.3", "AI Phone");
    ("5.2.1", "AI Agent-based Customized Network for Smart City Traffic Monitoring");
    ("5.2.2", "AI Agents-Based Customized Network for Smart Construction Sites");
    ("5.2.3", "AI Agent Ensuring Game Acceleration Experience");
    ("5.2.4", "AI Agent-Assisted Collaborative Energy Distribution in Power Enterprises");
    ("5.3.1", "AI Agent-Based Autonomous Network Management");
    ("5.3.2", "AI Agent-Based Disaster Handling Network Management");
    ("5.3.3", "AI Agent-Based Time-Sensitive Network Management");
    ("5.3.4", "AI Agent-Driven Core Network Signalling Optimization");
    ("5.3.5", "AI Agent-Based Core Networks to Enhance User Experience") ].

(** [d[key]] on a dictionary kept as its list of items. *)
Fixpoint dict_get (key : string) (d : list (string * string)) : option string :=
  match d with
  | [] => None
  | (k, v) :: d' => if String.eqb key k then Some v else dict_get key d'
  end.

(** [np.linalg.norm(a)] of a vector: the square root of [a.dot(a)]. *)
Definition norm (env : Env) (a : list float) : float := PrimFloat.sqrt (np_dot env a a).

(** [cosine_similarity]: binary64 arithmetic, so a zero vector gives NaN
    (0/0) and no exception; vectors of different lengths make [np.dot]
    raise. *)
Definition cosine_similarity (env : Env) (a b : list float) : outcome float :=
  if (length a =? length b)%nat
  then Returns (np_dot env a b / (norm env a * norm env b))%float
  else Raises "shapes not aligned".

(** The loop of [identify_use_case_id] over the embedded catalog. *)
Fixpoint best_match (env : Env) (query_embedding : list float)
    (items : list (string * list float))
    (best_id : option string) (best_score : float) : outcome (option string) :=
  match items with
  | [] => Returns best_id
  | (uc, uc_embedding) :: items' =>
      match cosine_similarity env query_embedding uc_embedding with
      | Raises msg => Raises msg
      | Returns score =>
          if PrimFloat.ltb best_score score
          then best_match env query_embedding items' (Some uc) score
          else best_match env query_embedding items' best_id best_score
      end
  end.

(** [identify_use_case_id(user_query, use_case_dict)] *)
Definition identify_use_case_id (env : Env) (user_query : string)
    (use_case_dict : list (string * string)) : M (option string) :=
  let* embed_query := call EmbeddingsLoaded (fun _ => hf_embeddings env) in
  let USE_CASE_EMBEDDINGS := map (fun '(uc, name) => (uc, embed_query name)) use_case_dict in
  let query_embedding := embed_query user_query in
  fun w => (best_match env query_embedding USE_CASE_EMBEDDINGS None (-1)%float, w).

(** ["\n\n".join([chunk.content for chunk in chunks])] *)
Definition join_chunks (chunks : list DocumentChunk) : string :=
  PyStr.join (String PyStr.newline (String PyStr.newline EmptyString)) (map content chunks).

(** [QueryAnalysisAgent.run] *)
Definition QueryAnalysisAgent_run (env : Env) (state : AgentState) : M AgentState :=
  let user_query := user_query state in
  try_except
    (let* use_case_id := identify_use_case_id env user_query use_case_names in
     (* [use_case_id not in self.use_case_names], true of [None] as well *)
     match use_case_id ≫= (fun i => (fun n => (i, n)) <$> dict_get i use_case_names) with
     | None =>
         ret (set_description_summary None (set_use_case_name None (set_use_case_id None
           (set_error (Some ("Could not identify a valid use case from query. Got: "
                               +:+ PyStr.fmt use_case_id)) state))))
     | Some (uc, use_case_name) =>
         let* description_chunks :=
           call (VectorSearch uc DESCRIPTION)
                (fun t => vector_search env t user_query 10 uc DESCRIPTION) in
         match description_chunks with
         | [] =>
             ret (set_description_summary None (set_use_case_name (Some use_case_name)
               (set_use_case_id (Some uc)
                 (set_error (Some ("No description found for use case " +:+ uc)) state))))
         | _ =>
             let* requirement_chunks :=
               call (VectorSearch uc REQUIREMENTS)
                    (fun t => vector_search env t user_query 10 uc REQUIREMENTS) in
             match requirement_chunks with
             | [] =>
                 ret (set_description_summary None (set_use_case_name (Some use_case_name)
                   (set_use_case_id (Some uc)
                     (set_error (Some ("No requirement found for use case " +:+ uc)) state))))
             | _ =>
                 let description_text := join_chunks description_chunks in
                 let requirement_text := join_chunks requirement_chunks in
                 let* summary :=
                   call SummarizeCall
                        (fun t => summarize_chain env t
                           [("use_case_name", use_case_name);
                            ("description", description_text)]) in
                 ret (set_error None (set_requirement_list (Some requirement_text)
                   (set_description_summary (Some summary)
                     (set_use_case_name (Some use_case_name)
                       (set_use_case_id (Some uc) state)))))
             end
         end
     end)
    (fun e =>
       ret (set_requirement_list None (set_description_summary None
         (set_use_case_name None (set_use_case_id None
           (set_error (Some ("Query analysis failed: " +:+ e)) state)))))).

(** ** The Designer ([design_agent_react.py]) *)

Definition quote : string := String (ascii_of_nat 34) EmptyString.
Definition nl : string := String PyStr.newline EmptyString.

(** What the loop over [final_messages] accumulates. *)
Record Extraction := mkExtraction {
  design : string;
  research_queries : list string;
  research_summaries : string;
  tool_call_ids : gset string
}.

(** The inner loop over [msg.tool_calls]. *)
Definition collect_tool_calls (calls : list ToolCall) (x : Extraction) : Extraction :=
  foldl (fun x tc =>
           if String.eqb (tc_name tc) "research" && PyStr.nonempty (tc_query tc)
           then mkExtraction (design x) (research_queries x ++ [tc_query tc])
                  (research_summaries x) ({[tc_id tc]} ∪ tool_call_ids x)
           else x)
        x calls.

(** The body of the loop for one message: research queries, research
    summaries, and the latest answer of the model that calls no tool. *)
Definition extract_message (x : Extraction) (msg : Message) : Extraction :=
  let x1 :=
    match tool_calls msg with
    | Some (tc :: tcs) => collect_tool_calls (tc :: tcs) x
    | _ => x
    end in
  let x2 :=
    match tool_call_id msg with
    | Some tool_id =>
        if String.eqb (msg_type msg) "tool" && bool_decide (tool_id ∈ tool_call_ids x1)
        then mkExtraction (design x1) (research_queries x1)
               (research_summaries x1 +:+ msg_content msg) (tool_call_ids x1)
        else x1
    | None => x1
    end in
  if PyStr.nonempty (msg_content msg) && String.eqb (msg_type msg) "ai"
  then match tool_calls msg with
       | None | Some [] =>
           mkExtraction (msg_content msg) (research_queries x2) (research_summaries x2)
             (tool_call_ids x2)
       | Some _ => x2
       end
  else x2.

(** The fallback loop over [reversed(final_messages)]. *)
Definition last_ai_content (final_messages : list Message) : string :=
  match filter (fun m => Is_true (PyStr.nonempty (msg_content m)
                                   && String.eqb (msg_type m) "ai"))
               (rev final_messages) with
  | m :: _ => msg_content m
  | [] => EmptyString
  end.

(** From the messages of the agent to the design text and the research
    summaries. *)
Definition extract_design (final_messages : list Message) : string * string :=
  let x := foldl extract_message (mkExtraction EmptyString [] EmptyString ∅) final_messages in
  let design0 := if PyStr.nonempty (design x) then design x else last_ai_content final_messages in
  let design1 :=
    match research_queries x with
    | [] => design0
    | qs =>
        ("## Research Conducted" +:+ nl +:+ "The agent researched the following topics:" +:+ nl
           +:+ foldr (fun q acc => "- " +:+ quote +:+ q +:+ quote +:+ nl +:+ acc) EmptyString qs
           +:+ nl +:+ "---" +:+ nl +:+ nl)
        +:+ design0
    end in
  (design1, research_summaries x).

(** [DesignAgentReAct.run] *)
Definition DesignAgentReAct_run (env : Env) (state : AgentState) : M AgentState :=
  let use_case_id := use_case_id state in
  let use_case_name := use_case_name state in
  let description_summary := description_summary state in
  let feedback :=
    if PyStr.truthy (feedback state) then PyStr.fmt (feedback state)
    else "No feedback yet - this is the first design iteration." in
  if negb (PyStr.truthy use_case_id) || negb (PyStr.truthy description_summary)
  then ret (set_system_design None
         (set_error (Some "Design agent requires use_case_id and description_summary") state))
  else
    try_except
      (let requirements_text := requirement_list state in
       let* lessons := get_lessons use_case_id use_case_name in
       let learned_lessons := get_lessons_text lessons in
       let user_message : PromptInput :=
         ([("use_case_id", PyStr.fmt use_case_id);
           ("use_case_name", PyStr.fmt use_case_name);
           ("description_summary", PyStr.fmt description_summary)]
          ++ (if PyStr.truthy (research_search state)
              then [("research_search", PyStr.fmt (research_search state))] else [])
          ++ [("requirements_text", PyStr.fmt requirements_text);
              ("learned_lessons", learned_lessons);
              ("feedback", feedback)])%list in
       let* final_messages := call DesignCall (fun t => react_agent env t user_message) in
       let '(design, research_summaries) := extract_design final_messages in
       ret (set_error None (set_system_design (Some design)
         (set_research_search (Some research_summaries)
           (set_requirement_list requirements_text state)))))
      (fun e =>
         ret (set_system_design None
           (set_error (Some ("Design generation failed: " +:+ e)) state))).

(** ** The Critic ([feedback_agent.py]) *)

(** Lines 196-199, the body of the loop: the lesson is cleaned and, if
    something is left, added to the memory. *)
Definition save_lesson (env : Env) (use_case_id use_case_name : option string)
    (lesson : string) : M unit :=
  let clean := clean_lesson lesson in
  if PyStr.nonempty clean then add_lesson env use_case_id use_case_name clean
  else ret tt.

(** Lines 194-199: the loop over the lines of the extracted lessons. *)
Definition save_lessons (env : Env) (use_case_id use_case_name : option string)
    (lessons_text : string) : M unit :=
  for_each (lesson_lines lessons_text) (save_lesson env use_case_id use_case_name).

(** Lines 201-220: the report.  The two symbols that open the status line
    are kept as the bytes of their UTF-8 encoding. *)
Definition compose_final_response (is_approved : bool) (state : AgentState)
    (evaluation lessons_text : string) : string :=
  let final_status :=
    if is_approved then "✅ Design APPROVED"
    else "⚠️ Design finalized after " +:+ PyStr.of_Z (max_iterations state)
           +:+ " iterations (max reached)" in
  final_status +:+ nl +:+ nl
  +:+ "## Use Case" +:+ nl
  +:+ PyStr.fmt (use_case_id state) +:+ ": " +:+ PyStr.fmt (use_case_name state) +:+ nl +:+ nl
  +:+ "## Final System Design" +:+ nl
  +:+ PyStr.fmt (system_design state) +:+ nl +:+ nl
  +:+ "## Evaluation Summary" +:+ nl
  +:+ evaluation +:+ nl +:+ nl
  +:+ "## Lessons Learned (saved for future designs)" +:+ nl
  +:+ lessons_text +:+ nl.

(** [FeedbackAgent.run] *)
Definition FeedbackAgent_run (env : Env) (state : AgentState) : M AgentState :=
  let use_case_id := use_case_id state in
  let use_case_name := use_case_name state in
  let requirement_list := requirement_list state in
  let system_design := system_design state in
  let iteration := iteration state in
  let max_iterations := max_iterations state in
  if negb (PyStr.truthy system_design) || negb (PyStr.truthy requirement_list)
  then ret (set_is_approved false
         (set_error (Some "Feedback agent requires system_design and requirement_list") state))
  else
    try_except
      (let* evaluation :=
         call EvaluationCall (fun t => evaluation_chain env t
           [("use_case_id", PyStr.fmt use_case_id);
            ("use_case_name", PyStr.fmt use_case_name);
            ("requirements", PyStr.fmt requirement_list);
            ("system_design", PyStr.fmt system_design);
            ("iteration", PyStr.of_Z (iteration + 1));
            ("max_iterations", PyStr.of_Z max_iterations)]) in
       let is_approved := parse_verdict evaluation in
       let is_final_iteration := (max_iterations <=? iteration + 1)%Z in
       if is_approved || is_final_iteration
       then
         let* lessons_text :=
           call LessonsCall (fun t => lessons_chain env t
             [("use_case_name", PyStr.fmt use_case_name);
              ("requirements", PyStr.fmt requirement_list);
              ("system_design", PyStr.fmt system_design);
              ("feedback", evaluation)]) in
         let* _ := save_lessons env use_case_id use_case_name lessons_text in
         let final_response :=
           compose_final_response is_approved state evaluation lessons_text in
         ret (set_error None (set_final_response (Some final_response)
           (set_iteration (iteration + 1)%Z (set_is_approved true
             (set_feedback (Some evaluation) state)))))
       else
         ret (set_error None (set_final_response None
           (set_iteration (iteration + 1)%Z (set_is_approved false
             (set_feedback (Some evaluation) state))))))
      (fun e =>
         ret (set_is_approved false
           (set_error (Some ("Feedback evaluation failed: " +:+ e)) state))).

(** ** The workflow graph ([graph.py]) *)

Inductive Node := N_query | N_design | N_feedback.

#[global] Instance Node_eq_dec : EqDecision Node.
Proof. solve_decision. Defined.

(** [truthy] of [state.get(key)] *)
Definition route_after_query (state : AgentState) : option Node :=
  if PyStr.truthy (error state) then None
  else if negb (PyStr.truthy (use_case_id state)) then None
  else Some N_design.

Definition route_after_feedback (state : AgentState) : option Node :=
  if PyStr.truthy (error state) then None
  else if is_approved state then None
  else if PyStr.truthy (final_response state) then None else Some N_design.

(** The node functions of [create_workflow(vector_store, memory, max_iterations)]. *)
Definition query_node (env : Env) (max_iterations : Z) (state : AgentState) : M AgentState :=
  let* result := QueryAnalysisAgent_run env state in
  ret (set_max_iterations max_iterations result).

Definition design_node (env : Env) (state : AgentState) : M AgentState :=
  DesignAgentReAct_run env state.

Definition feedback_node (env : Env) (state : AgentState) : M AgentState :=
  FeedbackAgent_run env state.

Definition run_node (env : Env) (max_iterations : Z) (n : Node) : AgentState -> M AgentState :=
  match n with
  | N_query => query_node env max_iterations
  | N_design => design_node env
  | N_feedback => feedback_node env
  end.

(** The edges: the two conditional ones and [add_edge("design", "feedback")];
    [None] is [END]. *)
Definition next_node (n : Node) (state : AgentState) : option Node :=
  match n with
  | N_query => route_after_query state
  | N_design => Some N_feedback
  | N_feedback => route_after_feedback state
  end.

(** [initial_state] of [run_design_workflow] *)
Definition initial_state (user_query : string) (max_iterations : Z) : AgentState :=
  mkState user_query None None None None None None None false 0 max_iterations None None.

(** [app.stream(state)]: the loop of the runtime, with [steps] turns left
    and [next] the node that the edges lead to ([None] is [END]).  A turn
    first checks the limit, then looks for the node to run and ends the
    stream when there is none; otherwise the node runs and the pair of the
    node and the state it returned is yielded.  What the nodes did before
    the limit is reached stays done. *)
Fixpoint app_stream (env : Env) (max_iterations : Z) (steps : nat) (next : option Node)
    (state : AgentState) (w : World) : outcome (list (Node * AgentState)) * World :=
  match steps with
  | O => (Raises (GraphRecursionError env), w)
  | S steps' =>
      match next with
      | None => (Returns [], w)
      | Some n =>
          match run_node env max_iterations n state w with
          | (Raises msg, w') => (Raises msg, w')
          | (Returns state', w') =>
              match app_stream env max_iterations steps' (next_node n state') state' w' with
              | (Returns rest, w'') => (Returns ((n, state') :: rest), w'')
              | (Raises msg, w'') => (Raises msg, w'')
              end
          end
      end
  end.

(** [create_app]: [create_workflow] builds the three agents before the
    graph.  The constructors of the Designer and of the Critic read
    [GROQ_API_KEY] and raise without it; what else they do builds clients
    and chains and sends nothing. *)
Definition create_app (env : Env) : outcome unit :=
  if PyStr.truthy (groq_api_key env) then Returns tt
  else Raises "GROQ_API_KEY not found in environment".

(** [run_design_workflow]: the app is created, the stream starts at the
    entry point with the step limit of the library, and the last state
    yielded is returned. *)
Definition run_design_workflow (env : Env) (user_query : string) (max_iterations : Z)
  : M (option AgentState) :=
  fun w =>
    match create_app env with
    | Raises msg => (Raises msg, w)
    | Returns _ =>
        match app_stream env max_iterations (recursion_limit env) (Some N_query)
                (initial_state user_query max_iterations) w with
        | (Returns stream, w') => (Returns (snd <$> last stream), w')
        | (Raises msg, w') => (Raises msg, w')
        end
    end.

(** The states of a run: the initial one, and every state a node returns
    when run on a reachable state that an edge leads to.  The first
    component is the node that returned the state. *)
Inductive reachable (env : Env) (user_query : string) (max_iterations : Z) (w0 : World)
  : option Node -> AgentState -> World -> Prop :=
| reach_init :
    reachable env user_query max_iterations w0 None
      (initial_state user_query max_iterations) w0
| reach_step prev state w n state' w' :
    reachable env user_query max_iterations w0 prev state w ->
    match prev with None => Some N_query | Some p => next_node p state end = Some n ->
    run_node env max_iterations n state w = (Returns state', w') ->
    reachable env user_query max_iterations w0 (Some n) state' w'.

(** The number of times the Critic ran in a stream. *)
Definition critic_invocations (stream : list (Node * AgentState)) : nat :=
  length (filter (fun p => p.1 = N_feedback) stream).

(** ** Notions the properties are stated with *)

(** *** Occurrence of a token up to the case of letters *)

(** An ASCII capital letter. *)
Definition is_upper_letter (c : ascii) : bool :=
  let n := nat_of_ascii c in (65 <=? n)%nat && (n <=? 90)%nat.

(** Equal characters, or a capital letter and its small letter (32 above). *)
Definition same_letter (a b : ascii) : Prop :=
  a = b
  \/ (is_upper_letter a = true /\ nat_of_ascii b = (nat_of_ascii a + 32)%nat)
  \/ (is_upper_letter b = true /\ nat_of_ascii a = (nat_of_ascii b + 32)%nat).

(** Texts that agree character by character up to case. *)
Fixpoint same_text (s t : string) : Prop :=
  match s, t with
  | EmptyString, EmptyString => True
  | String a s', String b t' => same_letter a b /\ same_text s' t'
  | _, _ => False
  end.

(** The token occurs in the text as a substring, up to case. *)
Definition occurs_ignoring_case (token text : string) : Prop :=
  exists before middle after,
    text = before +:+ middle +:+ after /\ same_text middle token.

(** *** The rule for the lines of lessons, in the words of the specification *)

(** Every character of the text satisfies [p]. *)
Fixpoint all_chars (p : ascii -> bool) (s : string) : bool :=
  match s with
  | EmptyString => true
  | String c s' => p c && all_chars p s'
  end.

Definition first_char (s : string) : option ascii :=
  match s with
  | EmptyString => None
  | String c _ => Some c
  end.

Fixpoint last_char (s : string) : option ascii :=
  match s with
  | EmptyString => None
  | String c EmptyString => Some c
  | String _ s' => last_char s'
  end.

(** The character, if there is one, does not satisfy [p]. *)
Definition fails (p : ascii -> bool) (c : option ascii) : Prop :=
  match c with
  | Some c => p c = false
  | None => True
  end.

(** An enumeration marker: a digit, [.], [-], [)] or a space. *)
Definition is_marker (c : ascii) : bool :=
  let n := nat_of_ascii c in
  ((48 <=? n)%nat && (n <=? 57)%nat)
  || (n =? 46)%nat || (n =? 45)%nat || (n =? 41)%nat || (n =? 32)%nat.

(** What the rule leaves of a line.  The line is read from the left as
    white space, then enumeration markers, then white space, then the
    lesson, then white space; each run is as long as it can be, so the
    markers start with a character that is not white space, what follows
    them does not start with a marker, and the lesson neither starts nor
    ends with white space.  The lesson is empty when nothing is left. *)
Definition cleaned_line (line lesson : string) : Prop :=
  exists a m b c,
    line = a +:+ m +:+ b +:+ lesson +:+ c
    /\ all_chars PyStr.isspace a = true
    /\ all_chars is_marker m = true
    /\ all_chars PyStr.isspace b = true
    /\ all_chars PyStr.isspace c = true
    /\ fails PyStr.isspace (first_char (m +:+ b +:+ lesson))
    /\ fails is_marker (first_char (b +:+ lesson))
    /\ fails PyStr.isspace (first_char lesson)
    /\ fails PyStr.isspace (last_char lesson).

(** The lessons of a list of lines: what the rule leaves of each line, in
    order, a line of which nothing is left giving no lesson. *)
Inductive lessons_of_lines : list string -> list string -> Prop :=
| lessons_nil : lessons_of_lines [] []
| lessons_skip line lines ls :
    cleaned_line line EmptyString ->
    lessons_of_lines lines ls ->
    lessons_of_lines (line :: lines) ls
| lessons_keep line lines l ls :
    cleaned_line line l ->
    l <> EmptyString ->
    lessons_of_lines lines ls ->
    lessons_of_lines (line :: lines) (l :: ls).

(** *** The similarity score *)

(** What [cosine_similarity] returns on two vectors of one length. *)
Definition similarity (env : Env) (a b : list float) : float :=
  (np_dot env a b / (norm env a * norm env b))%float.

(** *** Observations on memories, results and streams *)

(** The texts of the lessons kept for a use case. *)
Definition lesson_texts (i : string) (d : gmap string UseCaseLessons) : list string :=
  match d !! i with
  | Some l => map lesson (lessons l)
  | None => []
  end.


(** The value a computation returned, if it returned. *)
Definition returned {A} (r : outcome A * World) : option A :=
  match r with
  | (Returns a, _) => Some a
  | (Raises _, _) => None
  end.

(** The world a computation left. *)
Definition world_after {A} (r : outcome A * World) : World := snd r.

(** No state of the stream carries an error. *)
Definition no_error (stream : list (Node * AgentState)) : Prop :=
  Forall (fun p => error p.2 = None) stream.

(** The nodes of a stream with the error each one returned. *)
Definition errors_of (r : outcome (list (Node * AgentState)) * World)
  : list (Node * option string) :=
  match r with
  | (Returns stream, _) => map (fun p => (p.1, error p.2)) stream
  | _ => []
  end.

(** ** Sample collaborators and states *)

Module Sample.

(** A memory with nothing loaded, no call made yet. *)
Definition fresh_world : World := mkWorld (mkMemory ∅) 0 [].

Definition lessons_reply : string :=
  "1. Use circuit breakers" +:+ nl +:+ nl +:+ "- Cache results".

(** A dot product that adds the products in the order of the indices. *)
Definition dot_in_order (a b : list float) : float :=
  foldl (fun acc xy => (acc + xy.1 * xy.2)%float) 0%float (zip a b).

(** The text of the recursion error for a limit. *)
Definition recursion_error_text (limit : nat) : string :=
  "Recursion limit of " +:+ PyStr.of_Z (Z.of_nat limit)
  +:+ " reached without hitting a stop condition. "
  +:+ "You can increase the limit by setting the `recursion_limit` config key.".

(** Everything answers; the Critic's evaluation asks for a revision each
    time.  All embeddings are equal, so every similarity is 1.  The key is
    set and the step limit is 25. *)
Definition env_revise : Env := mkEnv
  (Returns (fun _ => [1%float; 0%float]))
  (fun _ _ _ _ _ => Returns [mkChunk "[PR 5.1.1-1] identify the agent" 0])
  (fun _ _ => Returns "AI agents coordinate smart devices.")
  (fun _ _ => Returns [mkMessage "ai" "## 1. System Overview" (Some []) None])
  (fun _ _ => Returns "### Overall Verdict: NEEDS_REVISION")
  (fun _ _ => Returns lessons_reply)
  (fun _ _ => Returns tt)
  dot_in_order
  (Some "gsk_sample")
  25 (recursion_error_text 25).

(** As [env_revise], with a step limit of 10000. *)
Definition env_revise_long : Env := mkEnv
  (hf_embeddings env_revise) (vector_search env_revise) (summarize_chain env_revise)
  (react_agent env_revise) (evaluation_chain env_revise) (lessons_chain env_revise)
  (write_file env_revise) (np_dot env_revise) (groq_api_key env_revise)
  (Z.to_nat 10000) (recursion_error_text (Z.to_nat 10000)).

(** As [env_revise], but the Designer's agent raises. *)
Definition env_design_fails : Env := mkEnv
  (hf_embeddings env_revise) (vector_search env_revise) (summarize_chain env_revise)
  (fun _ _ => Raises "rate limit")
  (evaluation_chain env_revise) (lessons_chain env_revise) (write_file env_revise)
  (np_dot env_revise) (groq_api_key env_revise)
  (recursion_limit env_revise) (GraphRecursionError env_revise).

(** As [env_revise], but the evaluation call raises. *)
Definition env_evaluation_fails : Env := mkEnv
  (hf_embeddings env_revise) (vector_search env_revise) (summarize_chain env_revise)
  (react_agent env_revise)
  (fun _ _ => Raises "timeout")
  (lessons_chain env_revise) (write_file env_revise)
  (np_dot env_revise) (groq_api_key env_revise)
  (recursion_limit env_revise) (GraphRecursionError env_revise).

(** As [env_revise], but the vector store has no requirement chunk. *)
Definition env_no_requirements : Env := mkEnv
  (hf_embeddings env_revise)
  (fun t q k uc section =>
     match section with
     | DESCRIPTION => vector_search env_revise t q k uc section
     | REQUIREMENTS => Returns []
     end)
  (summarize_chain env_revise) (react_agent env_revise)
  (evaluation_chain env_revise) (lessons_chain env_revise) (write_file env_revise)
  (np_dot env_revise) (groq_api_key env_revise)
  (recursion_limit env_revise) (GraphRecursionError env_revise).

(** As [env_revise], but the embedding of every text is the zero vector. *)
Definition env_zero_embedding : Env := mkEnv
  (Returns (fun _ => [0%float; 0%float]))
  (vector_search env_revise) (summarize_chain env_revise) (react_agent env_revise)
  (evaluation_chain env_revise) (lessons_chain env_revise) (write_file env_revise)
  (np_dot env_revise) (groq_api_key env_revise)
  (recursion_limit env_revise) (GraphRecursionError env_revise).

(** As [env_revise], but the evaluation approves and the extracted lesson
    starts with a digit. *)
Definition env_3gpp : Env := mkEnv
  (hf_embeddings env_revise) (vector_search env_revise) (summarize_chain env_revise)
  (react_agent env_revise)
  (fun _ _ => Returns "### Overall Verdict: APPROVED")
  (fun _ _ => Returns "3GPP interfaces must be secured")
  (write_file env_revise) (np_dot env_revise) (groq_api_key env_revise)
  (recursion_limit env_revise) (GraphRecursionError env_revise).

(** A state as the Classifier leaves it for use case 5.1.1. *)
Definition classified : AgentState :=
  mkState "Design a system for the smart life use case"
    (Some "5.1.1") (Some "AI Agents to Enable Smart Life")
    (Some "AI agents coordinate smart devices.")
    (Some "[PR 5.1.1-1] identify the agent")
    None None None false 0 3 None None.

(** [classified] with an empty use case name. *)
Definition unnamed : AgentState := set_use_case_name (Some EmptyString) classified.

(** [classified] without the summary of the description. *)
Definition unsummarized : AgentState := set_description_summary None classified.

(** [classified] with a design, as the Designer leaves it. *)
Definition designed : AgentState :=
  set_system_design (Some "## 1. System Overview") classified.

(** [designed] in the last round of a run of three. *)
Definition last_round : AgentState := set_iteration 2%Z designed.

End Sample.


From stdpp Require Import sorting.

(** ** The terminal front end ([main.py]) *)

(** What [run_query] prints for the state that the workflow returned. *)
Inductive Report :=
| ShowError (message : string)
| ShowFinal (final : string)
| ShowPartial (partial_design : option string).

(** The three branches of [run_query] (lines 160-171): the error, else the
    final response, else "No response generated" with the partial design
    when there is one. *)
Definition run_query_report (result : AgentState) : Report :=
  if PyStr.truthy (error result) then ShowError (PyStr.fmt (error result))
  else if PyStr.truthy (final_response result)
       then ShowFinal (PyStr.fmt (final_response result))
       else ShowPartial (if PyStr.truthy (system_design result)
                         then system_design result else None).

(** ** Messages of the agent *)

(** A message of the model with a text: what both loops of the Designer
    over the messages look for. *)
Definition is_ai_text (m : Message) : bool :=
  PyStr.nonempty (msg_content m) && String.eqb (msg_type m) "ai".

(** ** Events that concern the lessons *)

(** The extraction of lessons and the writes of the file, among the events
    of a log. *)
Definition is_lesson_event (e : Event) : bool :=
  match e with
  | LessonsCall | FileWritten _ => true
  | _ => false
  end.

Definition lesson_events (events : list Event) : list Event :=
  filter (fun e => Is_true (is_lesson_event e)) events.

(** ** The research tool ([mcp_tools.py]) *)

(** [l[:n]] for an [int] [n]: a negative [n] counts from the end. *)
Definition py_prefix {A} (n : Z) (l : list A) : list A :=
  if (0 <=? n)%Z then take (Z.to_nat n) l
  else take (length l - Z.to_nat (- n)) l.

(** One entry of [data["web"]["results"]]; [None] for a key that the entry
    does not have. *)
Record WebItem := mkWebItem {
  item_title : option string;
  item_url : option string;
  item_description : option string
}.

(** One dictionary of the list that [brave_search] returns. *)
Record SearchResult := mkSearchResult {
  title : string;
  url : string;
  description : string
}.

(** [item.get(key, "")] *)
Definition get_or_empty (field : option string) : string :=
  match field with Some v => v | None => EmptyString end.

(** Lines 60-70 of [brave_search_async]: the first [num_results] entries,
    each key defaulting to the empty text. *)
Definition brave_results (web_results : list WebItem) (num_results : Z) : list SearchResult :=
  map (fun item => mkSearchResult (get_or_empty (item_title item))
                     (get_or_empty (item_url item))
                     (get_or_empty (item_description item)))
      (py_prefix num_results web_results).

(** [brave_search]: the key of the environment is checked first; [http] is
    what the request and the decoding of its answer give,
    [data.get("web", {}).get("results", [])] or the exception raised. *)
Definition brave_search (api_key : option string) (http : outcome (list WebItem))
    (num_results : Z) : outcome (list SearchResult) :=
  if negb (PyStr.truthy api_key) then Raises "BRAVE_API_KEY not found in environment"
  else match http with
       | Returns web_results => Returns (brave_results web_results num_results)
       | Raises msg => Raises msg
       end.

(** The text of the results handed to the summarizer (lines 128-131). *)
Definition results_text (results : list SearchResult) : string :=
  PyStr.join (nl +:+ nl)
    (map (fun r => "**" +:+ title r +:+ "**" +:+ nl +:+ url r +:+ nl +:+ description r)
       results).

(** [ResearchTool.search_and_summarize]; [llm] is [self.llm.invoke] followed
    by [.content]. *)
Definition search_and_summarize (search : outcome (list SearchResult))
    (llm : PromptInput -> outcome string) (query focus : string) : outcome string :=
  match search with
  | Raises e => Returns ("Search failed: " +:+ e)
  | Returns [] => Returns "No search results found."
  | Returns results =>
      let focus_instruction :=
        if PyStr.nonempty focus then nl +:+ "Focus specifically on: " +:+ focus
        else EmptyString in
      llm [("focus_instruction", focus_instruction);
           ("query", query);
           ("results_text", results_text results)]
  end.

(** The tool [research(query, focus)] on top of the search with its default
    of five results. *)
Definition research (api_key : option string) (http : outcome (list WebItem))
    (llm : PromptInput -> outcome string) (query focus : string) : outcome string :=
  search_and_summarize (brave_search api_key http 5) llm query focus.

(** ** The vector store ([vector_store.py]) *)

Inductive UseCaseCategory := CONSUMER | BUSINESS | OPERATOR.

(** The filter handed to Chroma: none, one condition [{key: {"$eq": value}}],
    or [{"$and": [...]}] over several. *)
Inductive Where :=
| NoFilter
| WhereEq (key value : string)
| WhereAnd (conditions : list (string * string)).

(** [build_metadata_filter]: one entry for each argument that is true, in
    this order.  The members of the two enumerations are declared outside
    these sources; their [.value] is a parameter, and a member counts as
    true. *)
Definition build_metadata_filter (section_value : SectionType -> string)
    (category_value : UseCaseCategory -> string)
    (use_case_id : option string) (section_type : option SectionType)
    (category : option UseCaseCategory) : list (string * string) :=
  (if PyStr.truthy use_case_id then [("use_case_id", PyStr.fmt use_case_id)] else [])
  ++ match section_type with
     | Some st => [("section_type", section_value st)]
     | None => []
     end
  ++ match category with
     | Some c => [("category", category_value c)]
     | None => []
     end.

(** Lines 203-218 of [ChromaVectorStore.search]. *)
Definition where_filter (filter_dict : list (string * string)) : Where :=
  match filter_dict with
  | [] => NoFilter
  | [(key, value)] => WhereEq key value
  | _ => WhereAnd filter_dict
  end.

(** [chunks.sort(key=lambda c: c.chunk_index)]: the sort of Python is
    stable, and so is this insertion sort, which puts a chunk in front of
    the chunks of the same index that came after it. *)
Fixpoint insert_chunk (c : DocumentChunk) (sorted : list DocumentChunk) : list DocumentChunk :=
  match sorted with
  | [] => [c]
  | d :: rest =>
      if (chunk_index c <=? chunk_index d)%Z then c :: d :: rest
      else d :: insert_chunk c rest
  end.

Fixpoint sort_chunks (chunks : list DocumentChunk) : list DocumentChunk :=
  match chunks with
  | [] => []
  | c :: rest => insert_chunk c (sort_chunks rest)
  end.

(** [ChromaVectorStore.search]; [similarity_search] is the search of the
    store with the conversion of its documents to chunks. *)
Definition ChromaVectorStore_search (section_value : SectionType -> string)
    (category_value : UseCaseCategory -> string)
    (similarity_search : string -> Z -> Where -> outcome (list DocumentChunk))
    (query : string) (k : Z) (use_case_id : option string)
    (section_type : option SectionType) (category : option UseCaseCategory)
  : outcome (list DocumentChunk) :=
  let filter_dict :=
    build_metadata_filter section_value category_value use_case_id section_type category in
  match similarity_search query k (where_filter filter_dict) with
  | Returns results => Returns (sort_chunks results)
  | Raises msg => Raises msg
  end.

(** Chunks in the order of their index. *)
Definition in_document_order (chunks : list DocumentChunk) : Prop :=
  StronglySorted (fun a b => (chunk_index a <= chunk_index b)%Z) chunks.

(** The chunks of one index, in their order. *)
Definition chunks_at (index : Z) (chunks : list DocumentChunk) : list DocumentChunk :=
  filter (fun c => chunk_index c = index) chunks.

(** ** The HTTP interface ([api/models.py], [api/routes.py]) *)

(** The constraints of [DesignRequest]: a query of at least five
    characters and a bound between 1 and 5. *)
Definition DesignRequest_valid (query : string) (max_iterations : Z) : bool :=
  (5 <=? String.length query)%nat && (1 <=? max_iterations)%Z && (max_iterations <=? 5)%Z.

Inductive TaskStatus := PENDING | RUNNING | COMPLETED | FAILED.

Inductive WorkflowStep := QUERY_ANALYSIS | DESIGN | FEEDBACK | DONE.

(** The dictionary stored under ["progress"]. *)
Record WorkflowProgress := mkProgress {
  current_step : WorkflowStep;
  progress_iteration : Z;
  progress_max_iterations : Z;
  steps_completed : list string
}.

(** The dictionary stored under ["result"]. *)
Record DesignResult := mkResult {
  result_task_id : string;
  result_status : TaskStatus;
  result_use_case_id : option string;
  result_use_case_name : option string;
  result_description_summary : option string;
  result_requirement_list : option string;
  result_system_design : option string;
  result_feedback : option string;
  result_is_approved : bool;
  result_iteration : Z;
  result_final_response : option string;
  result_error : option string;
  result_created_at : nat;
  result_completed_at : option nat
}.

(** One entry of the table [tasks]. *)
Record Task := mkTask {
  task_id : string;
  task_status : TaskStatus;
  task_query : string;
  task_max_iterations : Z;
  task_created_at : nat;
  task_completed_at : option nat;
  task_progress : option WorkflowProgress;
  task_result : option DesignResult;
  task_error : option string
}.

(** The entry that [start_design] stores for a new task. *)
Definition new_task (id query : string) (max_iterations : Z) (now : nat) : Task :=
  mkTask id PENDING query max_iterations now None None None None.

(** [str(KeyError(key))] *)
Definition key_error (key : string) : string := "'" +:+ key +:+ "'".

(** [run_design_task]: the task is marked as running, the workflow runs,
    and its last state is copied into the result of the task, marked as
    completed; an exception on the way marks the task as failed, with the
    text of the exception.  An assignment into the entry of an id that is
    not in the table raises, inside and outside the handler. *)
Definition run_design_task (env : Env) (id query : string)
    (max_iterations : Z) (tasks : gmap string Task) (w : World)
  : outcome unit * gmap string Task * World :=
  match tasks !! id with
  | None => (Raises (key_error id), tasks, w)
  | Some t =>
      let running :=
        mkTask (task_id t) RUNNING (task_query t) (task_max_iterations t) (task_created_at t)
          (task_completed_at t)
          (Some (mkProgress QUERY_ANALYSIS 0 max_iterations [])) (task_result t) (task_error t) in
      match run_design_workflow env query max_iterations w with
      | (Returns (Some result), w') =>
          let completed_at := Some (clock w') in
          (Returns tt,
           <[id := mkTask (task_id t) COMPLETED (task_query t) (task_max_iterations t)
                     (task_created_at t) completed_at (task_progress running)
                     (Some (mkResult id COMPLETED (use_case_id result)
                              (use_case_name result) (description_summary result)
                              (requirement_list result) (system_design result)
                              (feedback result) (is_approved result) (iteration result)
                              (final_response result) (error result)
                              (task_created_at t) completed_at))
                     (task_error t)]> tasks,
           w')
      | (Returns None, w') =>
          (Returns tt,
           <[id := mkTask (task_id t) FAILED (task_query t) (task_max_iterations t)
                     (task_created_at t) (Some (clock w')) (task_progress running)
                     (task_result t)
                     (Some "'NoneType' object has no attribute 'get'")]> tasks,
           w')
      | (Raises msg, w') =>
          (Returns tt,
           <[id := mkTask (task_id t) FAILED (task_query t) (task_max_iterations t)
                     (task_created_at t) (Some (clock w')) (task_progress running)
                     (task_result t) (Some msg)]> tasks,
           w')
      end
  end.

(** [USE_CASES] of [routes.py]: name and category of each use case. *)
Definition USE_CASES : list (string * (string * string)) :=
  [ ("5.1.1", ("AI Agents to Enable Smart Life", "consumer"));
    ("5.1.2", ("Network-Assisted Collaborative Robots", "consumer"));
    ("5.1.3", ("AI Phone", "consumer"));
    ("5.2.1", ("AI Agent-based Customized Network for Smart City Traffic Monitoring",
               "business"));
    ("5.2.2", ("AI Agents-Based Customized Network for Smart Construction Sites",
               "business"));
    ("5.2.3", ("AI Agent Ensuring Game Acceleration Experience", "business"));
    ("5.2.4", ("AI Agent-Assisted Collaborative Energy Distribution in Power Enterprises",
               "business"));
    ("5.3.1", ("AI Agent-Based Autonomous Network Management", "operator"));
    ("5.3.2", ("AI Agent-Based Disaster Handling Network Management", "operator"));
    ("5.3.3", ("AI Agent-Based Time-Sensitive Network Management", "operator"));
    ("5.3.4", ("AI Agent-Driven Core Network Signalling Optimization", "operator"));
    ("5.3.5", ("AI Agent-Based Core Networks to Enhance User Experience", "operator")) ].

(** [UseCaseLessonsResponse] *)
Record UseCaseLessonsResponse := mkLessonsResponse {
  response_use_case_id : string;
  response_use_case_name : string;
  response_lessons : list DesignLesson
}.

(** [AllLessonsResponse] *)
Record AllLessonsResponse := mkAllLessons {
  response_use_cases : list UseCaseLessonsResponse;
  total_lessons : nat
}.

(** The loop of [get_all_lessons] over a table of use cases, from the
    responses and the total collected so far. *)
Fixpoint collect_lessons (table : list (string * (string * string)))
    (use_cases : list UseCaseLessonsResponse) (total : nat) : M AllLessonsResponse :=
  match table with
  | [] => ret (mkAllLessons use_cases total)
  | (uc_id, (name, _)) :: table' =>
      let* lessons_data := get_lessons (Some uc_id) (Some name) in
      match lessons lessons_data with
      | [] => collect_lessons table' use_cases total
      | ls =>
          collect_lessons table'
            (use_cases ++ [mkLessonsResponse uc_id name ls]) (total + length ls)
      end
  end.

(** [get_all_lessons] *)
Definition get_all_lessons : M AllLessonsResponse := collect_lessons USE_CASES [] 0.

(** The count of lessons in [health_check] (lines 154-158). *)
Fixpoint count_lessons (table : list (string * (string * string))) (lesson_count : nat)
  : M nat :=
  match table with
  | [] => ret lesson_count
  | (uc_id, (name, _)) :: table' =>
      let* lessons_data := get_lessons (Some uc_id) (Some name) in
      count_lessons table' (lesson_count + length (lessons lessons_data))
  end.

(** The number of lessons stored for the use cases of a table. *)
Definition stored_total (table : list (string * (string * string)))
    (d : gmap string UseCaseLessons) : nat :=
  sum_list (map (fun u => length (lesson_texts u.1 d)) table).

(** [USE_CASES[use_case_id]] and the test [use_case_id in USE_CASES]. *)
Fixpoint use_case_entry (use_case_id : string) (table : list (string * (string * string)))
  : option (string * string) :=
  match table with
  | [] => None
  | (k, v) :: table' => if String.eqb use_case_id k then Some v else use_case_entry use_case_id table'
  end.

(** What an endpoint answers: its response, or the error of an
    [HTTPException]. *)
Inductive HttpAnswer (A : Type) :=
| Answer (response : A)
| HttpError (status_code : Z) (detail : string).
Arguments Answer {A} response.
Arguments HttpError {A} status_code detail.

(** [get_use_case_lessons] *)
Definition get_use_case_lessons (use_case_id : string) : M (HttpAnswer UseCaseLessonsResponse) :=
  match use_case_entry use_case_id USE_CASES with
  | None => ret (HttpError 404 "Use case not found")
  | Some (name, _) =>
      let* lessons_data := get_lessons (Some use_case_id) (Some name) in
      ret (Answer (mkLessonsResponse use_case_id name (lessons lessons_data)))
  end.

(** [get_design_status], on the table of tasks. *)
Definition get_design_status (tasks : gmap string Task) (id : string) : HttpAnswer Task :=
  match tasks !! id with
  | None => HttpError 404 "Task not found"
  | Some task => Answer task
  end.

(** The lines of [get_lessons_text] after the first one. *)
Definition numbered (ls : list DesignLesson) : list string :=
  imap (fun i x => "  " +:+ PyStr.of_Z (Z.of_nat (S i)) +:+ ". " +:+ lesson x) ls.

(** ** More sample collaborators *)

Module Sample2.

(** As [Sample.env_revise], but the file of the memory cannot be written. *)
Definition env_read_only : Env := mkEnv
  (hf_embeddings Sample.env_revise) (vector_search Sample.env_revise)
  (summarize_chain Sample.env_revise) (react_agent Sample.env_revise)
  (evaluation_chain Sample.env_revise) (lessons_chain Sample.env_revise)
  (fun _ _ => Raises "read-only file system")
  (np_dot Sample.env_revise) (groq_api_key Sample.env_revise)
  (recursion_limit Sample.env_revise) (GraphRecursionError Sample.env_revise).

(** As [Sample.env_revise], but the agent returns no message at all. *)
Definition env_silent_agent : Env := mkEnv
  (hf_embeddings Sample.env_revise) (vector_search Sample.env_revise)
  (summarize_chain Sample.env_revise)
  (fun _ _ => Returns [])
  (evaluation_chain Sample.env_revise) (lessons_chain Sample.env_revise)
  (write_file Sample.env_revise)
  (np_dot Sample.env_revise) (groq_api_key Sample.env_revise)
  (recursion_limit Sample.env_revise) (GraphRecursionError Sample.env_revise).

(** As [Sample.env_revise], but [GROQ_API_KEY] is not set. *)
Definition env_no_key : Env := mkEnv
  (hf_embeddings Sample.env_revise) (vector_search Sample.env_revise)
  (summarize_chain Sample.env_revise) (react_agent Sample.env_revise)
  (evaluation_chain Sample.env_revise) (lessons_chain Sample.env_revise)
  (write_file Sample.env_revise) (np_dot Sample.env_revise) None
  (recursion_limit Sample.env_revise) (GraphRecursionError Sample.env_revise).

End Sample2.

(** * Properties *)

(** ** Facts about the string functions *)

Section StringFacts.

Lemma app_cons c a b : String c a +:+ b = String c (a +:+ b).
Proof. reflexivity. Qed.

Lemma app_nil_l a : "" +:+ a = a.
Proof. reflexivity. Qed.

Lemma startswith_spec p s :
  PyStr.startswith p s = true <-> exists rest, s = p +:+ rest.
Proof.
  revert s; induction p as [|a p IH]; intros s; simpl.
  - split; [intros _; by exists s | done].
  - destruct s as [|b s]; simpl.
    + split; [done | intros [rest H]; rewrite app_cons in H; discriminate].
    + destruct (Ascii.eqb_spec a b) as [->|Hne].
      * rewrite IH. split; intros [rest H]; exists rest; rewrite ?app_cons in *; congruence.
      * split; [done | intros [rest H]; rewrite app_cons in H; congruence].
Qed.

Lemma contains_spec needle hay :
  PyStr.contains needle hay = true <->
  exists before after, hay = before +:+ needle +:+ after.
Proof.
  induction hay as [|c hay IH]; simpl.
  - rewrite startswith_spec. split.
    + intros [rest H]. exists "", rest. done.
    + intros [before [after H]]. destruct before; rewrite ?app_cons, ?app_nil_l in H.
      * by exists after.
      * discriminate.
  - rewrite orb_true_iff, IH, startswith_spec. split.
    + intros [[rest H] | [before [after H]]].
      * exists "", rest. done.
      * exists (String c before), after. by rewrite app_cons, H.
    + intros [before [after H]]. destruct before as [|d before];
        rewrite ?app_cons, ?app_nil_l in H.
      * left. by exists after.
      * right. exists before, after. congruence.
Qed.

Lemma upper_app a b : PyStr.upper (a +:+ b) = PyStr.upper a +:+ PyStr.upper b.
Proof. induction a as [|c a IH]; [done | by rewrite !app_cons; simpl; rewrite IH, app_cons]. Qed.

Lemma upper_split t x y :
  PyStr.upper t = x +:+ y ->
  exists a b, t = a +:+ b /\ PyStr.upper a = x /\ PyStr.upper b = y.
Proof.
  revert t; induction x as [|c x IH]; intros t H; rewrite ?app_cons, ?app_nil_l in H.
  - exists "", t. done.
  - destruct t as [|d t]; simpl in H; [discriminate|].
    injection H as Hc Ht. destruct (IH _ Ht) as (a & b & -> & Ha & Hb).
    exists (String d a), b. rewrite app_cons. simpl. by rewrite Hc, Ha.
Qed.

End StringFacts.

Section Verdict.

Lemma nat_of_ascii_inj a b : nat_of_ascii a = nat_of_ascii b -> a = b.
Proof.
  intros H. rewrite <- (ascii_nat_embedding a), <- (ascii_nat_embedding b). by rewrite H.
Qed.

Lemma code_upper_char c :
  nat_of_ascii (PyStr.upper_char c) =
  if (97 <=? nat_of_ascii c)%nat && (nat_of_ascii c <=? 122)%nat
  then (nat_of_ascii c - 32)%nat else nat_of_ascii c.
Proof.
  unfold PyStr.upper_char.
  destruct ((97 <=? nat_of_ascii c)%nat && (nat_of_ascii c <=? 122)%nat) eqn:E; [|done].
  apply nat_ascii_embedding. pose proof (nat_ascii_bounded c). lia.
Qed.

Lemma upper_char_same_letter a b :
  PyStr.upper_char a = PyStr.upper_char b <-> same_letter a b.
Proof.
  unfold same_letter, is_upper_letter. split.
  - intros H. apply (f_equal nat_of_ascii) in H. rewrite !code_upper_char in H.
    destruct (decide (nat_of_ascii a = nat_of_ascii b)) as [E|E].
    + left. by apply nat_of_ascii_inj.
    + right.
      destruct (Nat.leb_spec 97 (nat_of_ascii a)), (Nat.leb_spec (nat_of_ascii a) 122),
        (Nat.leb_spec 97 (nat_of_ascii b)), (Nat.leb_spec (nat_of_ascii b) 122);
        simpl in H; try lia.
      all: try (left; split; [apply andb_true_iff; split; apply Nat.leb_le; lia | lia]).
      all: try (right; split; [apply andb_true_iff; split; apply Nat.leb_le; lia | lia]).
  - intros [-> | [[Hu E] | [Hu E]]]; [done | |];
      apply nat_of_ascii_inj; rewrite !code_upper_char;
      apply andb_true_iff in Hu as [H1 H2]; apply Nat.leb_le in H1, H2;
      destruct (Nat.leb_spec 97 (nat_of_ascii a)), (Nat.leb_spec (nat_of_ascii a) 122),
        (Nat.leb_spec 97 (nat_of_ascii b)), (Nat.leb_spec (nat_of_ascii b) 122);
        simpl; lia.
Qed.

Lemma upper_same_text s t : PyStr.upper s = PyStr.upper t <-> same_text s t.
Proof.
  revert t; induction s as [|a s IH]; intros [|b t]; simpl; try done.
  rewrite <- IH, <- upper_char_same_letter. split; [intros [= ? ?] | intros [-> ->]]; done.
Qed.

(** [token in text.upper()] for a token in capitals: the token occurs in
    the text up to the case of its letters. *)
Lemma contains_upper token text :
  PyStr.upper token = token ->
  PyStr.contains token (PyStr.upper text) = true <-> occurs_ignoring_case token text.
Proof.
  intros Htok. rewrite contains_spec. unfold occurs_ignoring_case. split.
  - intros (x & y & H).
    apply upper_split in H as (before & rest & -> & _ & H).
    apply upper_split in H as (middle & after & -> & Hm & _).
    exists before, middle, after. split; [done|].
    apply upper_same_text. by rewrite Htok.
  - intros (before & middle & after & -> & H). apply upper_same_text in H.
    exists (PyStr.upper before), (PyStr.upper after).
    by rewrite !upper_app, H, Htok.
Qed.

End Verdict.

(** ** The memory under the Critic's loop *)

Section Memory.
Variable env : Env.
Hypothesis writes_succeed : forall t d, write_file env t d = Returns tt.

Lemma add_lesson_spec i n text w :
  exists d',
    add_lesson env (Some i) (Some n) text w
    = (Returns tt, mkWorld (mkMemory d') (S (clock w)) (log w ++ [FileWritten d']))
    /\ lesson_texts i d' = lesson_texts i (_data (memory w)) ++ [text]
    /\ forall j, j <> i -> d' !! j = _data (memory w) !! j.
Proof.
  unfold add_lesson, bind, get_lessons, append_lesson, _save, call, lesson_texts.
  destruct (_data (memory w) !! i) as [l|] eqn:E; simpl.
  - eexists. rewrite writes_succeed. split; [reflexivity|]. split.
    + rewrite lookup_alter_eq, E. simpl. by rewrite map_app.
    + intros j Hj. by rewrite lookup_alter_ne.
  - eexists. rewrite writes_succeed. split; [reflexivity|]. split.
    + by rewrite lookup_alter_eq, lookup_insert_eq.
    + intros j Hj. by rewrite lookup_alter_ne, lookup_insert_ne.
Qed.

Lemma save_loop_spec i n (ls : list string) w :
  let saved := filter (fun l => Is_true (PyStr.nonempty l)) (map clean_lesson ls) in
  exists d' (snapshots : list (gmap string UseCaseLessons)),
    for_each ls (save_lesson env (Some i) (Some n)) w
    = (Returns tt,
       mkWorld (mkMemory d') (clock w + length saved) (log w ++ map FileWritten snapshots))
    /\ length snapshots = length saved
    /\ (forall k d, snapshots !! k = Some d ->
          lesson_texts i d = lesson_texts i (_data (memory w)) ++ take (S k) saved)
    /\ lesson_texts i d' = lesson_texts i (_data (memory w)) ++ saved
    /\ (forall j, j <> i -> d' !! j = _data (memory w) !! j).
Proof.
  revert w; induction ls as [|l ls IH]; intros w; simpl.
  - exists (_data (memory w)), []. unfold ret. simpl.
    rewrite Nat.add_0_r, !app_nil_r. destruct w as [[d] c lg]; simpl. done.
  - unfold bind at 1, save_lesson at 1. cbv zeta. rewrite filter_cons.
    destruct (PyStr.nonempty (clean_lesson l)) eqn:E.
    + destruct (add_lesson_spec i n (clean_lesson l) w) as (d1 & -> & Ht & Ho).
      destruct (IH (mkWorld (mkMemory d1) (S (clock w)) (log w ++ [FileWritten d1])))
        as (d' & snaps & -> & Hlen & Hsn & Hfin & Hoth). simpl in *.
      exists d', (d1 :: snaps). simpl. repeat split.
      * f_equal. f_equal; [lia|]. by rewrite <- app_assoc.
      * by rewrite Hlen.
      * intros [|k] d Hk; simpl in Hk.
        -- injection Hk as <-. by rewrite Ht, take_0.
        -- rewrite (Hsn k d Hk), Ht, <- app_assoc. done.
      * by rewrite Hfin, Ht, <- app_assoc.
      * intros j Hj. by rewrite Hoth, Ho.
    + simpl. apply IH.
Qed.

End Memory.

(** ** The three steps, case by case *)

Section Steps.
Variable env : Env.

(** The Critic returns a state on every input, in one of three ways. *)
Lemma FeedbackAgent_run_cases state w :
  exists state' w',
    FeedbackAgent_run env state w = (Returns state', w')
    /\ max_iterations state' = max_iterations state
    /\ ((PyStr.truthy (error state') = true /\ is_approved state' = false
         /\ iteration state' = iteration state
         /\ final_response state' = final_response state)
        \/ (error state' = None /\ is_approved state' = true
            /\ iteration state' = (iteration state + 1)%Z
            /\ is_Some (final_response state')
            /\ exists evaluation,
                 evaluation_chain env (clock w)
                   [("use_case_id", PyStr.fmt (use_case_id state));
                    ("use_case_name", PyStr.fmt (use_case_name state));
                    ("requirements", PyStr.fmt (requirement_list state));
                    ("system_design", PyStr.fmt (system_design state));
                    ("iteration", PyStr.of_Z (iteration state + 1));
                    ("max_iterations", PyStr.of_Z (max_iterations state))]
                 = Returns evaluation
                 /\ (parse_verdict evaluation = true
                     \/ (max_iterations state <= iteration state + 1)%Z))
        \/ (error state' = None /\ is_approved state' = false
            /\ iteration state' = (iteration state + 1)%Z
            /\ final_response state' = None
            /\ (iteration state + 1 < max_iterations state)%Z)).
Proof.
  unfold FeedbackAgent_run.
  destruct (negb (PyStr.truthy (system_design state))
            || negb (PyStr.truthy (requirement_list state))) eqn:Hin.
  { do 2 eexists. split; [reflexivity|]. split; [done|]. left. done. }
  unfold try_except, bind, call at 1.
  destruct (evaluation_chain env (clock w) _) as [evaluation|msg] eqn:Hev; simpl.
  2:{ do 2 eexists. split; [reflexivity|]. split; [done|]. left. done. }
  destruct (parse_verdict evaluation || (max_iterations state <=? iteration state + 1)%Z)
    eqn:Hfin.
  - unfold call. simpl.
    destruct (lessons_chain env _ _) as [lessons_text|msg]; simpl.
    2:{ do 2 eexists. split; [reflexivity|]. split; [done|]. left. done. }
    destruct (save_lessons env _ _ lessons_text _) as [[[]|msg] w2]; simpl.
    2:{ do 2 eexists. split; [reflexivity|]. split; [done|]. left. done. }
    do 2 eexists. split; [reflexivity|]. split; [done|]. right; left.
    repeat split; [by eexists|].
    exists evaluation. split; [done|].
    apply orb_true_iff in Hfin as [?|?%Z.leb_le]; auto.
  - do 2 eexists. split; [reflexivity|]. split; [done|]. right; right.
    apply orb_false_iff in Hfin as [_ ?%Z.leb_gt]. simpl. repeat split; lia.
Qed.

(** The Designer returns a state on every input and leaves the control
    fields alone; when it reports an error there is no design. *)
Lemma DesignAgentReAct_run_cases state w :
  exists state' w',
    DesignAgentReAct_run env state w = (Returns state', w')
    /\ max_iterations state' = max_iterations state
    /\ iteration state' = iteration state
    /\ is_approved state' = is_approved state
    /\ final_response state' = final_response state
    /\ ((PyStr.truthy (error state') = true /\ system_design state' = None)
        \/ (error state' = None /\ is_Some (system_design state'))).
Proof.
  unfold DesignAgentReAct_run.
  destruct (negb (PyStr.truthy (use_case_id state))
            || negb (PyStr.truthy (description_summary state))).
  { do 2 eexists. split; [reflexivity|]. repeat split. left. done. }
  unfold try_except, bind.
  destruct (get_lessons _ _ w) as [[l|msg] w1].
  2:{ do 2 eexists. split; [reflexivity|]. repeat split. left. done. }
  unfold call.
  destruct (react_agent env _ _) as [final_messages|msg].
  2:{ do 2 eexists. split; [reflexivity|]. repeat split. left. done. }
  destruct (extract_design final_messages) as [d r].
  do 2 eexists. split; [reflexivity|]. repeat split. right. split; [done|by eexists].
Qed.

Lemma catalog_key_nonempty uc name :
  dict_get uc use_case_names = Some name -> PyStr.nonempty uc = true.
Proof. destruct uc; [discriminate | done]. Qed.

(** The Classifier's node returns a state on every input, sets the bound
    of the run and leaves the other control fields alone; without error
    the use case is identified. *)
Lemma query_node_cases mi state w :
  exists state' w',
    query_node env mi state w = (Returns state', w')
    /\ max_iterations state' = mi
    /\ iteration state' = iteration state
    /\ is_approved state' = is_approved state
    /\ final_response state' = final_response state
    /\ (PyStr.truthy (error state') = true
        \/ (error state' = None /\ PyStr.truthy (use_case_id state') = true)).
Proof.
  unfold query_node, bind at 1, QueryAnalysisAgent_run, try_except.
  destruct (bind (identify_use_case_id _ _ _) _ w) as [[s1|msg] w1] eqn:Hb.
  2:{ do 2 eexists. split; [reflexivity|]. repeat split. left. done. }
  exists (set_max_iterations mi s1), w1. split; [reflexivity|].
  unfold bind at 1 in Hb.
  destruct (identify_use_case_id _ _ _ w) as [[uc|msg] w2]; [|discriminate].
  destruct (uc ≫= _) as [[i n]|] eqn:Hcat.
  2:{ injection Hb as <- <-. repeat split. left. done. }
  assert (Hi : PyStr.nonempty i = true).
  { destruct uc as [u|]; [|discriminate].
    cbn [mbind option_bind fmap option_fmap option_map] in Hcat.
    destruct (dict_get u use_case_names) as [n'|] eqn:Hd; [|discriminate].
    injection Hcat as <- <-. by eapply catalog_key_nonempty. }
  unfold bind at 1, call at 1 in Hb.
  destruct (vector_search env _ _ _ _ DESCRIPTION) as [[|c cs]|msg]; simpl in Hb;
    [injection Hb as <- <-; repeat split; by left | | discriminate].
  unfold bind at 1, call at 1 in Hb. simpl in Hb.
  destruct (vector_search env _ _ _ _ REQUIREMENTS) as [[|c' cs']|msg]; simpl in Hb;
    [injection Hb as <- <-; repeat split; by left | | discriminate].
  unfold bind, call in Hb. simpl in Hb.
  destruct (summarize_chain env _ _) as [summary|msg]; [|discriminate].
  injection Hb as <- <-. repeat split. by right.
Qed.

End Steps.

(** ** Invariants of the reachable states *)

Section Reachable.
Variable env : Env.
Variable user_query : string.
Variable bound : Z.
Variable w0 : World.

Abbreviation reach := (reachable env user_query bound w0).

(** A final response is only ever set by the Critic, together with the
    approval and without an error. *)
Lemma reachable_final prev state w :
  reach prev state w ->
  is_Some (final_response state) ->
  prev = Some N_feedback /\ is_approved state = true /\ error state = None.
Proof.
  induction 1 as [|prev state w n state' w' Hr IH Hnext Hrun]; intros Hfin.
  - by destruct Hfin.
  - assert (Hnone : final_response state = None).
    { destruct (final_response state) as [f|] eqn:E; [|done].
      destruct IH as (-> & Happ & Herr); [by eexists|].
      simpl in Hnext. unfold route_after_feedback in Hnext.
      rewrite Herr, Happ in Hnext. discriminate. }
    destruct n; simpl in Hrun.
    + destruct (query_node_cases env bound state w)
        as (s & ws & Hs & _ & _ & _ & Hf & _).
      rewrite Hrun in Hs. injection Hs as <- <-.
      rewrite Hf, Hnone in Hfin. by destruct Hfin.
    + destruct (DesignAgentReAct_run_cases env state w)
        as (s & ws & Hs & _ & _ & _ & Hf & _).
      unfold design_node in Hrun. rewrite Hrun in Hs. injection Hs as <- <-.
      rewrite Hf, Hnone in Hfin. by destruct Hfin.
    + destruct (FeedbackAgent_run_cases env state w)
        as (s & ws & Hs & _ & Hc).
      unfold feedback_node in Hrun. rewrite Hrun in Hs. injection Hs as <- <-.
      destruct Hc as [(_ & _ & _ & Hf) | [(He & Ha & _) | (_ & _ & _ & Hf & _)]].
      * rewrite Hf, Hnone in Hfin. by destruct Hfin.
      * done.
      * rewrite Hf in Hfin. by destruct Hfin.
Qed.

(** A node only runs on a state without final response. *)
Lemma runnable_not_final prev state w n :
  reach prev state w ->
  match prev with None => Some N_query | Some p => next_node p state end = Some n ->
  final_response state = None.
Proof.
  intros Hr Hnext.
  destruct (final_response state) as [f|] eqn:E; [|done].
  destruct (reachable_final _ _ _ Hr) as (-> & Happ & Herr); [by eexists|].
  simpl in Hnext. unfold route_after_feedback in Hnext.
  rewrite Herr, Happ in Hnext. discriminate.
Qed.

(** The bound and the counter along a run. *)
Lemma reachable_counter prev state w :
  (1 <= bound)%Z ->
  reach prev state w ->
  max_iterations state = bound
  /\ (0 <= iteration state <= bound)%Z
  /\ (final_response state = None -> iteration state < bound)%Z.
Proof.
  intros Hmi.
  induction 1 as [|prev state w n state' w' Hr IH Hnext Hrun].
  - simpl. lia.
  - pose proof (runnable_not_final _ _ _ _ Hr Hnext) as Hnone.
    destruct IH as (Hmax & Hrange & Hlt). specialize (Hlt Hnone).
    destruct n; simpl in Hrun.
    + destruct (query_node_cases env bound state w)
        as (s & ws & Hs & Hm & Hi & _ & Hf & _).
      rewrite Hrun in Hs. injection Hs as <- <-. rewrite Hi. lia.
    + destruct (DesignAgentReAct_run_cases env state w)
        as (s & ws & Hs & Hm & Hi & _ & Hf & _).
      unfold design_node in Hrun. rewrite Hrun in Hs. injection Hs as <- <-.
      rewrite Hi, Hm. lia.
    + destruct (FeedbackAgent_run_cases env state w)
        as (s & ws & Hs & Hm & Hc).
      unfold feedback_node in Hrun. rewrite Hrun in Hs. injection Hs as <- <-.
      rewrite Hm.
      destruct Hc as [(_ & _ & Hi & _) | [(_ & _ & Hi & Hsome & _) | (_ & _ & Hi & _ & Hb)]];
        rewrite Hi.
      * lia.
      * split; [done|]. split; [lia|]. intros Hf.
        rewrite Hf in Hsome. by destruct Hsome.
      * lia.
Qed.

(** The states that [app_stream] yields are reachable. *)
Lemma stream_reachable steps : forall prev state w next stream w',
  reach prev state w ->
  match prev with None => Some N_query | Some p => next_node p state end = next ->
  app_stream env bound steps next state w = (Returns stream, w') ->
  Forall (fun p => exists w'', reach (Some p.1) p.2 w'') stream.
Proof.
  induction steps as [|steps IH]; intros prev state w next stream w' Hr Hnext Hrun;
    [discriminate|].
  simpl in Hrun. destruct next as [n|]; [|injection Hrun as <- <-; constructor].
  destruct (run_node env bound n state w) as [[state1|msg] w1] eqn:Hnode; [|discriminate].
  assert (Hr1 : reach (Some n) state1 w1) by (eapply reach_step; eauto).
  destruct (app_stream env bound steps (next_node n state1) state1 w1)
    as [[rest|msg] w2] eqn:Hrest; [|discriminate].
  injection Hrun as <- <-. constructor; [by exists w1|].
  eapply (IH (Some n)); eauto.
Qed.

Lemma workflow_stream_reachable steps stream w' :
  app_stream env bound steps (Some N_query) (initial_state user_query bound) w0
  = (Returns stream, w') ->
  Forall (fun p => exists w'', reach (Some p.1) p.2 w'') stream.
Proof. intros H. eapply (stream_reachable steps None); [constructor | done | exact H]. Qed.

End Reachable.

(** ** The bounded loop *)

Section Bounded.
Variable env : Env.
Variable bound : Z.

Lemma app_stream_step steps n state w :
  app_stream env bound (S steps) (Some n) state w =
  match run_node env bound n state w with
  | (Raises msg, w') => (Raises msg, w')
  | (Returns state', w') =>
      match app_stream env bound steps (next_node n state') state' w' with
      | (Returns rest, w'') => (Returns ((n, state') :: rest), w'')
      | (Raises msg, w'') => (Raises msg, w'')
      end
  end.
Proof. reflexivity. Qed.

Lemma app_stream_end steps state w :
  app_stream env bound (S steps) None state w = (Returns [], w).
Proof. reflexivity. Qed.

Lemma app_stream_limit next state w :
  app_stream env bound 0 next state w = (Raises (GraphRecursionError env), w).
Proof. reflexivity. Qed.

Lemma critic_invocations_design state rest :
  critic_invocations ((N_design, state) :: rest) = critic_invocations rest.
Proof. reflexivity. Qed.

Lemma critic_invocations_feedback state rest :
  critic_invocations ((N_feedback, state) :: rest) = S (critic_invocations rest).
Proof. reflexivity. Qed.

Lemma truthy_not_None (o : option string) : PyStr.truthy o = true -> o <> None.
Proof. by destruct o. Qed.

(** Every evaluation the Critic obtains asks for a revision. *)
Hypothesis always_needs_revision :
  forall t input evaluation,
    evaluation_chain env t input = Returns evaluation -> parse_verdict evaluation = false.

(** From the Designer on, with [S r] iterations left: without an error
    the stream needs [2 (S r)] turns and one more to end, and the limit is
    what stops the loop otherwise. *)
Lemma design_loop (r : nat) : forall steps state w,
  max_iterations state = bound ->
  iteration state = (bound - Z.of_nat (S r))%Z ->
  match app_stream env bound steps (Some N_design) state w with
  | (Returns stream, _) =>
      length stream <= 2 * S r
      /\ (no_error stream ->
          2 * S r < steps
          /\ critic_invocations stream = S r
          /\ exists final,
               last stream = Some (N_feedback, final)
               /\ is_approved final = true
               /\ is_Some (final_response final)
               /\ iteration final = bound)
  | (Raises msg, _) => msg = GraphRecursionError env /\ steps <= 2 * S r
  end.
Proof.
  induction r as [|r IH]; intros steps state w Hmax Hit.
  all: destruct steps as [|steps]; [rewrite app_stream_limit; split; [done | lia]|].
  all: rewrite app_stream_step; cbn [run_node next_node]; unfold design_node.
  all: destruct (DesignAgentReAct_run_cases env state w)
         as (s1 & w1 & -> & Hm1 & Hi1 & _ & _ & _).
  all: destruct steps as [|steps]; [rewrite app_stream_limit; split; [done | lia]|].
  all: rewrite app_stream_step; cbn [run_node next_node]; unfold feedback_node.
  all: destruct (FeedbackAgent_run_cases env s1 w1) as (s2 & w2 & -> & Hm2 & Hc).
  all: unfold route_after_feedback.
  all: destruct Hc as [(He & _) | [(He & Ha & Hi2 & Hf & ev & Hev & Hwhy)
                                   | (He & Ha & Hi2 & Hf & Hlt)]].
  all: try (rewrite He;
            destruct steps as [|steps];
              [rewrite app_stream_limit; split; [done | lia]|];
            rewrite app_stream_end; split; [simpl; lia|];
            intros Hno; exfalso; apply Forall_cons in Hno as [_ Hno];
            apply Forall_cons in Hno as [Hno _]; simpl in Hno;
            by apply truthy_not_None in He).
  all: try (exfalso; lia).
  - rewrite He, Ha. cbn [PyStr.truthy].
    destruct steps as [|steps]; [rewrite app_stream_limit; split; [done | lia]|].
    rewrite app_stream_end. split; [simpl; lia|]. intros _.
    split; [lia|]. split; [done|]. exists s2. repeat split; [done..|lia].
  - exfalso. destruct Hwhy as [Hv|Hb]; [|lia].
    apply always_needs_revision in Hev. congruence.
  - rewrite He, Ha, Hf. cbn [PyStr.truthy].
    specialize (IH steps s2 w2 ltac:(congruence) ltac:(lia)).
    destruct (app_stream env bound steps (Some N_design) s2 w2) as [[rest|msg] w'].
    + destruct IH as [Hlen IH]. split; [simpl; lia|].
      intros Hno. apply Forall_cons in Hno as [_ Hno]. apply Forall_cons in Hno as [_ Hno].
      destruct (IH Hno) as (Hsteps & Hcount & final & Hlast & Hrest').
      rewrite critic_invocations_design, critic_invocations_feedback, Hcount.
      split; [lia|]. split; [done|]. exists final. split; [|done].
      destruct rest; [discriminate|]. done.
    + destruct IH as [-> Hsteps]. split; [done | lia].
Qed.

(** With more turns than nodes to run, the loop is not stopped by the
    limit. *)
Lemma design_loop_returns (r steps : nat) state w :
  max_iterations state = bound ->
  iteration state = (bound - Z.of_nat (S r))%Z ->
  2 * S r < steps ->
  exists stream w', app_stream env bound steps (Some N_design) state w = (Returns stream, w').
Proof.
  intros Hmax Hit Hsteps. pose proof (design_loop r steps state w Hmax Hit) as H.
  destruct (app_stream env bound steps (Some N_design) state w) as [[stream|msg] w'].
  - by exists stream, w'.
  - destruct H as [_ H]. lia.
Qed.

End Bounded.

(** ** Stripping, splitting and joining *)

Section Strip.
Variable p : ascii -> bool.

Lemma lstrip_by_head s :
  PyStr.lstrip_by p s = EmptyString
  \/ exists c t, PyStr.lstrip_by p s = String c t /\ p c = false.
Proof.
  induction s as [|c s IH]; [by left|]. simpl.
  destruct (p c) eqn:E; [exact IH|]. right. by exists c, s.
Qed.

Lemma rstrip_by_keeps_head c s :
  p c = false -> exists t, PyStr.rstrip_by p (String c s) = String c t.
Proof.
  intros Hc. simpl. destruct (PyStr.rstrip_by p s); rewrite ?Hc; by eexists.
Qed.

Lemma rstrip_by_idem s : PyStr.rstrip_by p (PyStr.rstrip_by p s) = PyStr.rstrip_by p s.
Proof.
  induction s as [|c s IH]; [done|]. simpl.
  destruct (PyStr.rstrip_by p s) as [|d r] eqn:E.
  - destruct (p c) eqn:Hc; [done|]. simpl. by rewrite Hc.
  - change (PyStr.rstrip_by p (String c (String d r))) with
      (match PyStr.rstrip_by p (String d r) with
       | EmptyString => if p c then EmptyString else String c EmptyString
       | r' => String c r'
       end).
    by rewrite IH.
Qed.

Lemma mem_char_lstrip_by x s :
  PyStr.mem_char x s = false -> PyStr.mem_char x (PyStr.lstrip_by p s) = false.
Proof.
  induction s as [|c s IH]; [done|]. simpl. intros [H1 H2]%orb_false_iff.
  destruct (p c); [by apply IH|]. simpl. by rewrite H1, H2.
Qed.

Lemma mem_char_rstrip_by x s :
  PyStr.mem_char x s = false -> PyStr.mem_char x (PyStr.rstrip_by p s) = false.
Proof.
  induction s as [|c s IH]; [done|]. simpl. intros [H1 H2]%orb_false_iff.
  specialize (IH H2).
  destruct (PyStr.rstrip_by p s) as [|d r].
  - destruct (p c); [done|]. simpl. by rewrite H1.
  - change (Ascii.eqb x c || PyStr.mem_char x (String d r) = false). by rewrite H1, IH.
Qed.

End Strip.

Lemma strip_idem s : PyStr.strip (PyStr.strip s) = PyStr.strip s.
Proof.
  unfold PyStr.strip.
  destruct (lstrip_by_head PyStr.isspace s) as [-> | (c & t & -> & Hc)]; [done|].
  destruct (rstrip_by_keeps_head PyStr.isspace c t Hc) as [t' Ht].
  rewrite Ht. cbn [PyStr.lstrip_by]. rewrite Hc, <- Ht. apply rstrip_by_idem.
Qed.

Lemma mem_char_strip x s : PyStr.mem_char x s = false -> PyStr.mem_char x (PyStr.strip s) = false.
Proof. intros H. by apply mem_char_rstrip_by, mem_char_lstrip_by. Qed.

Lemma split_no_separator sep s x :
  x ∈ PyStr.split sep s -> PyStr.mem_char sep x = false.
Proof.
  revert x. induction s as [|c s IH]; intros x Hx; simpl in Hx.
  - by apply list_elem_of_singleton in Hx as ->.
  - destruct (Ascii.eqb_spec c sep) as [->|Hne].
    + apply elem_of_cons in Hx as [-> | Hx]; [done | by apply IH].
    + destruct (PyStr.split sep s) as [|h t] eqn:E.
      * by apply list_elem_of_singleton in Hx as ->; simpl;
          destruct (Ascii.eqb_spec sep c) as [->|].
      * apply elem_of_cons in Hx as [-> | Hx].
        -- simpl. destruct (Ascii.eqb_spec sep c) as [->|]; [done|].
           apply IH, list_elem_of_here.
        -- by apply IH, list_elem_of_further.
Qed.

Section LessonsText.
Variable sep : ascii.

Lemma mem_char_app (a b : string) :
  PyStr.mem_char sep (a +:+ b) = PyStr.mem_char sep a || PyStr.mem_char sep b.
Proof.
  induction a as [|c a IH]; [reflexivity|].
  rewrite app_cons. cbn [PyStr.mem_char]. rewrite IH. by destruct (Ascii.eqb sep c).
Qed.

(** A text without the separator is one field. *)
Lemma split_one (p : string) :
  PyStr.mem_char sep p = false -> PyStr.split sep p = [p].
Proof.
  induction p as [|c p IH]; [reflexivity|].
  cbn [PyStr.mem_char PyStr.split]. rewrite Ascii.eqb_sym.
  destruct (Ascii.eqb c sep); [discriminate|]. intros H. by rewrite (IH H).
Qed.

(** The first field ends at the first separator. *)
Lemma split_app (p rest : string) :
  PyStr.mem_char sep p = false ->
  PyStr.split sep (p +:+ String sep rest) = p :: PyStr.split sep rest.
Proof.
  induction p as [|c p IH].
  - intros _. rewrite app_nil_l. cbn [PyStr.split]. by rewrite Ascii.eqb_refl.
  - rewrite app_cons. cbn [PyStr.mem_char PyStr.split]. rewrite Ascii.eqb_sym.
    destruct (Ascii.eqb c sep); [discriminate|]. intros H. by rewrite (IH H).
Qed.

(** Splitting what was joined gives the parts back. *)
Lemma split_join (parts : list string) :
  parts <> [] ->
  Forall (fun p => PyStr.mem_char sep p = false) parts ->
  PyStr.split sep (PyStr.join (String sep EmptyString) parts) = parts.
Proof.
  induction parts as [|p parts IH]; [done|]. intros _ Hall.
  apply Forall_cons in Hall as [Hp Hall].
  destruct parts as [|q parts].
  - by apply split_one.
  - change (PyStr.join (String sep EmptyString) (p :: q :: parts))
      with (p +:+ String sep EmptyString +:+ PyStr.join (String sep EmptyString) (q :: parts)).
    rewrite app_cons, app_nil_l, (split_app _ _ Hp), IH; done.
Qed.

End LessonsText.

(** ** Runs of characters *)

Section CharRuns.
Variable p : ascii -> bool.

Lemma str_app_nil_r (a : string) : a +:+ EmptyString = a.
Proof. induction a as [|c a IH]; [done|]. by rewrite app_cons, IH. Qed.

Lemma str_app_assoc (a b c : string) : (a +:+ b) +:+ c = a +:+ b +:+ c.
Proof. induction a as [|x a IH]; [by rewrite !app_nil_l|]. by rewrite !app_cons, IH. Qed.

Lemma str_app_empty (a b : string) : a +:+ b = EmptyString -> a = EmptyString /\ b = EmptyString.
Proof. destruct a; [by rewrite app_nil_l | by rewrite app_cons]. Qed.

Lemma all_chars_app (a b : string) :
  all_chars p (a +:+ b) = all_chars p a && all_chars p b.
Proof.
  induction a as [|c a IH]; [by rewrite app_nil_l|].
  rewrite app_cons. cbn [all_chars]. by rewrite IH, andb_assoc.
Qed.

Lemma first_char_app (a b : string) :
  a <> EmptyString -> first_char (a +:+ b) = first_char a.
Proof. destruct a; [done|]. by rewrite app_cons. Qed.

Lemma last_char_app (a b : string) :
  b <> EmptyString -> last_char (a +:+ b) = last_char b.
Proof.
  intros Hb. induction a as [|c a IH]; [by rewrite app_nil_l|].
  rewrite app_cons. cbn [last_char]. rewrite IH.
  destruct (a +:+ b) eqn:E; [|done]. by apply str_app_empty in E as [_ ?].
Qed.

(** White space that starts with something that is not white space is
    empty. *)
Lemma all_chars_fails_first (s : string) :
  all_chars p s = true -> fails p (first_char s) -> s = EmptyString.
Proof. destruct s as [|c s]; [done|]. simpl. intros [H _]%andb_prop Hc. congruence. Qed.

Lemma lstrip_by_all (a s : string) :
  all_chars p a = true -> PyStr.lstrip_by p (a +:+ s) = PyStr.lstrip_by p s.
Proof.
  induction a as [|c a IH]; [by rewrite app_nil_l|].
  rewrite app_cons. cbn [all_chars PyStr.lstrip_by]. intros [-> H]%andb_prop. by apply IH.
Qed.

Lemma lstrip_by_stop (s : string) :
  fails p (first_char s) -> PyStr.lstrip_by p s = s.
Proof. destruct s as [|c s]; [done|]. simpl. by intros ->. Qed.

Lemma lstrip_by_all_empty (s : string) :
  all_chars p s = true -> PyStr.lstrip_by p s = EmptyString.
Proof. intros H. rewrite <- (str_app_nil_r s). by rewrite lstrip_by_all. Qed.

Lemma rstrip_by_all_empty (c : string) :
  all_chars p c = true -> PyStr.rstrip_by p c = EmptyString.
Proof.
  induction c as [|x c IH]; [done|]. cbn [all_chars PyStr.rstrip_by].
  intros [-> H]%andb_prop. by rewrite (IH H).
Qed.

Lemma rstrip_by_all (s c : string) :
  all_chars p c = true -> PyStr.rstrip_by p (s +:+ c) = PyStr.rstrip_by p s.
Proof.
  intros Hc. induction s as [|x s IH]; [rewrite app_nil_l; by apply rstrip_by_all_empty|].
  rewrite app_cons. cbn [PyStr.rstrip_by]. by rewrite IH.
Qed.

Lemma rstrip_by_stop (s : string) :
  fails p (last_char s) -> PyStr.rstrip_by p s = s.
Proof.
  induction s as [|c s IH]; [done|]. destruct s as [|d s].
  - simpl. by intros ->.
  - intros H. change (PyStr.rstrip_by p (String c (String d s)))
      with (match PyStr.rstrip_by p (String d s) with
            | EmptyString => if p c then EmptyString else String c EmptyString
            | r => String c r
            end).
    by rewrite (IH H).
Qed.

Lemma rstrip_by_empty_all (s : string) :
  PyStr.rstrip_by p s = EmptyString -> all_chars p s = true.
Proof.
  induction s as [|c s IH]; [done|]. cbn [PyStr.rstrip_by all_chars].
  destruct (PyStr.rstrip_by p s); [|done].
  destruct (p c); [|done]. intros _. by apply IH.
Qed.

(** What is stripped on the left and what is left. *)
Lemma lstrip_by_split (s : string) :
  exists a, s = a +:+ PyStr.lstrip_by p s
            /\ all_chars p a = true
            /\ fails p (first_char (PyStr.lstrip_by p s)).
Proof.
  induction s as [|c s (a & Hs & Ha & Hf)]; [by exists EmptyString|].
  cbn [PyStr.lstrip_by]. destruct (p c) eqn:Hc.
  - exists (String c a). rewrite app_cons, <- Hs. cbn [all_chars]. by rewrite Hc, Ha.
  - by exists EmptyString.
Qed.

(** What is stripped on the right and what is left. *)
Lemma rstrip_by_split (s : string) :
  exists c, s = PyStr.rstrip_by p s +:+ c
            /\ all_chars p c = true
            /\ fails p (last_char (PyStr.rstrip_by p s)).
Proof.
  induction s as [|x s (c & Hs & Hc & Hf)]; [by exists EmptyString|].
  cbn [PyStr.rstrip_by]. destruct (PyStr.rstrip_by p s) as [|d r] eqn:Hr.
  - rewrite app_nil_l in Hs. subst c. destruct (p x) eqn:Hx.
    + exists (String x s). rewrite app_nil_l. cbn [all_chars]. by rewrite Hx, Hc.
    + exists s. by rewrite app_cons, app_nil_l.
  - exists c. by rewrite app_cons, <- Hs.
Qed.

Lemma lstrip_by_ext (q : ascii -> bool) (s : string) :
  (forall c, p c = q c) -> PyStr.lstrip_by p s = PyStr.lstrip_by q s.
Proof.
  intros H. induction s as [|c s IH]; [done|]. simpl. by rewrite <- H, IH.
Qed.

End CharRuns.

Lemma all_chars_rstrip_by (p q : ascii -> bool) (s : string) :
  all_chars q s = true -> all_chars q (PyStr.rstrip_by p s) = true.
Proof.
  intros Hs. destruct (rstrip_by_split p s) as (c & Hc & _).
  rewrite Hc, all_chars_app in Hs. by apply andb_prop in Hs as [? _].
Qed.

(** ** The cleanup of a line, against the rule *)

Lemma is_marker_spec (c : ascii) : PyStr.mem_char c "0123456789.-) " = is_marker c.
Proof. by destruct c as [[] [] [] [] [] [] [] []]. Qed.

Lemma clean_lesson_markers (s : string) :
  clean_lesson s = PyStr.strip (PyStr.lstrip_by is_marker s).
Proof.
  unfold clean_lesson, PyStr.lstrip. f_equal. apply lstrip_by_ext, is_marker_spec.
Qed.

(** [strip] takes the white space off both ends, and nothing else. *)
Lemma strip_split (s : string) :
  exists a c,
    s = a +:+ PyStr.strip s +:+ c
    /\ all_chars PyStr.isspace a = true
    /\ all_chars PyStr.isspace c = true
    /\ fails PyStr.isspace (first_char (PyStr.strip s))
    /\ fails PyStr.isspace (last_char (PyStr.strip s)).
Proof.
  unfold PyStr.strip.
  destruct (lstrip_by_split PyStr.isspace s) as (a & Hs & Ha & Hf).
  destruct (rstrip_by_split PyStr.isspace (PyStr.lstrip_by PyStr.isspace s)) as (c & Hl & Hc & Hlast).
  exists a, c. split; [by rewrite <- Hl|]. split; [done|]. split; [done|]. split; [|done].
  destruct (PyStr.lstrip_by PyStr.isspace s) as [|x t]; [done|]. simpl in Hf.
  destruct (rstrip_by_keeps_head PyStr.isspace x t Hf) as [t' ->]. done.
Qed.

Lemma strip_of (a t c : string) :
  all_chars PyStr.isspace a = true ->
  all_chars PyStr.isspace c = true ->
  fails PyStr.isspace (first_char t) ->
  fails PyStr.isspace (last_char t) ->
  PyStr.strip (a +:+ t +:+ c) = t.
Proof.
  intros Ha Hc Hf Hl. unfold PyStr.strip. rewrite (lstrip_by_all _ _ _ Ha).
  destruct t as [|x t].
  - rewrite app_nil_l, (lstrip_by_all_empty _ _ Hc). done.
  - rewrite lstrip_by_stop by (by rewrite app_cons).
    rewrite (rstrip_by_all _ _ _ Hc). by apply rstrip_by_stop.
Qed.

(** What the rule leaves of a line is what the code computes. *)
Lemma cleaned_line_unique (line l : string) :
  cleaned_line line l -> clean_lesson (PyStr.strip line) = l.
Proof.
  intros (a & m & b & c & -> & Ha & Hm & Hb & Hc & Hfa & Hfm & Hfl & Hll).
  rewrite clean_lesson_markers.
  destruct l as [|x l].
  - rewrite app_nil_l in *. rewrite str_app_nil_r in Hfm.
    assert (Hbc : all_chars PyStr.isspace (b +:+ c) = true) by (by rewrite all_chars_app, Hb, Hc).
    destruct m as [|y m].
    + rewrite app_nil_l in *. rewrite str_app_nil_r in Hfa.
      rewrite (all_chars_fails_first _ _ Hb Hfa), app_nil_l.
      assert (Hblank : PyStr.strip (a +:+ c) = EmptyString).
      { unfold PyStr.strip.
        rewrite (lstrip_by_all_empty PyStr.isspace (a +:+ c)); [reflexivity|].
        rewrite all_chars_app. apply andb_true_intro. by split. }
      by rewrite Hblank.
    + unfold PyStr.strip at 2. rewrite (lstrip_by_all _ _ _ Ha).
      rewrite (lstrip_by_stop PyStr.isspace (String y m +:+ b +:+ c))
        by (rewrite app_cons; rewrite app_cons in Hfa; exact Hfa).
      rewrite (rstrip_by_all _ _ _ Hbc).
      rewrite lstrip_by_all_empty by (by apply all_chars_rstrip_by). done.
  - set (t := m +:+ b +:+ String x l).
    assert (Ht : a +:+ m +:+ b +:+ String x l +:+ c = a +:+ t +:+ c).
    { unfold t. by rewrite !str_app_assoc. }
    rewrite Ht, strip_of; try done.
    + unfold t. rewrite (lstrip_by_all _ _ _ Hm), lstrip_by_stop by done.
      rewrite <- (str_app_nil_r (String x l)) at 1. by apply strip_of.
    + unfold t. rewrite <- str_app_assoc, last_char_app; done.
Qed.

(** Every line has what the rule leaves of it, and the code computes it. *)
Lemma cleaned_line_exists (line : string) :
  cleaned_line line (clean_lesson (PyStr.strip line)).
Proof.
  rewrite clean_lesson_markers.
  destruct (strip_split line) as (a & c0 & Hline & Ha & Hc0 & Hft & Hlt).
  destruct (lstrip_by_split is_marker (PyStr.strip line)) as (m & Ht & Hm & Hfu).
  set (t := PyStr.strip line) in *. set (u := PyStr.lstrip_by is_marker t) in *.
  destruct (strip_split u) as (b & c1 & Hu & Hb & Hc1 & Hfl & Hll).
  set (l := PyStr.strip u) in *.
  exists a, m, b, (c1 +:+ c0).
  split.
  { rewrite Hline at 1. rewrite Ht at 1. rewrite Hu at 1. by rewrite !str_app_assoc. }
  split; [done|]. split; [done|]. split; [done|].
  split; [by rewrite all_chars_app, Hc1, Hc0|].
  split.
  { destruct m as [|y m].
    - rewrite app_nil_l in *. rewrite <- Ht in Hu.
      destruct b as [|z b].
      + by rewrite app_nil_l.
      + rewrite Hu, app_cons in Hft. simpl in Hft, Hb.
        apply andb_prop in Hb as [Hz _]. congruence.
    - rewrite Ht, app_cons in Hft. by rewrite app_cons. }
  split; [|done].
  destruct (b +:+ l) as [|z r] eqn:E; [done|].
  rewrite Hu, <- str_app_assoc, E, app_cons in Hfu. done.
Qed.

(** ** The lines of a text *)

Local Abbreviation nonblank := (fun l : string => Is_true (PyStr.nonempty (PyStr.strip l))).
Local Abbreviation stripped_lines ls := (map PyStr.strip (filter nonblank ls)).

Lemma split_nonempty sep s : PyStr.split sep s <> [].
Proof.
  destruct s as [|c s]; [done|]. simpl.
  destruct (Ascii.eqb c sep); [done|]. by destruct (PyStr.split sep s).
Qed.

Lemma split_single_empty sep s : PyStr.split sep s = [EmptyString] -> s = EmptyString.
Proof.
  destruct s as [|c s]; [done|]. simpl. destruct (Ascii.eqb c sep).
  - intros [= H]. by apply split_nonempty in H.
  - by destruct (PyStr.split sep s).
Qed.

(** Joining the fields of a text gives the text back. *)
Lemma join_split sep s : PyStr.join (String sep EmptyString) (PyStr.split sep s) = s.
Proof.
  induction s as [|c s IH]; [done|]. simpl.
  pose proof (split_nonempty sep s) as Hne.
  destruct (Ascii.eqb_spec c sep) as [->|Hc].
  - destruct (PyStr.split sep s) as [|h t]; [done|].
    change (EmptyString +:+ String sep EmptyString
            +:+ PyStr.join (String sep EmptyString) (h :: t) = String sep s).
    by rewrite app_nil_l, app_cons, app_nil_l, IH.
  - destruct (PyStr.split sep s) as [|h t]; [done|].
    destruct t as [|h' t].
    + simpl in *. by rewrite IH.
    + change (PyStr.join (String sep EmptyString) (h :: h' :: t))
        with (h +:+ String sep EmptyString
              +:+ PyStr.join (String sep EmptyString) (h' :: t)) in IH.
      change (String c h +:+ String sep EmptyString
              +:+ PyStr.join (String sep EmptyString) (h' :: t) = String c s).
      by rewrite app_cons, IH.
Qed.

Lemma strip_blank (s : string) :
  all_chars PyStr.isspace s = true -> PyStr.strip s = EmptyString.
Proof. intros H. unfold PyStr.strip. by rewrite (lstrip_by_all_empty _ _ H). Qed.

Lemma strip_space_cons c s :
  PyStr.isspace c = true -> PyStr.strip (String c s) = PyStr.strip s.
Proof. intros H. unfold PyStr.strip. simpl. by rewrite H. Qed.

Lemma strip_rstrip (s : string) :
  PyStr.strip (PyStr.rstrip_by PyStr.isspace s) = PyStr.strip s.
Proof.
  destruct (rstrip_by_split PyStr.isspace s) as (c & Hs & Hc & _).
  destruct (strip_split (PyStr.rstrip_by PyStr.isspace s)) as (a & c1 & Hx & Ha & Hc1 & Hf & Hl).
  rewrite Hs at 2. rewrite Hx at 2. rewrite !str_app_assoc.
  symmetry. apply strip_of; try done. by rewrite all_chars_app, Hc1, Hc.
Qed.

Lemma stripped_lines_cons (l : string) (ls : list string) :
  stripped_lines (l :: ls)
  = if PyStr.nonempty (PyStr.strip l) then PyStr.strip l :: stripped_lines ls
    else stripped_lines ls.
Proof.
  rewrite filter_cons.
  case_decide as H; cbn beta in H; destruct (PyStr.nonempty (PyStr.strip l));
    first [done | by destruct H].
Qed.

Lemma stripped_lines_app (ls1 ls2 : list string) :
  stripped_lines (ls1 ++ ls2) = stripped_lines ls1 ++ stripped_lines ls2.
Proof. by rewrite filter_app, map_app. Qed.

Lemma stripped_lines_blank (ls : list string) :
  Forall (fun l => all_chars PyStr.isspace l = true) ls -> stripped_lines ls = [].
Proof.
  induction 1 as [|l ls Hl _ IH]; [done|].
  by rewrite stripped_lines_cons, (strip_blank _ Hl).
Qed.

Lemma all_chars_split (s : string) :
  all_chars PyStr.isspace s = true ->
  Forall (fun l => all_chars PyStr.isspace l = true) (PyStr.split PyStr.newline s).
Proof.
  induction s as [|c s IH]; [by repeat constructor|].
  cbn [all_chars PyStr.split]. intros [Hc Hs]%andb_prop. specialize (IH Hs).
  destruct (Ascii.eqb c PyStr.newline); [by constructor|].
  destruct (PyStr.split PyStr.newline s) as [|h t]; [repeat constructor; simpl; by rewrite Hc|].
  apply Forall_cons in IH as [Hh Ht]. constructor; [|done]. simpl. by rewrite Hc, Hh.
Qed.

(** Leading white space of a text changes no stripped line. *)
Lemma stripped_lines_lstrip (s : string) :
  stripped_lines (PyStr.split PyStr.newline (PyStr.lstrip_by PyStr.isspace s))
  = stripped_lines (PyStr.split PyStr.newline s).
Proof.
  induction s as [|c s IH]; [done|]. cbn [PyStr.lstrip_by].
  destruct (PyStr.isspace c) eqn:Hc; [|done]. rewrite IH. cbn [PyStr.split].
  destruct (Ascii.eqb c PyStr.newline).
  - by rewrite stripped_lines_cons.
  - pose proof (split_nonempty PyStr.newline s) as Hne.
    destruct (PyStr.split PyStr.newline s) as [|h t]; [done|].
    by rewrite !stripped_lines_cons, (strip_space_cons _ _ Hc).
Qed.

(** The lines of a text without its trailing white space: the same lines
    up to the last one, which lost its own trailing white space, and no
    blank lines after it. *)
Lemma split_rstrip (s : string) :
  exists pre h t,
    PyStr.split PyStr.newline s = pre ++ h :: t
    /\ PyStr.split PyStr.newline (PyStr.rstrip_by PyStr.isspace s)
       = pre ++ [PyStr.rstrip_by PyStr.isspace h]
    /\ Forall (fun l => all_chars PyStr.isspace l = true) t.
Proof.
  induction s as [|c s (pre & h & t & Hs & Hr & Ht)]; [by exists [], EmptyString, []|].
  cbn [PyStr.rstrip_by]. destruct (PyStr.rstrip_by PyStr.isspace s) as [|d r] eqn:Hrs.
  - apply rstrip_by_empty_all in Hrs as Hall.
    pose proof (all_chars_split s Hall) as Hlines.
    cbn [PyStr.split] in Hr. destruct pre as [|p0 pre]; [|by destruct pre].
    injection Hr as Hh. cbn [app] in Hs. rewrite Hs in Hlines.
    apply Forall_cons in Hlines as [Hhall _].
    cbn [PyStr.split]. rewrite Hs.
    destruct (PyStr.isspace c) eqn:Hc.
    + destruct (Ascii.eqb c PyStr.newline).
      * exists [], EmptyString, (h :: t). split; [done|]. split; [done|]. by constructor.
      * exists [], (String c h), t. split; [done|]. split; [|done].
        cbn [PyStr.rstrip_by app]. by rewrite <- Hh, Hc.
    + destruct (Ascii.eqb_spec c PyStr.newline) as [->|Hne]; [done|].
      exists [], (String c h), t. split; [done|]. split; [|done].
      cbn [PyStr.rstrip_by PyStr.split app]. rewrite <- Hh, Hc.
      by destruct (Ascii.eqb_spec c PyStr.newline).
  - change (PyStr.split PyStr.newline (String c (String d r)))
      with (if Ascii.eqb c PyStr.newline
            then EmptyString :: PyStr.split PyStr.newline (String d r)
            else match PyStr.split PyStr.newline (String d r) with
                 | h0 :: t0 => String c h0 :: t0
                 | [] => [String c EmptyString]
                 end).
    rewrite Hr. cbn [PyStr.split]. rewrite Hs. destruct (Ascii.eqb c PyStr.newline).
    + by exists (EmptyString :: pre), h, t.
    + destruct pre as [|p0 pre].
      * exists [], (String c h), t. split; [done|]. split; [|done].
        cbn [app PyStr.rstrip_by].
        destruct (PyStr.rstrip_by PyStr.isspace h) eqn:Hh; [|done].
        by apply split_single_empty in Hr.
      * by exists (String c p0 :: pre), h, t.
Qed.

(** Trailing white space of a text changes no stripped line. *)
Lemma stripped_lines_rstrip (s : string) :
  stripped_lines (PyStr.split PyStr.newline (PyStr.rstrip_by PyStr.isspace s))
  = stripped_lines (PyStr.split PyStr.newline s).
Proof.
  destruct (split_rstrip s) as (pre & h & t & -> & -> & Ht).
  rewrite !stripped_lines_app. f_equal.
  change (h :: t) with ([h] ++ t). rewrite stripped_lines_app, (stripped_lines_blank t Ht), app_nil_r.
  by rewrite !stripped_lines_cons, strip_rstrip.
Qed.

(** The lines the Critic loops over are the stripped lines of the text
    that are not blank. *)
Lemma lesson_lines_split (text : string) :
  lesson_lines text = stripped_lines (PyStr.split PyStr.newline text).
Proof.
  unfold lesson_lines.
  change (PyStr.strip text)
    with (PyStr.rstrip_by PyStr.isspace (PyStr.lstrip_by PyStr.isspace text)).
  by rewrite stripped_lines_rstrip, stripped_lines_lstrip.
Qed.

(** ** The lessons saved, against the rule *)

Lemma lessons_of_lines_unique (lines saved : list string) :
  lessons_of_lines lines saved ->
  filter (fun l => Is_true (PyStr.nonempty l)) (map clean_lesson (stripped_lines lines)) = saved.
Proof.
  induction 1 as [|line lines ls Hline _ IH|line lines l ls Hline Hl _ IH]; [done|..];
    apply cleaned_line_unique in Hline; rewrite stripped_lines_cons.
  - destruct (PyStr.nonempty (PyStr.strip line)); [|done].
    cbn [map]. rewrite filter_cons, Hline. by rewrite decide_False by (by intros []).
  - destruct (PyStr.strip line) as [|x t] eqn:E.
    + exfalso. apply Hl. by rewrite <- Hline.
    + cbn [PyStr.nonempty map]. rewrite filter_cons, Hline, IH.
      rewrite decide_True; [done|]. by destruct l.
Qed.

Lemma lessons_of_lines_exists (lines : list string) :
  lessons_of_lines lines
    (filter (fun l => Is_true (PyStr.nonempty l)) (map clean_lesson (stripped_lines lines))).
Proof.
  induction lines as [|line lines IH]; [constructor|].
  pose proof (cleaned_line_exists line) as Hline. rewrite stripped_lines_cons.
  destruct (PyStr.strip line) as [|x t] eqn:E.
  - by apply lessons_skip.
  - cbn [PyStr.nonempty map]. rewrite filter_cons.
    destruct (clean_lesson (String x t)) as [|y l] eqn:El.
    + rewrite decide_False by (by intros []). by apply lessons_skip.
    + rewrite decide_True by done. by apply lessons_keep.
Qed.

(** What the Critic saves of an extraction output: the lessons of its
    lines, and of any list of lines that the output is the join of. *)
Lemma lessons_to_save_spec (text : string) :
  lessons_of_lines (PyStr.split PyStr.newline text) (lessons_to_save text)
  /\ forall lines saved,
       text = PyStr.join nl lines ->
       Forall (fun line => PyStr.mem_char PyStr.newline line = false) lines ->
       lessons_of_lines lines saved ->
       saved = lessons_to_save text.
Proof.
  unfold lessons_to_save. rewrite lesson_lines_split. split.
  - apply lessons_of_lines_exists.
  - intros lines saved -> Hlines Hsaved.
    apply lessons_of_lines_unique in Hsaved as <-.
    destruct lines as [|line lines]; [done|].
    unfold nl. by rewrite split_join.
Qed.

(** * The claims *)

(** C1. The verdict of an evaluation text is "approved" exactly when the
    text contains APPROVED and does not contain NEEDS_REVISION, both up
    to the case of the letters; a text with both tokens is not approved. *)
Theorem parse_verdict_spec (evaluation : string) :
  (parse_verdict evaluation = true <->
     occurs_ignoring_case "APPROVED" evaluation
     /\ ~ occurs_ignoring_case "NEEDS_REVISION" evaluation)
  /\ (occurs_ignoring_case "APPROVED" evaluation ->
      occurs_ignoring_case "NEEDS_REVISION" evaluation ->
      parse_verdict evaluation = false).
Proof.
  assert (Hiff : parse_verdict evaluation = true <->
     occurs_ignoring_case "APPROVED" evaluation
     /\ ~ occurs_ignoring_case "NEEDS_REVISION" evaluation).
  { unfold parse_verdict.
    rewrite andb_true_iff, negb_true_iff, <- not_true_iff_false.
    by rewrite !contains_upper. }
  split; [exact Hiff|].
  intros _ Hrev. apply not_true_iff_false. intros H.
  apply Hiff in H as [_ H]. done.
Qed.

(** A text with both tokens, in mixed case. *)
Lemma parse_verdict_spec_witness :
  parse_verdict "Approved in part, but needs_revision overall" = false.
Proof.
  apply (proj2 (parse_verdict_spec "Approved in part, but needs_revision overall")).
  - exists "", "Approved", " in part, but needs_revision overall".
    split; [reflexivity|]. simpl. unfold same_letter, is_upper_letter. simpl.
    repeat split; auto.
  - exists "Approved in part, but ", "needs_revision", " overall".
    split; [reflexivity|]. simpl. unfold same_letter, is_upper_letter. simpl.
    repeat split; auto.
Defined.

(** C2, as the claim states it, fails for a large bound.  With a Critic
    that never approves and no error anywhere, a run with a bound of 5003
    needs 10007 node executions; the graph is streamed under the step limit
    of the runtime, and the run raises instead of returning: with a limit
    of 25, and with one of 10000 as well. *)
Lemma bounded_termination_counterexample :
  (forall t input evaluation,
     evaluation_chain Sample.env_revise t input = Returns evaluation ->
     parse_verdict evaluation = false)
  /\ (run_design_workflow Sample.env_revise "smart life" 5003 Sample.fresh_world).1
     = Raises (GraphRecursionError Sample.env_revise)
  /\ evaluation_chain Sample.env_revise_long = evaluation_chain Sample.env_revise
  /\ (run_design_workflow Sample.env_revise_long "smart life" 5003 Sample.fresh_world).1
     = Raises (GraphRecursionError Sample.env_revise_long).
Proof.
  split; [|split; [|split]].
  - intros t input evaluation H. injection H as <-. reflexivity.
  - vm_compute. reflexivity.
  - reflexivity.
  - vm_compute. reflexivity.
Qed.

(** C2, amended. For a bound [N >= 1] and a Critic whose evaluations all
    parse as a request for revision: when [2N + 1] is below the step limit
    of the runtime, the workflow returns after at most [2N + 1] node
    executions, and if no state of the run carries an error the Critic
    ran exactly [N] times and the state returned is approved, has a final
    response and has counted [N] iterations.  When [2N + 1] is above the
    limit, the run does not return without an error: a node reports one,
    or the runtime raises its recursion error. *)
Theorem bounded_termination (env : Env) (user_query : string) (N : Z) (w : World) :
  (1 <= N)%Z ->
  PyStr.truthy (groq_api_key env) = true ->
  (forall t input evaluation,
     evaluation_chain env t input = Returns evaluation -> parse_verdict evaluation = false) ->
  (2 * Z.to_nat N + 1 < recursion_limit env ->
   exists stream w',
     app_stream env N (recursion_limit env) (Some N_query) (initial_state user_query N) w
     = (Returns stream, w')
     /\ length stream <= 2 * Z.to_nat N + 1
     /\ (no_error stream ->
         critic_invocations stream = Z.to_nat N
         /\ exists final,
              run_design_workflow env user_query N w = (Returns (Some final), w')
              /\ is_approved final = true
              /\ final_response final <> None
              /\ iteration final = N))
  /\ (recursion_limit env < 2 * Z.to_nat N + 1 ->
      match app_stream env N (recursion_limit env) (Some N_query)
              (initial_state user_query N) w with
      | (Returns stream, _) => ~ no_error stream
      | (Raises msg, _) =>
          msg = GraphRecursionError env
          /\ (run_design_workflow env user_query N w).1 = Raises (GraphRecursionError env)
      end).
Proof.
  intros HN Hkey Hrev.
  destruct (Z.to_nat N) as [|r] eqn:Hr; [lia|].
  unfold run_design_workflow, create_app. rewrite Hkey.
  destruct (recursion_limit env) as [|steps].
  { rewrite app_stream_limit. split; [lia|]. intros _. split; reflexivity. }
  rewrite app_stream_step. cbn [run_node next_node].
  destruct (query_node_cases env N (initial_state user_query N) w)
    as (s0 & w0 & -> & Hm & Hi & _ & _ & He).
  unfold route_after_query.
  destruct He as [He | [He Hid]].
  { rewrite He. destruct steps as [|steps].
    - rewrite app_stream_limit. split; [lia|]. intros _. split; reflexivity.
    - rewrite app_stream_end. split.
      + intros _. do 2 eexists. split; [reflexivity|]. split; [simpl; lia|].
        intros Hno. exfalso. apply Forall_cons in Hno as [Hno _]. simpl in Hno.
        by apply truthy_not_None in He.
      + intros _ Hno. apply Forall_cons in Hno as [Hno _]. simpl in Hno.
        by apply truthy_not_None in He. }
  rewrite He, Hid. cbn [PyStr.truthy negb].
  pose proof (design_loop env N Hrev r steps s0 w0 Hm ltac:(rewrite Hi; simpl; lia)) as Hloop.
  destruct (app_stream env N steps (Some N_design) s0 w0) as [[rest|msg] w'].
  - destruct Hloop as [Hlen Hok]. split.
    + intros _. do 2 eexists. split; [reflexivity|]. split; [simpl; lia|].
      intros Hno. apply Forall_cons in Hno as [_ Hno].
      destruct (Hok Hno) as (_ & Hcount & final & Hlast & Ha & Hf & Hit).
      split; [done|]. exists final.
      destruct rest; [discriminate|]. cbn [last] in Hlast |- *. rewrite Hlast.
      repeat split; try done. by destruct Hf as [f ->].
    + intros Hbig Hno. apply Forall_cons in Hno as [_ Hno].
      destruct (Hok Hno) as (Hsteps & _). lia.
  - destruct Hloop as [-> Hsteps]. split.
    + intros Hsmall. exfalso. lia.
    + intros _. split; reflexivity.
Qed.

(** Three iterations with a Critic that never approves. *)
Lemma bounded_termination_witness :
  exists stream w' final,
    app_stream Sample.env_revise 3 (recursion_limit Sample.env_revise) (Some N_query)
      (initial_state "smart life" 3) Sample.fresh_world
    = (Returns stream, w')
    /\ critic_invocations stream = 3
    /\ run_design_workflow Sample.env_revise "smart life" 3 Sample.fresh_world
       = (Returns (Some final), w')
    /\ is_approved final = true
    /\ final_response final <> None
    /\ iteration final = 3%Z.
Proof.
  destruct (bounded_termination Sample.env_revise "smart life" 3 Sample.fresh_world)
    as [Hsmall _].
  - lia.
  - reflexivity.
  - intros t input evaluation H. injection H as <-. reflexivity.
  - destruct Hsmall as (stream & w' & Hrun & _ & Hok); [vm_compute; lia|].
    assert (Hno : no_error stream).
    { vm_compute in Hrun. injection Hrun as <- _. repeat constructor. }
    destruct (Hok Hno) as (Hcount & final & Hfinal & Ha & Hf & Hi).
    exists stream, w', final.
    split; [exact Hrun|]. split; [exact Hcount|]. split; [exact Hfinal|]. auto.
Defined.

(** C5. In every reachable state, a final response comes with the approval
    or with an error. *)
Theorem final_response_terminal (env : Env) (user_query : string) (bound : Z) (w0 : World)
    (prev : option Node) (state : AgentState) (w : World) :
  reachable env user_query bound w0 prev state w ->
  final_response state <> None ->
  is_approved state = true \/ error state <> None.
Proof.
  intros Hr Hf. left.
  destruct (reachable_final env user_query bound w0 prev state w Hr) as (_ & Ha & _).
  - by destruct (final_response state); [eexists|].
  - exact Ha.
Qed.

(** The last state of a run of one iteration. *)
Lemma final_response_terminal_witness :
  exists final w,
    reachable Sample.env_revise "smart life" 1 Sample.fresh_world (Some N_feedback) final w
    /\ final_response final <> None
    /\ (is_approved final = true \/ error final <> None).
Proof.
  destruct (app_stream Sample.env_revise 1 (recursion_limit Sample.env_revise) (Some N_query)
              (initial_state "smart life" 1) Sample.fresh_world)
    as [[stream|msg] w'] eqn:Hrun; [|vm_compute in Hrun; discriminate].
  pose proof (workflow_stream_reachable _ _ _ _ _ _ _ Hrun) as Hall.
  vm_compute in Hrun. injection Hrun as <- _.
  apply Forall_cons in Hall as [_ Hall]. apply Forall_cons in Hall as [_ Hall].
  apply Forall_cons in Hall as [[w Hr] _]. simpl in Hr.
  eexists _, w. split; [exact Hr|].
  assert (Hf : forall A (x : A), Some x <> None) by (intros; discriminate).
  split; [apply Hf|].
  eapply final_response_terminal; [exact Hr | apply Hf].
Defined.

(** C4, as the claim states it, fails twice: a Critic invocation that ends
    in an error leaves the counter where it was (here at 0, not 1), and
    with a bound of 0 the first invocation counts 1, above the bound. *)
Lemma iteration_counter_counterexample :
  (iteration Sample.designed = 0%Z
   /\ (error <$> returned (FeedbackAgent_run Sample.env_evaluation_fails Sample.designed
                             Sample.fresh_world))
      = Some (Some "Feedback evaluation failed: timeout")
   /\ (iteration <$> returned (FeedbackAgent_run Sample.env_evaluation_fails Sample.designed
                                 Sample.fresh_world))
      = Some 0%Z)
  /\ (match run_design_workflow Sample.env_revise "smart life" 0 Sample.fresh_world with
      | (Returns (Some final), _) => Some (iteration final, max_iterations final)
      | _ => None
      end) = Some (1%Z, 0%Z).
Proof. vm_compute. repeat split. Qed.

(** C4, amended. The Critic returns on every input; an invocation that
    does not end in an error increments the counter by exactly 1, one that
    ends in an error leaves it unchanged.  For a bound of at least 1, every
    reachable state has [0 <= iteration <= max_iterations]. *)
Theorem iteration_counter (env : Env) (user_query : string) (bound : Z) (w0 : World) :
  (forall state w,
     exists state' w',
       FeedbackAgent_run env state w = (Returns state', w')
       /\ ((error state' = None /\ iteration state' = (iteration state + 1)%Z)
           \/ (error state' <> None /\ iteration state' = iteration state)))
  /\ ((1 <= bound)%Z ->
      forall prev state w,
        reachable env user_query bound w0 prev state w ->
        (0 <= iteration state <= max_iterations state)%Z).
Proof.
  split.
  - intros state w.
    destruct (FeedbackAgent_run_cases env state w) as (state' & w' & Hrun & _ & Hc).
    exists state', w'. split; [exact Hrun|].
    destruct Hc as [(He & _ & Hi & _) | [(He & _ & Hi & _) | (He & _ & Hi & _)]]; auto.
    right. split; [by apply truthy_not_None | exact Hi].
  - intros Hb prev state w Hr.
    destruct (reachable_counter env user_query bound w0 prev state w Hb Hr) as (-> & H & _).
    exact H.
Qed.

(** The Critic's invocation in the last round of three, and the state that
    its first invocation returns in a run. *)
Lemma iteration_counter_witness :
  (exists state' w',
     FeedbackAgent_run Sample.env_revise Sample.last_round Sample.fresh_world
     = (Returns state', w')
     /\ iteration state' = 3%Z)
  /\ exists final w,
       reachable Sample.env_revise "smart life" 3 Sample.fresh_world (Some N_feedback) final w
       /\ (0 <= iteration final <= max_iterations final)%Z.
Proof.
  destruct (iteration_counter Sample.env_revise "smart life" 3 Sample.fresh_world)
    as [Hstep Hinv].
  split.
  - destruct (Hstep Sample.last_round Sample.fresh_world) as (state' & w' & Hrun & Hc).
    exists state', w'. split; [exact Hrun|].
    destruct Hc as [[_ Hi] | [He _]]; [exact Hi|].
    exfalso. apply He. vm_compute in Hrun. injection Hrun as <- _. reflexivity.
  - destruct (app_stream Sample.env_revise 3 (recursion_limit Sample.env_revise) (Some N_query)
                (initial_state "smart life" 3) Sample.fresh_world)
      as [[stream|msg] w'] eqn:Hrun; [|vm_compute in Hrun; discriminate].
    pose proof (workflow_stream_reachable _ _ _ _ _ _ _ Hrun) as Hall.
    vm_compute in Hrun. injection Hrun as <- _.
    apply Forall_cons in Hall as [_ Hall]. apply Forall_cons in Hall as [_ Hall].
    apply Forall_cons in Hall as [[w Hr] _]. simpl in Hr.
    eexists _, w. split; [exact Hr|].
    apply (Hinv ltac:(lia) _ _ _ Hr).
Defined.

(** C3, as the claim states it, fails: when the Designer reports an error
    the graph still runs the Critic on the state that carries it. *)
Lemma error_routing_counterexample :
  errors_of (app_stream Sample.env_design_fails 3 (recursion_limit Sample.env_design_fails)
               (Some N_query)
               (initial_state "smart life" 3) Sample.fresh_world)
  = [ (N_query, None);
      (N_design, Some "Design generation failed: rate limit");
      (N_feedback, Some "Feedback agent requires system_design and requirement_list") ].
Proof. vm_compute. reflexivity. Qed.

(** C3, amended. An error that a node sets is one the routing sees.  After
    the Classifier and after the Critic an error ends the run with no
    further step.  The edge from the Designer to the Critic is taken
    whatever the state: a state with a Designer error has no design, so
    the Critic, run on it, calls nothing, leaves the world as it is,
    replaces the error by its own and the run ends there. *)
Theorem error_routing (env : Env) (bound : Z) :
  (forall n state w state' w',
     run_node env bound n state w = (Returns state', w') ->
     error state' <> None -> PyStr.truthy (error state') = true)
  /\ (forall state,
        PyStr.truthy (error state) = true ->
        next_node N_query state = None /\ next_node N_feedback state = None)
  /\ (forall state, next_node N_design state = Some N_feedback)
  /\ (forall state w state' w',
        run_node env bound N_design state w = (Returns state', w') ->
        error state' <> None ->
        exists state'',
          run_node env bound N_feedback state' w' = (Returns state'', w')
          /\ error state''
             = Some "Feedback agent requires system_design and requirement_list"
          /\ next_node N_feedback state'' = None).
Proof.
  repeat split.
  - intros n state w state' w' Hrun He. destruct n; simpl in Hrun.
    + destruct (query_node_cases env bound state w) as (s & ws & Hs & _ & _ & _ & _ & Hc).
      rewrite Hrun in Hs. injection Hs as <- <-. by destruct Hc as [?|[? _]].
    + destruct (DesignAgentReAct_run_cases env state w)
        as (s & ws & Hs & _ & _ & _ & _ & Hc).
      unfold design_node in Hrun. rewrite Hrun in Hs. injection Hs as <- <-.
      by destruct Hc as [[? _]|[? _]].
    + destruct (FeedbackAgent_run_cases env state w) as (s & ws & Hs & _ & Hc).
      unfold feedback_node in Hrun. rewrite Hrun in Hs. injection Hs as <- <-.
      by destruct Hc as [(? & _) | [(? & _) | (? & _)]].
  - simpl. unfold route_after_query. by rewrite H.
  - simpl. unfold route_after_feedback. by rewrite H.
  - intros state w state' w' Hrun He. simpl in Hrun. unfold design_node in Hrun.
    destruct (DesignAgentReAct_run_cases env state w)
      as (s & ws & Hs & _ & _ & _ & _ & Hc).
    rewrite Hrun in Hs. injection Hs as <- <-.
    destruct Hc as [[_ Hd]|[? _]]; [|done].
    simpl. unfold feedback_node, FeedbackAgent_run. rewrite Hd. simpl.
    eexists. split; [reflexivity|]. split; reflexivity.
Qed.

(** The Designer's agent raises; the Critic then runs and ends the run. *)
Lemma error_routing_witness :
  exists state' w' state'',
    run_node Sample.env_design_fails 3 N_design Sample.classified Sample.fresh_world
    = (Returns state', w')
    /\ PyStr.truthy (error state') = true
    /\ run_node Sample.env_design_fails 3 N_feedback state' w' = (Returns state'', w')
    /\ next_node N_feedback state'' = None.
Proof.
  destruct (error_routing Sample.env_design_fails 3) as (Hseen & Hend & _ & Hcritic).
  destruct (run_node Sample.env_design_fails 3 N_design Sample.classified Sample.fresh_world)
    as [[state'|msg] w'] eqn:Hrun; [|vm_compute in Hrun; discriminate].
  assert (He : error state' <> None).
  { vm_compute in Hrun. injection Hrun as <- _. discriminate. }
  destruct (Hcritic _ _ _ _ Hrun He) as (state'' & Hrun2 & He2 & Hnext).
  exists state', w', state''. split; [reflexivity|].
  split; [exact (Hseen _ _ _ _ _ Hrun He)|].
  split; [exact Hrun2|].
  apply (Hend state'').
  rewrite He2. reflexivity.
Defined.

(** C6, as the claim states it, fails: with an empty use case name and the
    two other fields present the Designer reports no error; it calls the
    agent and returns its design. *)
Lemma designer_inputs_counterexample :
  use_case_name Sample.unnamed = Some EmptyString
  /\ (error <$> returned (DesignAgentReAct_run Sample.env_revise Sample.unnamed
                            Sample.fresh_world)) = Some None
  /\ (system_design <$> returned (DesignAgentReAct_run Sample.env_revise Sample.unnamed
                                    Sample.fresh_world))
     = Some (Some "## 1. System Overview")
  /\ log (world_after (DesignAgentReAct_run Sample.env_revise Sample.unnamed
                         Sample.fresh_world)) = [DesignCall].
Proof. vm_compute. repeat split. Qed.

(** C6, amended. When [use_case_id] or [description_summary] is missing
    (null or empty), the Designer returns at once with its error and no
    design, and the world is as before: no call, no access to the memory.
    The name of the use case is not among the fields checked: with the two
    others present and any name, also the empty one, the agent is called. *)
Theorem designer_inputs (env : Env) (state : AgentState) (w : World) :
  (PyStr.truthy (use_case_id state) = false
   \/ PyStr.truthy (description_summary state) = false ->
   exists state',
     DesignAgentReAct_run env state w = (Returns state', w)
     /\ error state' = Some "Design agent requires use_case_id and description_summary"
     /\ system_design state' = None)
  /\ (PyStr.truthy (use_case_id state) = true ->
      PyStr.truthy (description_summary state) = true ->
      is_Some (use_case_name state) ->
      log (world_after (DesignAgentReAct_run env state w)) = log w ++ [DesignCall]).
Proof.
  split.
  - intros Hmiss. unfold DesignAgentReAct_run.
    assert (negb (PyStr.truthy (use_case_id state))
            || negb (PyStr.truthy (description_summary state)) = true) as ->.
    { destruct Hmiss as [-> | ->]; [done | apply orb_true_r]. }
    eexists. split; [reflexivity|]. split; reflexivity.
  - intros Hid Hsum [name Hname]. unfold DesignAgentReAct_run.
    rewrite Hid, Hsum. cbn [negb orb].
    unfold try_except, bind, get_lessons. rewrite Hname.
    destruct (use_case_id state) as [i|]; [|discriminate].
    destruct (_data (memory w) !! i); unfold call; cbn [clock log memory];
      destruct (react_agent env _ _) as [final_messages|msg]; try reflexivity;
      by destruct (extract_design final_messages).
Qed.

(** A state without the summary, and the state with the empty name. *)
Lemma designer_inputs_witness :
  (exists state',
     DesignAgentReAct_run Sample.env_revise Sample.unsummarized Sample.fresh_world
     = (Returns state', Sample.fresh_world)
     /\ error state' = Some "Design agent requires use_case_id and description_summary"
     /\ system_design state' = None)
  /\ log (world_after (DesignAgentReAct_run Sample.env_revise Sample.unnamed
                         Sample.fresh_world)) = [DesignCall].
Proof.
  split.
  - apply (proj1 (designer_inputs Sample.env_revise Sample.unsummarized Sample.fresh_world)).
    right. reflexivity.
  - apply (proj2 (designer_inputs Sample.env_revise Sample.unnamed Sample.fresh_world)).
    + reflexivity.
    + reflexivity.
    + eexists. reflexivity.
Defined.

(** C7. When the Critic finalizes, it saves the lessons of the lines of
    the extraction output.  The output is the join of its lines; of each
    line the rule keeps what is left once the white space around it, the
    enumeration markers at its start (digits, [.], [-], [)], spaces) and
    the white space around the rest are taken off, and a line of which
    nothing is left gives no lesson.  These lessons, and no others, are
    added to the entry of the use case in the order of the lines, each
    followed by one write of the file, so the [k]-th write holds the first
    [k] new lessons. *)
Theorem critic_saves_lessons (env : Env) (state : AgentState) (w : World)
    (i n evaluation lessons_text : string) :
  use_case_id state = Some i ->
  use_case_name state = Some n ->
  PyStr.truthy (system_design state) = true ->
  PyStr.truthy (requirement_list state) = true ->
  (forall input, evaluation_chain env (clock w) input = Returns evaluation) ->
  (parse_verdict evaluation = true \/ (max_iterations state <= iteration state + 1)%Z) ->
  (forall input, lessons_chain env (S (clock w)) input = Returns lessons_text) ->
  (forall t d, write_file env t d = Returns tt) ->
  let before := lesson_texts i (_data (memory w)) in
  exists lines saved,
    lessons_text = PyStr.join nl lines
    /\ Forall (fun line => PyStr.mem_char PyStr.newline line = false) lines
    /\ lessons_of_lines lines saved
    /\ (forall lines' saved',
          lessons_text = PyStr.join nl lines' ->
          Forall (fun line => PyStr.mem_char PyStr.newline line = false) lines' ->
          lessons_of_lines lines' saved' ->
          saved' = saved)
    /\ exists state' d' snapshots,
         FeedbackAgent_run env state w
         = (Returns state',
            mkWorld (mkMemory d') (clock w + 2 + length saved)
              (log w ++ [EvaluationCall; LessonsCall] ++ map FileWritten snapshots))
         /\ length snapshots = length saved
         /\ (forall k d, snapshots !! k = Some d ->
               lesson_texts i d = before ++ take (S k) saved)
         /\ lesson_texts i d' = before ++ saved.
Proof.
  intros Hid Hname Hdesign Hreq Hev Hfin Hles Hwrite before.
  destruct (lessons_to_save_spec lessons_text) as [Hsaved Hunique].
  exists (PyStr.split PyStr.newline lessons_text), (lessons_to_save lessons_text).
  split; [unfold nl; by rewrite join_split|].
  split; [apply Forall_forall; intros line Hline; by eapply split_no_separator|].
  split; [exact Hsaved|]. split; [exact Hunique|].
  unfold FeedbackAgent_run. rewrite Hdesign, Hreq. cbn [negb orb].
  unfold try_except, bind at 1, call at 1. rewrite Hev.
  assert (parse_verdict evaluation || (max_iterations state <=? iteration state + 1)%Z = true)
    as ->.
  { destruct Hfin as [-> | H]; [done|]. apply Z.leb_le in H. rewrite H. apply orb_true_r. }
  unfold bind at 1, call at 1. cbn [clock log memory]. rewrite Hles.
  unfold bind at 1, save_lessons. rewrite Hid, Hname.
  destruct (save_loop_spec env Hwrite i n (lesson_lines lessons_text)
              (mkWorld (memory w) (S (S (clock w))) ((log w ++ [EvaluationCall]) ++ [LessonsCall])))
    as (d' & snapshots & -> & Hlen & Hsnap & Hd' & _).
  cbn [clock log memory] in *.
  eexists _, d', snapshots. split; [|done].
  unfold ret. f_equal. f_equal.
  - unfold lessons_to_save. lia.
  - by rewrite <- !app_assoc.
Qed.

(** The last round of three.  The output has the two numbered lines of the
    example with a blank line between them: two lessons reach an empty
    memory, without their markers, one write after each, and the blank
    line gives none. *)
Lemma critic_saves_lessons_witness :
  Sample.lessons_reply
  = PyStr.join nl ["1. Use circuit breakers"; EmptyString; "- Cache results"]
  /\ exists state' d' d1 d2,
       FeedbackAgent_run Sample.env_revise Sample.last_round Sample.fresh_world
       = (Returns state',
          mkWorld (mkMemory d') 4 [EvaluationCall; LessonsCall; FileWritten d1; FileWritten d2])
       /\ lesson_texts "5.1.1" d1 = ["Use circuit breakers"]
       /\ lesson_texts "5.1.1" d2 = ["Use circuit breakers"; "Cache results"]
       /\ lesson_texts "5.1.1" d' = ["Use circuit breakers"; "Cache results"].
Proof.
  split; [reflexivity|].
  destruct (critic_saves_lessons Sample.env_revise Sample.last_round Sample.fresh_world
              "5.1.1" "AI Agents to Enable Smart Life"
              "### Overall Verdict: NEEDS_REVISION" Sample.lessons_reply)
    as (lines & saved & _ & _ & _ & Hunique & state' & d' & snapshots & Hrun & Hlen & Hsnap & Hd').
  - reflexivity.
  - reflexivity.
  - reflexivity.
  - reflexivity.
  - reflexivity.
  - right. simpl. lia.
  - reflexivity.
  - reflexivity.
  - assert (Hsaved : ["Use circuit breakers"; "Cache results"] = saved).
    { apply (Hunique ["1. Use circuit breakers"; EmptyString; "- Cache results"]).
      - reflexivity.
      - repeat constructor.
      - apply lessons_keep; [|discriminate|apply lessons_skip; [|apply lessons_keep;
          [|discriminate|apply lessons_nil]]].
        + exists EmptyString, "1. ", EmptyString, EmptyString. repeat split; reflexivity.
        + exists EmptyString, EmptyString, EmptyString, EmptyString. repeat split; reflexivity.
        + exists EmptyString, "- ", EmptyString, EmptyString. repeat split; reflexivity. }
    destruct Hsaved.
    destruct snapshots as [|d1 [|d2 [|d3 rest]]]; try discriminate Hlen.
    exists state', d', d1, d2. split; [exact Hrun|].
    split; [exact (Hsnap 0 d1 eq_refl)|]. split; [exact (Hsnap 1 d2 eq_refl)|].
    exact Hd'.
Defined.

(** C8. Once the use case is resolved to a key of the catalog, an empty
    answer of the search for description chunks, or of the search for
    requirement chunks after a non-empty one for descriptions, makes the
    Classifier return with an error and with the id and the name of the
    use case in place.  An id outside the catalog gives an error with both
    fields null. *)
Theorem retrieval_gap (env : Env) (state : AgentState) (w w1 : World) :
  (forall uc name,
     identify_use_case_id env (user_query state) use_case_names w = (Returns (Some uc), w1) ->
     dict_get uc use_case_names = Some name ->
     vector_search env (clock w1) (user_query state) 10 uc DESCRIPTION = Returns []
     \/ (exists c cs,
           vector_search env (clock w1) (user_query state) 10 uc DESCRIPTION
           = Returns (c :: cs)
           /\ vector_search env (S (clock w1)) (user_query state) 10 uc REQUIREMENTS
              = Returns []) ->
     exists state' w',
       QueryAnalysisAgent_run env state w = (Returns state', w')
       /\ error state' <> None
       /\ use_case_id state' = Some uc
       /\ use_case_name state' = Some name)
  /\ (forall r,
        identify_use_case_id env (user_query state) use_case_names w = (Returns r, w1) ->
        r ≫= (fun uc => dict_get uc use_case_names) = None ->
        exists state',
          QueryAnalysisAgent_run env state w = (Returns state', w1)
          /\ error state' <> None
          /\ use_case_id state' = None
          /\ use_case_name state' = None).
Proof.
  split.
  - intros uc name Hident Hname Hsearch.
    unfold QueryAnalysisAgent_run, try_except, bind at 1. rewrite Hident.
    cbn [mbind option_bind]. rewrite Hname.
    cbn [fmap option_fmap option_map]. unfold bind, call. cbn [clock log memory].
    destruct Hsearch as [Hdesc | (c & cs & Hdesc & Hreq)]; rewrite Hdesc.
    + do 2 eexists. split; [reflexivity|]. by repeat split.
    + cbn [clock log memory]. rewrite Hreq.
      do 2 eexists. split; [reflexivity|]. by repeat split.
  - intros r Hident Hout.
    unfold QueryAnalysisAgent_run, try_except, bind at 1. rewrite Hident.
    assert (r ≫= (fun i => (fun n => (i, n)) <$> dict_get i use_case_names) = None) as ->.
    { destruct r as [uc|]; [|done]. simpl in Hout |- *. by rewrite Hout. }
    eexists. split; [reflexivity|]. by repeat split.
Qed.

(** A vector store without requirement chunks for use case 5.1.1. *)
Lemma retrieval_gap_witness :
  exists state' w',
    QueryAnalysisAgent_run Sample.env_no_requirements (initial_state "smart life" 3)
      Sample.fresh_world = (Returns state', w')
    /\ error state' <> None
    /\ use_case_id state' = Some "5.1.1"
    /\ use_case_name state' = Some "AI Agents to Enable Smart Life".
Proof.
  apply (proj1 (retrieval_gap Sample.env_no_requirements (initial_state "smart life" 3)
                  Sample.fresh_world (mkWorld (mkMemory ∅) 1 [EmbeddingsLoaded]))).
  - vm_compute. reflexivity.
  - reflexivity.
  - right. eexists _, _. split; reflexivity.
Defined.

(** C10. The cleanup removes leading characters of the set
    [0123456789.-) ] one by one, whatever follows: a lesson whose own text
    starts with such a character loses it, as "3GPP interfaces must be
    secured" loses its digit, in the text cleaned and in the memory after
    the Critic finalized. *)
Theorem clean_lesson_strips_content :
  (forall c rest,
     PyStr.mem_char c "0123456789.-) " = true ->
     clean_lesson (String c rest) = clean_lesson rest)
  /\ clean_lesson "3GPP interfaces must be secured" = "GPP interfaces must be secured"
  /\ lesson_texts "5.1.1"
       (_data (memory (world_after (FeedbackAgent_run Sample.env_3gpp Sample.designed
                                      Sample.fresh_world))))
     = ["GPP interfaces must be secured"].
Proof.
  split; [|split; reflexivity].
  intros c rest Hc. unfold clean_lesson, PyStr.lstrip. cbn [PyStr.lstrip_by]. by rewrite Hc.
Qed.

(** The digit 3 in front of a text. *)
Lemma clean_lesson_strips_content_witness :
  clean_lesson (String "3" "GPP interfaces") = clean_lesson "GPP interfaces".
Proof.
  apply (proj1 clean_lesson_strips_content). reflexivity.
Defined.

(** * Further properties of the workflow *)

Section Runs.
Variable env : Env.
Variable bound : Z.

Lemma critic_invocations_query state rest :
  critic_invocations ((N_query, state) :: rest) = critic_invocations rest.
Proof. reflexivity. Qed.

(** The report of the Critic is never empty. *)
Lemma compose_final_response_nonempty approved state evaluation lessons_text :
  PyStr.nonempty (compose_final_response approved state evaluation lessons_text) = true.
Proof. by destruct approved. Qed.

(** What the Critic returns, with the truth values the routing looks at. *)
Lemma FeedbackAgent_run_routes state w :
  exists state' w',
    FeedbackAgent_run env state w = (Returns state', w')
    /\ max_iterations state' = max_iterations state
    /\ ((PyStr.truthy (error state') = true /\ is_approved state' = false
         /\ iteration state' = iteration state
         /\ final_response state' = final_response state
         /\ route_after_feedback state' = None)
        \/ (error state' = None /\ is_approved state' = true
            /\ iteration state' = (iteration state + 1)%Z
            /\ PyStr.truthy (final_response state') = true
            /\ route_after_feedback state' = None)
        \/ (error state' = None /\ is_approved state' = false
            /\ iteration state' = (iteration state + 1)%Z
            /\ final_response state' = None
            /\ (iteration state + 1 < max_iterations state)%Z
            /\ route_after_feedback state' = Some N_design
            /\ exists input evaluation,
                 evaluation_chain env (clock w) input = Returns evaluation
                 /\ parse_verdict evaluation = false)).
Proof.
  unfold FeedbackAgent_run.
  destruct (negb (PyStr.truthy (system_design state))
            || negb (PyStr.truthy (requirement_list state))) eqn:Hin.
  { do 2 eexists. split; [reflexivity|]. split; [done|]. left. done. }
  unfold try_except, bind, call at 1.
  destruct (evaluation_chain env (clock w) _) as [evaluation|msg] eqn:Hev; simpl.
  2:{ do 2 eexists. split; [reflexivity|]. split; [done|]. left. done. }
  destruct (parse_verdict evaluation || (max_iterations state <=? iteration state + 1)%Z)
    eqn:Hfin.
  - unfold call. simpl.
    destruct (lessons_chain env _ _) as [lessons_text|msg]; simpl.
    2:{ do 2 eexists. split; [reflexivity|]. split; [done|]. left. done. }
    destruct (save_lessons env _ _ lessons_text _) as [[[]|msg] w2]; simpl.
    2:{ do 2 eexists. split; [reflexivity|]. split; [done|]. left. done. }
    do 2 eexists. split; [reflexivity|]. split; [done|]. right; left.
    repeat split. apply compose_final_response_nonempty.
  - do 2 eexists. split; [reflexivity|]. split; [done|]. right; right.
    apply orb_false_iff in Hfin as [Hv ?%Z.leb_gt]. simpl.
    repeat split; [lia|]. by eexists _, _.
Qed.

(** From the Designer on, with at most [S r] iterations left: a stream that
    is returned has at most [2 (S r)] nodes and fewer nodes than turns, and
    ends at the Critic, with an error or with a final response; nothing but
    the step limit makes the stream raise, and only when the turns are no
    more than the nodes that may have to run. *)
Lemma design_loop_ends (r : nat) : forall steps state w,
  max_iterations state = bound ->
  final_response state = None ->
  (bound - Z.of_nat (S r) <= iteration state)%Z ->
  match app_stream env bound steps (Some N_design) state w with
  | (Returns stream, _) =>
      length stream <= 2 * S r
      /\ length stream < steps
      /\ critic_invocations stream <= S r
      /\ exists final,
           last stream = Some (N_feedback, final)
           /\ ((PyStr.truthy (error final) = true /\ is_approved final = false
                /\ final_response final = None)
               \/ (error final = None /\ is_approved final = true
                   /\ PyStr.truthy (final_response final) = true))
  | (Raises msg, _) => msg = GraphRecursionError env /\ steps <= 2 * S r
  end.
Proof.
  induction r as [|r IH]; intros steps state w Hmax Hnone Hit.
  all: destruct steps as [|steps]; [rewrite app_stream_limit; split; [done | lia]|].
  all: rewrite app_stream_step; cbn [run_node next_node]; unfold design_node.
  all: destruct (DesignAgentReAct_run_cases env state w)
         as (s1 & w1 & -> & Hm1 & Hi1 & _ & Hf1 & _).
  all: destruct steps as [|steps]; [rewrite app_stream_limit; split; [done | lia]|].
  all: rewrite app_stream_step; cbn [run_node next_node]; unfold feedback_node.
  all: destruct (FeedbackAgent_run_routes s1 w1) as (s2 & w2 & -> & Hm2 & Hc).
  all: destruct Hc as [(He & Ha & Hi2 & Hf & ->) | [(He & Ha & Hi2 & Hf & ->)
                                                    | (He & Ha & Hi2 & Hf & Hlt & -> & _)]].
  all: try (destruct steps as [|steps]; [rewrite app_stream_limit; split; [done | lia]|];
            rewrite app_stream_end;
            split; [simpl; lia|]; split; [simpl; lia|];
            split; [rewrite critic_invocations_design, critic_invocations_feedback;
                    unfold critic_invocations; simpl; lia|];
            exists s2; split; [reflexivity|];
            ((left; repeat split; congruence) || (right; done))).
  - exfalso. lia.
  - specialize (IH steps s2 w2 ltac:(congruence) Hf ltac:(lia)).
    destruct (app_stream env bound steps (Some N_design) s2 w2) as [[rest|msg] w'].
    + destruct IH as (Hlen & Hsteps & Hcount & final & Hlast & Hend).
      split; [simpl; lia|]. split; [simpl; lia|].
      split; [rewrite critic_invocations_design, critic_invocations_feedback; lia|].
      exists final. split; [by destruct rest|]. exact Hend.
    + destruct IH as [-> Hsteps]. split; [done | lia].
Qed.

(** A whole stream: one that is returned has at most [2 max(1, bound) + 1]
    nodes and fewer nodes than turns, the Critic ran at most
    [max(1, bound)] times, and it ends with an error or with a final
    response; nothing but the step limit makes the stream raise. *)
Lemma workflow_run user_query steps w :
  match app_stream env bound steps (Some N_query) (initial_state user_query bound) w with
  | (Returns stream, _) =>
      1 <= length stream <= 2 * Z.to_nat (Z.max 1 bound) + 1
      /\ length stream < steps
      /\ critic_invocations stream <= Z.to_nat (Z.max 1 bound)
      /\ exists n final,
           last stream = Some (n, final)
           /\ ((PyStr.truthy (error final) = true /\ is_approved final = false
                /\ final_response final = None)
               \/ (error final = None /\ is_approved final = true
                   /\ PyStr.truthy (final_response final) = true))
  | (Raises msg, _) =>
      msg = GraphRecursionError env /\ steps <= 2 * Z.to_nat (Z.max 1 bound) + 1
  end.
Proof.
  destruct (Z.to_nat (Z.max 1 bound)) as [|r] eqn:Hr; [lia|].
  destruct steps as [|steps]; [rewrite app_stream_limit; split; [done | lia]|].
  rewrite app_stream_step. cbn [run_node next_node].
  destruct (query_node_cases env bound (initial_state user_query bound) w)
    as (s0 & w0 & -> & Hm & Hi & Ha & Hf & He).
  unfold route_after_query.
  destruct He as [He | [He Hid]].
  { rewrite He.
    destruct steps as [|steps]; [rewrite app_stream_limit; split; [done | lia]|].
    rewrite app_stream_end.
    split; [simpl; lia|]. split; [simpl; lia|].
    split; [rewrite critic_invocations_query; unfold critic_invocations; simpl; lia|].
    exists N_query, s0. split; [reflexivity|]. left. by rewrite Ha, Hf. }
  rewrite He, Hid. cbn [PyStr.truthy negb].
  pose proof (design_loop_ends r steps s0 w0 Hm ltac:(by rewrite Hf)
                ltac:(rewrite Hi; simpl; lia)) as Hloop.
  destruct (app_stream env bound steps (Some N_design) s0 w0) as [[rest|msg] w'].
  - destruct Hloop as (Hlen & Hsteps & Hcount & final & Hlast & Hend).
    split; [simpl; lia|]. split; [simpl; lia|].
    split; [by rewrite critic_invocations_query|].
    exists N_feedback, final. split; [by destruct rest|]. exact Hend.
  - destruct Hloop as [-> Hsteps]. split; [done | lia].
Qed.

End Runs.

(** X1. How a call of the workflow ends, for every environment, query and
    bound.  It returns the last state of a stream of at least one and at
    most [2 max(1, bound) + 1] node executions, no more than the step
    limit of the runtime, in which the Critic ran at most [max(1, bound)]
    times;
    or it raises for the missing [GROQ_API_KEY], before any node ran and
    with the world as it was; or it raises the recursion error of the
    runtime, which takes a bound with [2 max(1, bound) + 1] at the limit
    or above.  No other exception leaves it.  With the key set and
    [2 max(1, bound) + 1] below the limit it returns. *)
Theorem workflow_terminates (env : Env) (user_query : string) (bound : Z) (w : World) :
  match run_design_workflow env user_query bound w with
  | (Returns result, w') =>
      PyStr.truthy (groq_api_key env) = true
      /\ exists stream,
           app_stream env bound (recursion_limit env) (Some N_query)
             (initial_state user_query bound) w = (Returns stream, w')
           /\ result = snd <$> last stream
           /\ 1 <= length stream <= 2 * Z.to_nat (Z.max 1 bound) + 1
           /\ length stream <= recursion_limit env
           /\ critic_invocations stream <= Z.to_nat (Z.max 1 bound)
  | (Raises msg, w') =>
      (PyStr.truthy (groq_api_key env) = false
       /\ msg = "GROQ_API_KEY not found in environment" /\ w' = w)
      \/ (PyStr.truthy (groq_api_key env) = true
          /\ msg = GraphRecursionError env
          /\ recursion_limit env <= 2 * Z.to_nat (Z.max 1 bound) + 1)
  end
  /\ (PyStr.truthy (groq_api_key env) = true ->
      2 * Z.to_nat (Z.max 1 bound) + 1 < recursion_limit env ->
      is_Some (returned (run_design_workflow env user_query bound w))).
Proof.
  unfold run_design_workflow, create_app.
  destruct (PyStr.truthy (groq_api_key env)) eqn:Hkey.
  2:{ split; [by left | discriminate]. }
  pose proof (workflow_run env bound user_query (recursion_limit env) w) as Hrun.
  destruct (app_stream env bound (recursion_limit env) (Some N_query)
              (initial_state user_query bound) w) as [[stream|msg] w'].
  - destruct Hrun as (Hlen & Hsteps & Hcount & _).
    split; [|by eexists]. split; [done|]. exists stream.
    repeat (split; [done|]). split; [lia | done].
  - destruct Hrun as [-> Hsteps]. split; [by right|]. intros _ Hsmall. lia.
Qed.

(** X2. The state that a run returns carries an error, with no final
    response and no approval, or a non-empty final response, with the
    approval and no error; so the terminal front end shows the error or
    the final response, never the partial design. *)
Theorem run_ends_with_error_or_response (env : Env) (user_query : string) (bound : Z)
    (w : World) (result : option AgentState) (w' : World) :
  run_design_workflow env user_query bound w = (Returns result, w') ->
  exists final,
    result = Some final
    /\ ((PyStr.truthy (error final) = true /\ is_approved final = false
         /\ final_response final = None
         /\ run_query_report final = ShowError (PyStr.fmt (error final)))
        \/ (error final = None /\ is_approved final = true
            /\ PyStr.truthy (final_response final) = true
            /\ run_query_report final = ShowFinal (PyStr.fmt (final_response final)))).
Proof.
  intros Hrun. unfold run_design_workflow in Hrun.
  destruct (create_app env); [|discriminate].
  pose proof (workflow_run env bound user_query (recursion_limit env) w) as Hfull.
  destruct (app_stream env bound (recursion_limit env) (Some N_query)
              (initial_state user_query bound) w) as [[stream|msg] w1]; [|discriminate].
  destruct Hfull as (_ & _ & _ & n & final & Hlast & Hend).
  injection Hrun as <- <-. exists final. rewrite Hlast. split; [reflexivity|].
  unfold run_query_report.
  destruct Hend as [(He & Ha & Hf) | (He & Ha & Hf)]; [left | right].
  - by rewrite He.
  - by rewrite He, Hf.
Qed.

(** A run that ends in the Designer's error, seen through the front end. *)
Lemma run_ends_with_error_or_response_witness :
  exists final w',
    run_design_workflow Sample.env_design_fails "smart life" 3 Sample.fresh_world
    = (Returns (Some final), w')
    /\ run_query_report final
       = ShowError "Feedback agent requires system_design and requirement_list".
Proof.
  destruct (run_design_workflow Sample.env_design_fails "smart life" 3 Sample.fresh_world)
    as [[result|msg] w'] eqn:Hrun; [|vm_compute in Hrun; discriminate].
  destruct (run_ends_with_error_or_response _ _ _ _ _ _ Hrun)
    as (final & -> & [(_ & _ & _ & Hshow) | (He & _)]).
  - exists final, w'. split; [reflexivity|]. rewrite Hshow.
    vm_compute in Hrun. injection Hrun as <- _. reflexivity.
  - exfalso. vm_compute in Hrun. injection Hrun as <- _. discriminate.
Defined.


Section Effects.
Variable env : Env.

(** The Classifier never touches the memory nor the design. *)
Lemma query_node_effects mi state w :
  exists state' w',
    query_node env mi state w = (Returns state', w')
    /\ system_design state' = system_design state
    /\ memory w' = memory w.
Proof.
  unfold query_node, bind at 1, QueryAnalysisAgent_run, try_except.
  destruct (bind (identify_use_case_id _ _ _) _ w) as [[s1|msg] w1] eqn:Hb.
  - exists (set_max_iterations mi s1), w1. split; [reflexivity|].
    unfold bind at 1, identify_use_case_id, bind, call in Hb.
    destruct (hf_embeddings env) as [embed|msg]; [|discriminate].
    destruct (best_match _ _ _ _ _) as [uc|msg]; [|discriminate].
    destruct (uc ≫= _) as [[i n]|]; [|by injection Hb as <- <-].
    cbn [clock log memory] in Hb.
    destruct (vector_search env _ _ _ _ DESCRIPTION) as [[|c cs]|msg];
      [by injection Hb as <- <- | | discriminate].
    cbn [clock log memory] in Hb.
    destruct (vector_search env _ _ _ _ REQUIREMENTS) as [[|c' cs']|msg];
      [by injection Hb as <- <- | | discriminate].
    cbn [clock log memory] in Hb.
    destruct (summarize_chain env _ _) as [summary|msg]; [|discriminate].
    by injection Hb as <- <-.
  - do 2 eexists. split; [reflexivity|]. split; [done|].
    unfold bind at 1, identify_use_case_id, bind, call in Hb.
    destruct (hf_embeddings env) as [embed|msg2]; [|by injection Hb as _ <-].
    destruct (best_match _ _ _ _ _) as [uc|msg2]; [|by injection Hb as _ <-].
    destruct (uc ≫= _) as [[i n]|]; [|discriminate].
    cbn [clock log memory] in Hb.
    destruct (vector_search env _ _ _ _ DESCRIPTION) as [[|c cs]|msg2];
      [discriminate | | by injection Hb as _ <-].
    cbn [clock log memory] in Hb.
    destruct (vector_search env _ _ _ _ REQUIREMENTS) as [[|c' cs']|msg2];
      [discriminate | | by injection Hb as _ <-].
    cbn [clock log memory] in Hb.
    destruct (summarize_chain env _ _) as [summary|msg2]; [discriminate|].
    by injection Hb as _ <-.
Qed.

End Effects.

(** X3. A failure of the Classifier stops the run at once: when the state
    it returns has an error, the stream is that one state, whatever the
    step limit of two turns or more; no design exists and the memory is as
    it was. *)
Theorem classification_failure_stops (env : Env) (user_query : string) (bound : Z)
    (w : World) (state1 : AgentState) (w1 : World) (steps : nat) :
  query_node env bound (initial_state user_query bound) w = (Returns state1, w1) ->
  error state1 <> None ->
  app_stream env bound (S (S steps)) (Some N_query) (initial_state user_query bound) w
  = (Returns [(N_query, state1)], w1)
  /\ system_design state1 = None
  /\ memory w1 = memory w.
Proof.
  intros Hq He.
  destruct (query_node_effects env bound (initial_state user_query bound) w)
    as (s & ws & Hs & Hd & Hm).
  destruct (query_node_cases env bound (initial_state user_query bound) w)
    as (s' & ws' & Hs' & _ & _ & _ & _ & Hc).
  rewrite Hq in Hs, Hs'. injection Hs as <- <-. injection Hs' as <- <-.
  split; [|by split].
  rewrite app_stream_step. cbn [run_node next_node]. rewrite Hq.
  unfold route_after_query. destruct Hc as [-> | [Hnone _]]; [|done].
  by rewrite app_stream_end.
Qed.

(** A query whose embedding cannot be compared with the catalog. *)
Lemma classification_failure_stops_witness :
  exists state1 w1,
    app_stream Sample.env_zero_embedding 3 (recursion_limit Sample.env_zero_embedding)
      (Some N_query)
      (initial_state "smart life" 3) Sample.fresh_world = (Returns [(N_query, state1)], w1)
    /\ system_design state1 = None
    /\ memory w1 = memory Sample.fresh_world.
Proof.
  destruct (query_node Sample.env_zero_embedding 3 (initial_state "smart life" 3)
              Sample.fresh_world) as [[state1|msg] w1] eqn:Hq;
    [|vm_compute in Hq; discriminate].
  exists state1, w1.
  apply (classification_failure_stops _ _ _ _ _ _ 23 Hq).
  vm_compute in Hq. injection Hq as <- _. discriminate.
Defined.

(** X4. When every evaluation parses as approved, whatever the bound and
    under any step limit of four turns or more, the stream ends within
    three nodes and the Critic runs at most once; without
    error it runs exactly once, on the first design, and the state
    returned is approved after one iteration, its report opening with the
    line of an approval and not with that of an exhausted budget. *)
Theorem early_approval (env : Env) (user_query : string) (bound : Z) (w : World)
    (steps : nat) :
  (forall t input evaluation,
     evaluation_chain env t input = Returns evaluation -> parse_verdict evaluation = true) ->
  exists stream w',
    app_stream env bound (S (S (S (S steps)))) (Some N_query) (initial_state user_query bound) w
    = (Returns stream, w')
    /\ length stream <= 3
    /\ critic_invocations stream <= 1
    /\ (no_error stream ->
        exists s0 s1 final report,
          stream = [(N_query, s0); (N_design, s1); (N_feedback, final)]
          /\ is_approved final = true
          /\ iteration final = 1%Z
          /\ final_response final = Some report
          /\ PyStr.startswith "✅ Design APPROVED" report = true).
Proof.
  intros Happ.
  rewrite app_stream_step. cbn [run_node next_node].
  destruct (query_node_cases env bound (initial_state user_query bound) w)
    as (s0 & w0 & -> & Hm & Hi & _ & _ & He).
  unfold route_after_query.
  destruct He as [He | [He Hid]].
  { rewrite He, app_stream_end. do 2 eexists. split; [reflexivity|].
    split; [simpl; lia|]. split; [by compute; lia|].
    intros Hno. exfalso. apply Forall_cons in Hno as [Hno _]. simpl in Hno.
    by apply truthy_not_None in He. }
  rewrite He, Hid. cbn [PyStr.truthy negb].
  rewrite app_stream_step. cbn [run_node next_node]. unfold design_node.
  destruct (DesignAgentReAct_run_cases env s0 w0)
    as (s1 & w1 & -> & Hm1 & Hi1 & _ & _ & _).
  rewrite app_stream_step. cbn [run_node next_node]. unfold feedback_node, FeedbackAgent_run.
  destruct (negb (PyStr.truthy (system_design s1))
            || negb (PyStr.truthy (requirement_list s1))).
  { unfold ret. cbn [route_after_feedback error set_is_approved set_error PyStr.truthy
                     PyStr.nonempty]. rewrite app_stream_end.
    do 2 eexists. split; [reflexivity|]. split; [simpl; lia|]. split; [by compute; lia|].
    intros Hno. exfalso. do 2 apply Forall_cons in Hno as [_ Hno].
    apply Forall_cons in Hno as [Hno _]. discriminate. }
  unfold try_except, bind, call at 1.
  destruct (evaluation_chain env (clock w1) _) as [evaluation|msg] eqn:Hev; cbn [clock log memory].
  2:{ unfold ret. cbn [route_after_feedback error set_is_approved set_error PyStr.truthy].
      rewrite app_cons. cbn [PyStr.nonempty]. rewrite app_stream_end.
      do 2 eexists. split; [reflexivity|]. split; [simpl; lia|]. split; [by compute; lia|].
      intros Hno. exfalso. do 2 apply Forall_cons in Hno as [_ Hno].
      apply Forall_cons in Hno as [Hno _]. discriminate. }
  rewrite (Happ _ _ _ Hev). cbn [orb]. unfold call.
  destruct (lessons_chain env _ _) as [lessons_text|msg]; cbn [clock log memory].
  2:{ unfold ret. cbn [route_after_feedback error set_is_approved set_error PyStr.truthy].
      rewrite app_cons. cbn [PyStr.nonempty]. rewrite app_stream_end.
      do 2 eexists. split; [reflexivity|]. split; [simpl; lia|]. split; [by compute; lia|].
      intros Hno. exfalso. do 2 apply Forall_cons in Hno as [_ Hno].
      apply Forall_cons in Hno as [Hno _]. discriminate. }
  destruct (save_lessons env _ _ lessons_text _) as [[[]|msg] w2].
  2:{ unfold ret. cbn [route_after_feedback error set_is_approved set_error PyStr.truthy].
      rewrite app_cons. cbn [PyStr.nonempty]. rewrite app_stream_end.
      do 2 eexists. split; [reflexivity|]. split; [simpl; lia|]. split; [by compute; lia|].
      intros Hno. exfalso. do 2 apply Forall_cons in Hno as [_ Hno].
      apply Forall_cons in Hno as [Hno _]. discriminate. }
  unfold ret.
  cbn [route_after_feedback error is_approved set_error set_final_response set_iteration
       set_is_approved set_feedback PyStr.truthy].
  rewrite app_stream_end.
  do 2 eexists. split; [reflexivity|]. split; [simpl; lia|]. split; [by compute; lia|].
  intros _. eexists _, _, _, _. split; [reflexivity|].
  split; [reflexivity|]. split; [simpl; rewrite Hi1, Hi; reflexivity|].
  split; [reflexivity|]. reflexivity.
Qed.

(** An approving Critic under a bound of five. *)
Lemma early_approval_witness :
  exists stream w',
    app_stream Sample.env_3gpp 5 (recursion_limit Sample.env_3gpp) (Some N_query)
      (initial_state "smart life" 5) Sample.fresh_world
    = (Returns stream, w')
    /\ critic_invocations stream <= 1.
Proof.
  destruct (early_approval Sample.env_3gpp "smart life" 5 Sample.fresh_world 21)
    as (stream & w' & Hrun & _ & Hcount & _).
  - intros t input evaluation H. injection H as <-. reflexivity.
  - by exists stream, w'.
Defined.

(** * Further properties of the memory *)

(** What one [add_lesson] does, whatever the write does. *)
Lemma add_lesson_effect (env : Env) (i n text : string) (w : World) :
  exists d',
    add_lesson env (Some i) (Some n) text w
    = (write_file env (clock w) d',
       mkWorld (mkMemory d') (S (clock w)) (log w ++ [FileWritten d']))
    /\ lesson_texts i d' = lesson_texts i (_data (memory w)) ++ [text]
    /\ forall j, j <> i -> d' !! j = _data (memory w) !! j.
Proof.
  unfold add_lesson, bind, get_lessons, append_lesson, _save, call, lesson_texts.
  destruct (_data (memory w) !! i) as [l|] eqn:E; cbn [clock log memory _data].
  - eexists. split; [reflexivity|]. split.
    + rewrite lookup_alter_eq, E. simpl. by rewrite map_app.
    + intros j Hj. by rewrite lookup_alter_ne.
  - eexists. split; [reflexivity|]. split.
    + by rewrite lookup_alter_eq, lookup_insert_eq.
    + intros j Hj. by rewrite lookup_alter_ne, lookup_insert_ne.
Qed.

(** A read of the memory returns, logs nothing and changes no lesson. *)
Lemma get_lessons_returns (i n : string) (w : World) :
  exists l w',
    get_lessons (Some i) (Some n) w = (Returns l, w')
    /\ clock w' = clock w /\ log w' = log w
    /\ (forall j, lesson_texts j (_data (memory w')) = lesson_texts j (_data (memory w))).
Proof.
  unfold get_lessons.
  destruct (_data (memory w) !! i) as [l|] eqn:E.
  - by exists l, w.
  - eexists _, _. split; [reflexivity|]. cbn [clock log memory _data].
    split; [done|]. split; [done|].
    intros j. unfold lesson_texts. destruct (decide (j = i)) as [->|Hne].
    + by rewrite lookup_insert_eq, E.
    + by rewrite lookup_insert_ne.
Qed.

(** X5. [add_lesson] appends the text to the entry of its use case and to
    no other entry, then tries one write of the whole map; the outcome of
    that write is the outcome of the call, and a failed write leaves the
    lesson in the memory: a read of the use case after the call gives an
    entry that ends with the new lesson. *)
Theorem add_lesson_isolated (env : Env) (i n text : string) (w : World) :
  exists d',
    add_lesson env (Some i) (Some n) text w
    = (write_file env (clock w) d',
       mkWorld (mkMemory d') (S (clock w)) (log w ++ [FileWritten d']))
    /\ lesson_texts i d' = lesson_texts i (_data (memory w)) ++ [text]
    /\ (forall j, j <> i -> d' !! j = _data (memory w) !! j)
    /\ exists l,
         returned (get_lessons (Some i) (Some n)
                     (world_after (add_lesson env (Some i) (Some n) text w))) = Some l
         /\ map lesson (lessons l) = lesson_texts i (_data (memory w)) ++ [text].
Proof.
  destruct (add_lesson_effect env i n text w) as (d' & Hrun & Htexts & Hother).
  exists d'. split; [exact Hrun|]. split; [exact Htexts|]. split; [exact Hother|].
  rewrite Hrun. unfold world_after, get_lessons. cbn [snd memory _data].
  unfold lesson_texts at 1 in Htexts.
  destruct (d' !! i) as [l|] eqn:E.
  - exists l. by split.
  - by destruct (lesson_texts i (_data (memory w))).
Qed.

(** X6. [get_lessons] on an id and a name returns the entry of the id: the
    stored one, the world untouched, or a new empty one under the given
    name that it registers in the memory.  It logs nothing, writes no
    file, and changes the lessons of no use case; afterwards the same id
    gives the same entry under any name, with no further effect. *)
Theorem get_lessons_read (i n : string) (w : World) :
  exists l w',
    get_lessons (Some i) (Some n) w = (Returns l, w')
    /\ _data (memory w') !! i = Some l
    /\ (is_Some (_data (memory w) !! i) -> w' = w)
    /\ (_data (memory w) !! i = None -> l = mkLessons i n [])
    /\ clock w' = clock w /\ log w' = log w
    /\ (forall j, lesson_texts j (_data (memory w')) = lesson_texts j (_data (memory w)))
    /\ (forall name, get_lessons (Some i) name w' = (Returns l, w')).
Proof.
  unfold get_lessons.
  destruct (_data (memory w) !! i) as [l|] eqn:E.
  - exists l, w. rewrite E. repeat split; done.
  - eexists _, _. split; [reflexivity|]. cbn [clock log memory _data].
    rewrite lookup_insert_eq.
    split; [done|]. split; [by intros [? ?]|]. split; [done|]. split; [done|].
    split; [done|]. split; [|done].
    intros j. unfold lesson_texts. destruct (decide (j = i)) as [->|Hne].
    + by rewrite lookup_insert_eq, E.
    + by rewrite lookup_insert_ne.
Qed.

(** What the Designer does to the world. *)
Lemma DesignAgentReAct_run_world (env : Env) (state : AgentState) (w : World) :
  let w' := world_after (DesignAgentReAct_run env state w) in
  (forall j, lesson_texts j (_data (memory w')) = lesson_texts j (_data (memory w)))
  /\ (log w' = log w \/ log w' = log w ++ [DesignCall]).
Proof.
  unfold world_after, DesignAgentReAct_run.
  destruct (negb (PyStr.truthy (use_case_id state))
            || negb (PyStr.truthy (description_summary state))); [by split; [|left]|].
  unfold try_except, bind.
  destruct (use_case_id state) as [i|]; [|by split; [|left]].
  destruct (use_case_name state) as [n|].
  - destruct (get_lessons_returns i n w) as (l & w1 & -> & _ & Hlog & Hsame).
    unfold call. destruct (react_agent env _ _) as [msgs|msg]; cbn [snd memory log].
    + destruct (extract_design msgs). cbn [snd memory log]. split; [done|]. right. by rewrite Hlog.
    + split; [done|]. right. by rewrite Hlog.
  - unfold get_lessons. destruct (_data (memory w) !! i) as [l|]; [|by split; [|left]].
    unfold call. destruct (react_agent env _ _) as [msgs|msg]; cbn [snd memory log].
    + destruct (extract_design msgs). cbn [snd memory log]. split; [done|]. by right.
    + split; [done|]. by right.
Qed.

(** X7. The Designer reads the memory and never writes it: whatever it
    returns, the lessons of every use case are as before, and the log
    gained nothing, or the one call of the agent; no file was written and
    no lesson extracted. *)
Theorem designer_reads_memory_only (env : Env) (state : AgentState) (w : World) :
  let w' := world_after (DesignAgentReAct_run env state w) in
  (forall j, lesson_texts j (_data (memory w')) = lesson_texts j (_data (memory w)))
  /\ exists events,
       log w' = log w ++ events
       /\ (events = [] \/ events = [DesignCall])
       /\ lesson_events events = [].
Proof.
  intros w'. destruct (DesignAgentReAct_run_world env state w) as [Hsame Hlog].
  split; [exact Hsame|].
  destruct Hlog as [Hlog | Hlog].
  - exists []. rewrite app_nil_r. split; [exact Hlog|]. split; [by left | reflexivity].
  - exists [DesignCall]. split; [exact Hlog|]. split; [by right | reflexivity].
Qed.

Section SaveLoop.
Variable env : Env.


(** When the writes fail, the loop stops at the first lesson to save, which
    is in the memory by then. *)
Lemma save_loop_fails msg i n (ls : list string) first rest :
  (forall t d, write_file env t d = Raises msg) ->
  filter (fun l => Is_true (PyStr.nonempty l)) (map clean_lesson ls) = first :: rest ->
  forall w,
    exists d',
      for_each ls (save_lesson env (Some i) (Some n)) w
      = (Raises msg, mkWorld (mkMemory d') (S (clock w)) (log w ++ [FileWritten d']))
      /\ lesson_texts i d' = lesson_texts i (_data (memory w)) ++ [first].
Proof.
  intros Hfail. induction ls as [|l ls IH]; intros Hsaved w; [discriminate|].
  cbn [for_each]. unfold bind at 1, save_lesson at 1. cbv zeta.
  simpl in Hsaved. rewrite filter_cons in Hsaved.
  destruct (PyStr.nonempty (clean_lesson l)) eqn:E; simpl in Hsaved.
  - injection Hsaved as <- _.
    destruct (add_lesson_effect env i n (clean_lesson l) w) as (d' & -> & Ht & _).
    rewrite Hfail. by exists d'.
  - unfold ret at 1. by apply IH.
Qed.

End SaveLoop.

(** X8. A failed write during finalization is not rolled back.  When the
    Critic finalizes, there is a lesson to save and the file cannot be
    written, the run's state gets the error of the write, with the counter
    and the final response as they were and no approval; the first lesson
    is in the memory all the same, after the one attempt to write. *)
Theorem critic_failed_write_keeps_lesson (env : Env) (state : AgentState) (w : World)
    (i n evaluation lessons_text msg first : string) (rest : list string) :
  use_case_id state = Some i ->
  use_case_name state = Some n ->
  PyStr.truthy (system_design state) = true ->
  PyStr.truthy (requirement_list state) = true ->
  (forall input, evaluation_chain env (clock w) input = Returns evaluation) ->
  (parse_verdict evaluation = true \/ (max_iterations state <= iteration state + 1)%Z) ->
  (forall input, lessons_chain env (S (clock w)) input = Returns lessons_text) ->
  lessons_to_save lessons_text = first :: rest ->
  (forall t d, write_file env t d = Raises msg) ->
  exists d',
    FeedbackAgent_run env state w
    = (Returns (set_is_approved false
         (set_error (Some ("Feedback evaluation failed: " +:+ msg)) state)),
       mkWorld (mkMemory d') (S (S (S (clock w))))
         (log w ++ [EvaluationCall; LessonsCall; FileWritten d']))
    /\ lesson_texts i d' = lesson_texts i (_data (memory w)) ++ [first].
Proof.
  intros Hid Hname Hdesign Hreq Hev Hfin Hles Hsaved Hfail.
  unfold FeedbackAgent_run. rewrite Hdesign, Hreq. cbn [negb orb].
  unfold try_except, bind at 1, call at 1. rewrite Hev.
  assert (parse_verdict evaluation || (max_iterations state <=? iteration state + 1)%Z = true)
    as ->.
  { destruct Hfin as [-> | H]; [done|]. apply Z.leb_le in H. rewrite H. apply orb_true_r. }
  unfold bind at 1, call at 1. cbn [clock log memory]. rewrite Hles.
  unfold bind at 1, save_lessons. rewrite Hid, Hname.
  destruct (save_loop_fails env msg i n (lesson_lines lessons_text) first rest Hfail Hsaved
              (mkWorld (memory w) (S (S (clock w))) ((log w ++ [EvaluationCall]) ++ [LessonsCall])))
    as (d' & -> & Ht).
  cbn [clock log memory] in *. exists d'. split; [|exact Ht].
  unfold ret. f_equal. f_equal. by rewrite <- !app_assoc.
Qed.

(** The last round of three, with a file that cannot be written. *)
Lemma critic_failed_write_keeps_lesson_witness :
  exists state' d',
    FeedbackAgent_run Sample2.env_read_only Sample.last_round Sample.fresh_world
    = (Returns state',
       mkWorld (mkMemory d') 3 [EvaluationCall; LessonsCall; FileWritten d'])
    /\ error state' = Some "Feedback evaluation failed: read-only file system"
    /\ iteration state' = 2%Z
    /\ lesson_texts "5.1.1" d' = ["Use circuit breakers"].
Proof.
  destruct (critic_failed_write_keeps_lesson Sample2.env_read_only Sample.last_round
              Sample.fresh_world "5.1.1" "AI Agents to Enable Smart Life"
              "### Overall Verdict: NEEDS_REVISION" Sample.lessons_reply
              "read-only file system" "Use circuit breakers" ["Cache results"])
    as (d' & Hrun & Ht).
  - reflexivity.
  - reflexivity.
  - reflexivity.
  - reflexivity.
  - reflexivity.
  - right. simpl. lia.
  - reflexivity.
  - reflexivity.
  - reflexivity.
  - eexists _, d'. split; [exact Hrun|]. split; [reflexivity|]. split; [reflexivity|].
    exact Ht.
Defined.

Section LessonEvents.
Variable env : Env.
Variable bound : Z.






End LessonEvents.



(** * Further properties of the texts *)

(** X10. Every lesson the Critic hands to the memory is non-empty, has no
    white space at either end (stripping it again changes nothing) and
    contains no line feed; there are at most as many lessons as the
    stripped extraction output has lines. *)
Theorem saved_lessons_well_formed (lessons_text : string) :
  (forall l, l ∈ lessons_to_save lessons_text ->
     PyStr.nonempty l = true
     /\ PyStr.strip l = l
     /\ PyStr.mem_char PyStr.newline l = false)
  /\ length (lessons_to_save lessons_text)
     <= length (PyStr.split PyStr.newline (PyStr.strip lessons_text)).
Proof.
  split.
  - intros l Hl. unfold lessons_to_save in Hl.
    apply list_elem_of_filter in Hl as [Hne Hl].
    apply list_elem_of_fmap in Hl as (x & -> & Hx).
    unfold lesson_lines in Hx. apply list_elem_of_fmap in Hx as (y & -> & Hy).
    apply list_elem_of_filter in Hy as [_ Hy].
    split; [by apply Is_true_true|]. split; [apply strip_idem|].
    unfold clean_lesson, PyStr.lstrip.
    apply mem_char_strip, mem_char_lstrip_by, mem_char_strip.
    by eapply split_no_separator.
  - unfold lessons_to_save, lesson_lines.
    etrans; [apply length_filter|]. rewrite !length_map. apply length_filter.
Qed.

(** * Further properties of the Designer *)

Section Extraction.

Lemma last_ai_content_snoc msgs m :
  last_ai_content (msgs ++ [m])
  = if is_ai_text m then msg_content m else last_ai_content msgs.
Proof.
  unfold last_ai_content. rewrite rev_app_distr. simpl. rewrite filter_cons.
  fold (is_ai_text m). by destruct (is_ai_text m).
Qed.

(** Without tool calls a message can only replace the design. *)
Lemma extract_message_plain d m :
  tool_calls m = None \/ tool_calls m = Some [] ->
  extract_message (mkExtraction d [] EmptyString ∅) m
  = mkExtraction (if is_ai_text m then msg_content m else d) [] EmptyString ∅.
Proof.
  intros Hm. unfold extract_message, is_ai_text.
  destruct Hm as [-> | ->]; cbn [design research_queries research_summaries tool_call_ids];
    (destruct (tool_call_id m) as [tid|];
     [rewrite bool_decide_eq_false_2 by set_solver; rewrite andb_false_r|]);
    by destruct (PyStr.nonempty (msg_content m) && String.eqb (msg_type m) "ai").
Qed.

(** Without tool calls the loop only keeps the latest text of the model. *)
Lemma extract_plain msgs :
  Forall (fun m => tool_calls m = None \/ tool_calls m = Some []) msgs ->
  foldl extract_message (mkExtraction EmptyString [] EmptyString ∅) msgs
  = mkExtraction (last_ai_content msgs) [] EmptyString ∅.
Proof.
  induction msgs as [|m msgs IH] using rev_ind; intros Hall; [done|].
  apply Forall_app in Hall as [Hall Hm]. apply Forall_cons in Hm as [Hm _].
  rewrite foldl_app, IH, last_ai_content_snoc by done. simpl.
  by apply extract_message_plain.
Qed.

(** The queries collected never get fewer. *)
Lemma collect_tool_calls_grows calls x :
  exists more, research_queries (collect_tool_calls calls x) = research_queries x ++ more.
Proof.
  unfold collect_tool_calls. revert x.
  induction calls as [|tc calls IH]; intros x; [exists []; by rewrite app_nil_r|].
  simpl. destruct (String.eqb (tc_name tc) "research" && PyStr.nonempty (tc_query tc)).
  - destruct (IH (mkExtraction (design x) (research_queries x ++ [tc_query tc])
                    (research_summaries x) ({[tc_id tc]} ∪ tool_call_ids x))) as [more ->].
    simpl. exists (tc_query tc :: more). by rewrite <- app_assoc.
  - apply IH.
Qed.

Lemma extract_message_grows x m :
  exists more, research_queries (extract_message x m) = research_queries x ++ more.
Proof.
  unfold extract_message.
  set (x1 := match tool_calls m with
             | Some (tc :: tcs) => collect_tool_calls (tc :: tcs) x
             | _ => x
             end).
  assert (H1 : exists more, research_queries x1 = research_queries x ++ more).
  { unfold x1. destruct (tool_calls m) as [[|tc tcs]|];
      [exists []; by rewrite app_nil_r | apply collect_tool_calls_grows
      | exists []; by rewrite app_nil_r]. }
  destruct H1 as [more H1]. exists more. rewrite <- H1.
  destruct (tool_call_id m) as [tid|];
    [destruct (String.eqb (msg_type m) "tool" && bool_decide (tid ∈ tool_call_ids x1))|];
    destruct (PyStr.nonempty (msg_content m) && String.eqb (msg_type m) "ai");
    destruct (tool_calls m) as [[|? ?]|]; reflexivity.
Qed.

Lemma foldl_extract_grows msgs : forall x,
  exists more, research_queries (foldl extract_message x msgs) = research_queries x ++ more.
Proof.
  induction msgs as [|m msgs IH]; intros x; [exists []; by rewrite app_nil_r|].
  simpl. destruct (extract_message_grows x m) as [more1 H1].
  destruct (IH (extract_message x m)) as [more2 ->]. rewrite H1.
  exists (more1 ++ more2). by rewrite app_assoc.
Qed.

(** A call of the research tool with a query is collected. *)
Lemma collect_tool_calls_research calls x tc :
  tc ∈ calls -> tc_name tc = "research" -> PyStr.nonempty (tc_query tc) = true ->
  research_queries (collect_tool_calls calls x) <> [].
Proof.
  unfold collect_tool_calls. revert x.
  induction calls as [|tc' calls IH]; intros x Hin Hname Hq; [by apply elem_of_nil in Hin|].
  simpl. apply elem_of_cons in Hin as [<- | Hin].
  - rewrite Hname, Hq. simpl.
    destruct (collect_tool_calls_grows calls
                (mkExtraction (design x) (research_queries x ++ [tc_query tc])
                   (research_summaries x) ({[tc_id tc]} ∪ tool_call_ids x))) as [more H].
    unfold collect_tool_calls in H. rewrite H. simpl. by destruct (research_queries x).
  - by apply IH.
Qed.

End Extraction.

Lemma extract_message_queries x m :
  research_queries (extract_message x m)
  = research_queries (match tool_calls m with
                      | Some (tc :: tcs) => collect_tool_calls (tc :: tcs) x
                      | _ => x
                      end).
Proof.
  unfold extract_message.
  destruct (tool_call_id m) as [tid|];
    [destruct (String.eqb (msg_type m) "tool" && bool_decide (tid ∈ _))|];
    destruct (PyStr.nonempty (msg_content m) && String.eqb (msg_type m) "ai");
    destruct (tool_calls m) as [[|? ?]|]; reflexivity.
Qed.

Lemma last_ai_content_last msgs :
  last_ai_content msgs
  = from_option msg_content EmptyString (last (filter (fun m => Is_true (is_ai_text m)) msgs)).
Proof.
  induction msgs as [|m msgs IH] using rev_ind; [done|].
  rewrite last_ai_content_snoc, filter_app, filter_cons, filter_nil.
  destruct (is_ai_text m); simpl.
  - by rewrite last_snoc.
  - by rewrite app_nil_r.
Qed.

(** X11. When no message of the agent carries a tool call, the design is
    the text of the last message of the model that has one, or empty when
    there is none, and the research summary is empty. *)
Theorem extract_design_without_tools (final_messages : list Message) :
  Forall (fun m => tool_calls m = None \/ tool_calls m = Some []) final_messages ->
  extract_design final_messages
  = (from_option msg_content EmptyString
       (last (filter (fun m => Is_true (is_ai_text m)) final_messages)),
     EmptyString).
Proof.
  intros Hall. unfold extract_design. rewrite (extract_plain _ Hall).
  cbn [design research_queries research_summaries].
  rewrite <- last_ai_content_last. by destruct (PyStr.nonempty (last_ai_content final_messages)).
Qed.

(** A question, an answer, a remark without text, and a last answer. *)
Lemma extract_design_without_tools_witness :
  extract_design
    [ mkMessage "human" "Design the system" None None;
      mkMessage "ai" "First draft" (Some []) None;
      mkMessage "ai" "" (Some []) None;
      mkMessage "ai" "Second draft" (Some []) None;
      mkMessage "human" "Thanks" None None ]
  = ("Second draft", EmptyString).
Proof.
  apply (extract_design_without_tools
           [ mkMessage "human" "Design the system" None None;
             mkMessage "ai" "First draft" (Some []) None;
             mkMessage "ai" "" (Some []) None;
             mkMessage "ai" "Second draft" (Some []) None;
             mkMessage "human" "Thanks" None None ]).
  repeat (apply List.Forall_cons; [first [by left | by right]|]). apply List.Forall_nil.
Defined.

(** X12. When a message of the agent carries a call of the research tool
    with a non-empty query, the design opens with the block that lists the
    research, whether or not the model wrote a design after it; so the
    design is never empty then. *)
Theorem extract_design_with_research (final_messages : list Message) (m : Message)
    (calls : list ToolCall) (tc : ToolCall) :
  m ∈ final_messages ->
  tool_calls m = Some calls ->
  tc ∈ calls ->
  tc_name tc = "research" ->
  PyStr.nonempty (tc_query tc) = true ->
  PyStr.startswith "## Research Conducted" (extract_design final_messages).1 = true.
Proof.
  intros Hm Hcalls Htc Hname Hq.
  apply list_elem_of_split in Hm as (pre & post & ->).
  unfold extract_design. rewrite foldl_app. cbn [foldl].
  set (x := foldl extract_message _ pre).
  destruct (foldl_extract_grows post (extract_message x m)) as [more Hmore].
  assert (Hne : research_queries (extract_message x m) <> []).
  { rewrite extract_message_queries, Hcalls.
    destruct calls as [|c cs]; [by apply elem_of_nil in Htc|].
    by eapply collect_tool_calls_research. }
  rewrite Hmore. destruct (research_queries (extract_message x m)) as [|q qs]; [done|].
  reflexivity.
Qed.

(** One research call and no answer of the model after it. *)
Lemma extract_design_with_research_witness :
  PyStr.startswith "## Research Conducted"
    (extract_design
       [ mkMessage "ai" "" (Some [mkToolCall "research" "NWDAF analytics" "call_1"]) None;
         mkMessage "tool" "NWDAF collects data." None (Some "call_1") ]).1 = true.
Proof.
  apply (extract_design_with_research _
           (mkMessage "ai" "" (Some [mkToolCall "research" "NWDAF analytics" "call_1"]) None)
           [mkToolCall "research" "NWDAF analytics" "call_1"]
           (mkToolCall "research" "NWDAF analytics" "call_1")).
  - apply list_elem_of_here.
  - reflexivity.
  - apply list_elem_of_here.
  - reflexivity.
  - reflexivity.
Defined.

(** X13. A Designer whose agent produced no text reports no error: it
    returns the empty design, and it is the Critic that then fails, on
    its check of the inputs, with no call made, and ends the run. *)
Theorem empty_design_fails_at_critic (env : Env) (state : AgentState) (w : World)
    (n : string) (final_messages : list Message) :
  PyStr.truthy (use_case_id state) = true ->
  PyStr.truthy (description_summary state) = true ->
  use_case_name state = Some n ->
  (forall t input, react_agent env t input = Returns final_messages) ->
  (extract_design final_messages).1 = EmptyString ->
  exists state1 w1 state2,
    design_node env state w = (Returns state1, w1)
    /\ error state1 = None
    /\ system_design state1 = Some EmptyString
    /\ feedback_node env state1 w1 = (Returns state2, w1)
    /\ error state2 = Some "Feedback agent requires system_design and requirement_list"
    /\ next_node N_feedback state2 = None.
Proof.
  intros Hid Hsum Hname Hagent Hempty.
  unfold design_node, DesignAgentReAct_run. rewrite Hid, Hsum. cbn [negb orb].
  unfold try_except, bind. rewrite Hname.
  destruct (use_case_id state) as [i|] eqn:Hi; [|discriminate].
  destruct (get_lessons_returns i n w) as (l & w1 & -> & _).
  unfold call. rewrite Hagent.
  destruct (extract_design final_messages) as [d r]. simpl in Hempty. subst d.
  eexists _, _, _. split; [reflexivity|]. split; [reflexivity|]. split; [reflexivity|].
  unfold feedback_node, FeedbackAgent_run. simpl.
  split; [reflexivity|]. split; reflexivity.
Qed.

(** An agent that returns no message. *)
Lemma empty_design_fails_at_critic_witness :
  exists state1 w1 state2,
    design_node Sample2.env_silent_agent Sample.classified Sample.fresh_world
    = (Returns state1, w1)
    /\ error state1 = None
    /\ system_design state1 = Some EmptyString
    /\ feedback_node Sample2.env_silent_agent state1 w1 = (Returns state2, w1)
    /\ error state2 = Some "Feedback agent requires system_design and requirement_list"
    /\ next_node N_feedback state2 = None.
Proof.
  apply (empty_design_fails_at_critic Sample2.env_silent_agent Sample.classified
           Sample.fresh_world "AI Agents to Enable Smart Life" []); reflexivity.
Defined.

(** * Further properties of the Classifier *)

Lemma best_match_keeps env query_embedding (items : list (string * list float)) uc score :
  (forall u v, (u, v) ∈ items -> length query_embedding = length v) ->
  (forall u v, (u, v) ∈ items ->
     PrimFloat.ltb score (similarity env query_embedding v) = false) ->
  best_match env query_embedding items (Some uc) score = Returns (Some uc).
Proof.
  induction items as [|[u v] items IH]; intros Hlen Hle; [done|].
  cbn [best_match]. unfold cosine_similarity.
  rewrite (Hlen u v) by apply list_elem_of_here. rewrite Nat.eqb_refl.
  fold (similarity env query_embedding v). rewrite (Hle u v) by apply list_elem_of_here.
  apply IH; intros u' v' Hin; [eapply Hlen | eapply Hle]; by apply list_elem_of_further.
Qed.

(** X14. Ties go to the entry seen first: when the first entry of the
    dictionary has a similarity above -1 and no later entry has one that
    compares above it, the resolver returns the first entry's id.  The
    similarities are the scores that the code computes, with the dot
    product of the library, whatever the order in which it adds. *)
Theorem first_entry_wins_ties (env : Env) (user_query uc name : string)
    (rest : list (string * string)) (w : World) (embed_query : string -> list float) :
  hf_embeddings env = Returns embed_query ->
  (forall u n, (u, n) ∈ (uc, name) :: rest ->
     length (embed_query user_query) = length (embed_query n)) ->
  PrimFloat.ltb (-1) (similarity env (embed_query user_query) (embed_query name)) = true ->
  (forall u n, (u, n) ∈ rest ->
     PrimFloat.ltb (similarity env (embed_query user_query) (embed_query name))
       (similarity env (embed_query user_query) (embed_query n)) = false) ->
  returned (identify_use_case_id env user_query ((uc, name) :: rest) w) = Some (Some uc).
Proof.
  intros Hload Hlen Habove Hrest.
  unfold identify_use_case_id, bind, call. rewrite Hload. cbn [map best_match].
  unfold cosine_similarity. rewrite (Hlen uc name) by apply list_elem_of_here.
  rewrite Nat.eqb_refl. fold (similarity env (embed_query user_query) (embed_query name)).
  rewrite Habove. rewrite best_match_keeps; [reflexivity| |].
  - intros u v ([u' n'] & Heq & Hin)%list_elem_of_fmap. injection Heq as -> ->.
    eapply Hlen. by apply list_elem_of_further.
  - intros u v ([u' n'] & Heq & Hin)%list_elem_of_fmap. injection Heq as -> ->.
    by eapply Hrest.
Qed.

(** All embeddings equal: use case 5.1.1, the first of the catalog. *)
Lemma first_entry_wins_ties_witness :
  returned (identify_use_case_id Sample.env_revise "smart life" use_case_names
              Sample.fresh_world) = Some (Some "5.1.1").
Proof.
  apply (first_entry_wins_ties Sample.env_revise "smart life" "5.1.1"
           "AI Agents to Enable Smart Life" (tail use_case_names) Sample.fresh_world
           (fun _ => [1%float; 0%float])).
  - reflexivity.
  - intros; reflexivity.
  - reflexivity.
  - intros; reflexivity.
Defined.

(** As long as nothing was chosen the best score is the initial one; the
    loop returns [None] exactly when nothing was chosen before and no item
    scores above the initial -1, and otherwise an earlier choice or the id
    of an item. *)
Lemma best_match_spec env query_embedding (items : list (string * list float)) :
  (forall uc v, (uc, v) ∈ items -> length query_embedding = length v) ->
  forall best_id best_score,
    (best_id = None -> best_score = (-1)%float) ->
    exists r,
      best_match env query_embedding items best_id best_score = Returns r
      /\ (r = None <->
          best_id = None
          /\ forall uc v, (uc, v) ∈ items ->
               PrimFloat.ltb (-1) (similarity env query_embedding v) = false)
      /\ (forall u, r = Some u -> best_id = Some u \/ exists v, (u, v) ∈ items).
Proof.
  induction items as [|[uc v] items IH]; intros Hlen best_id best_score Hinit.
  - exists best_id. split; [reflexivity|]. split; [|auto].
    split; [intros ->; split; [done|] | by intros [-> _]].
    intros uc v Hin. by apply elem_of_nil in Hin.
  - cbn [best_match]. unfold cosine_similarity.
    rewrite (Hlen uc v) by apply list_elem_of_here. rewrite Nat.eqb_refl.
    fold (similarity env query_embedding v).
    assert (Htail : forall uc' v', (uc', v') ∈ items -> length query_embedding = length v')
      by (intros; eapply Hlen; by apply list_elem_of_further).
    destruct (PrimFloat.ltb best_score (similarity env query_embedding v)) eqn:Hlt.
    + destruct (IH Htail (Some uc) (similarity env query_embedding v))
        as (r & -> & Hnone & Hsome); [done|].
      exists r. split; [reflexivity|]. split.
      * split.
        -- intros ->. by destruct (proj1 Hnone eq_refl).
        -- intros [-> Hall]. rewrite (Hinit eq_refl) in Hlt.
           rewrite (Hall uc v) in Hlt by apply list_elem_of_here. discriminate.
      * intros u Hu. right. destruct (Hsome u Hu) as [[= <-] | [v' Hin]].
        -- exists v. apply list_elem_of_here.
        -- exists v'. by apply list_elem_of_further.
    + destruct (IH Htail best_id best_score Hinit) as (r & -> & Hnone & Hsome).
      exists r. split; [reflexivity|]. split.
      * rewrite Hnone. split; intros [Hb Hall]; (split; [done|]).
        -- intros uc' v' [[= -> ->] | Hin]%elem_of_cons; [|by eapply Hall].
           by rewrite <- (Hinit Hb).
        -- intros uc' v' Hin. eapply Hall. by apply list_elem_of_further.
      * intros u Hu. destruct (Hsome u Hu) as [? | [v' Hin]]; [by left|].
        right. exists v'. by apply list_elem_of_further.
Qed.

Lemma dict_get_key (d : list (string * string)) uc name :
  (uc, name) ∈ d -> is_Some (dict_get uc d).
Proof.
  induction d as [|[k v] d IH]; intros Hin; [by apply elem_of_nil in Hin|].
  simpl. destruct (String.eqb_spec uc k) as [->|Hne]; [by eexists|].
  apply elem_of_cons in Hin as [[= -> ->] | Hin]; [done | by apply IH].
Qed.

(** X25. What the resolver returns once the embedding model is loaded and
    its vectors have one length: a key of the dictionary or [None], never
    another id, and [None] exactly when no entry of the dictionary has a
    score that compares above the initial -1.0 (every score is -1.0 or
    less, or is not a number).  No threshold other than this one is
    applied.  The scores are those that the code computes. *)
Theorem resolver_result (env : Env) (user_query : string)
    (use_case_dict : list (string * string)) (w : World)
    (embed_query : string -> list float) :
  hf_embeddings env = Returns embed_query ->
  (forall u n, (u, n) ∈ use_case_dict ->
     length (embed_query user_query) = length (embed_query n)) ->
  exists r,
    identify_use_case_id env user_query use_case_dict w
    = (Returns r, mkWorld (memory w) (S (clock w)) (log w ++ [EmbeddingsLoaded]))
    /\ (r = None <->
        forall u n, (u, n) ∈ use_case_dict ->
          PrimFloat.ltb (-1) (similarity env (embed_query user_query) (embed_query n)) = false)
    /\ (forall uc, r = Some uc -> is_Some (dict_get uc use_case_dict)).
Proof.
  intros Hload Hlen.
  unfold identify_use_case_id, bind, call. rewrite Hload.
  destruct (best_match_spec env (embed_query user_query)
              (map (fun '(uc, name) => (uc, embed_query name)) use_case_dict))
    with (best_id := @None string) (best_score := (-1)%float)
    as (r & Hr & Hnone & Hsome).
  - intros uc v ([u n] & Heq & Hin)%list_elem_of_fmap. injection Heq as -> ->.
    by eapply Hlen.
  - done.
  - exists r. rewrite Hr. split; [reflexivity|]. split.
    + rewrite Hnone. split.
      * intros [_ Hall] u n Hin. apply (Hall u).
        apply list_elem_of_fmap. by exists (u, n).
      * intros Hall. split; [done|].
        intros uc v ([u n] & Heq & Hin)%list_elem_of_fmap. injection Heq as -> ->.
        by eapply Hall.
    + intros uc Huc. destruct (Hsome uc Huc) as [? | [v Hin]]; [done|].
      apply list_elem_of_fmap in Hin as ([u n] & Heq & Hin). injection Heq as -> ->.
      by eapply dict_get_key.
Qed.

(** Embeddings that are all the same vector: the first key of the catalog;
    embeddings that are all the zero vector: no key. *)
Lemma resolver_result_witness :
  returned (identify_use_case_id Sample.env_revise "smart life" use_case_names
              Sample.fresh_world) = Some (Some "5.1.1")
  /\ returned (identify_use_case_id Sample.env_zero_embedding "smart life" use_case_names
                 Sample.fresh_world) = Some None.
Proof.
  split.
  - destruct (resolver_result Sample.env_revise "smart life" use_case_names
                Sample.fresh_world (fun _ => [1%float; 0%float]))
      as (r & Hrun & _ & _); [reflexivity | intros; reflexivity |].
    rewrite Hrun. vm_compute in Hrun. by injection Hrun as <-.
  - destruct (resolver_result Sample.env_zero_embedding "smart life" use_case_names
                Sample.fresh_world (fun _ => [0%float; 0%float]))
      as (r & Hrun & Hnone & _); [reflexivity | intros; reflexivity |].
    rewrite Hrun. cbn [returned]. f_equal. apply Hnone. intros u n _. reflexivity.
Defined.

(** * The research tool *)

Lemma py_prefix_length {A} (n : Z) (l : list A) :
  (0 <= n)%Z -> length (py_prefix n l) = Nat.min (Z.to_nat n) (length l).
Proof.
  intros Hn. unfold py_prefix. rewrite (proj2 (Z.leb_le 0 n) Hn). apply length_take.
Qed.

(** X15. Whatever the count, the search keeps entries from the start of
    the answer, in their order: the result at each index comes from the
    entry of the answer at that index, with its three texts, the empty one
    for a key that the entry lacks.  A count that is not negative keeps at
    most as many entries as the count; a negative count keeps all but that
    many, those at the end being dropped. *)
Theorem brave_results_prefix (web_results : list WebItem) (num_results : Z) :
  (forall k r,
     brave_results web_results num_results !! k = Some r ->
     exists item,
       web_results !! k = Some item
       /\ title r = get_or_empty (item_title item)
       /\ url r = get_or_empty (item_url item)
       /\ description r = get_or_empty (item_description item))
  /\ ((0 <= num_results)%Z ->
      length (brave_results web_results num_results)
      = Nat.min (Z.to_nat num_results) (length web_results))
  /\ ((num_results < 0)%Z ->
      length (brave_results web_results num_results)
      = length web_results - Z.to_nat (- num_results)).
Proof.
  split; [|split].
  - intros k r Hk. unfold brave_results in Hk.
    apply list_lookup_fmap_Some in Hk as (item & -> & Hk).
    exists item. split; [|done].
    unfold py_prefix in Hk.
    destruct (0 <=? num_results)%Z; by apply lookup_take_Some in Hk as [Hk _].
  - intros Hn. unfold brave_results. by rewrite length_map, py_prefix_length.
  - intros Hn. unfold brave_results, py_prefix. rewrite length_map.
    rewrite (proj2 (Z.leb_gt 0 num_results)) by lia. rewrite length_take. lia.
Qed.

(** Three entries: asked for two, and asked for all but the last. *)
Lemma brave_results_prefix_witness :
  length (brave_results [mkWebItem (Some "a") None None; mkWebItem None (Some "u") None;
                         mkWebItem None None None] 2) = 2
  /\ length (brave_results [mkWebItem (Some "a") None None; mkWebItem None (Some "u") None;
                            mkWebItem None None None] (-1)) = 2.
Proof.
  split.
  - apply (proj1 (proj2 (brave_results_prefix
                    [mkWebItem (Some "a") None None; mkWebItem None (Some "u") None;
                     mkWebItem None None None] 2))). lia.
  - apply (proj2 (proj2 (brave_results_prefix
                    [mkWebItem (Some "a") None None; mkWebItem None (Some "u") None;
                     mkWebItem None None None] (-1)))). lia.
Defined.

(** X16. The research tool turns every failure of the search into a text:
    without the key of the search service, or when the request fails, it
    returns "Search failed: ..." and when the search finds nothing it
    returns "No search results found.", in all three cases without
    asking the summarizer.  An exception leaves the tool only when the
    search found something and the summarizer raised. *)
Theorem research_failures (api_key : option string) (http : outcome (list WebItem))
    (llm : PromptInput -> outcome string) (query focus : string) :
  (PyStr.truthy api_key = false ->
   research api_key http llm query focus
   = Returns "Search failed: BRAVE_API_KEY not found in environment")
  /\ (forall msg, PyStr.truthy api_key = true -> http = Raises msg ->
      research api_key http llm query focus = Returns ("Search failed: " +:+ msg))
  /\ (forall web_results, PyStr.truthy api_key = true -> http = Returns web_results ->
      py_prefix 5 web_results = [] ->
      research api_key http llm query focus = Returns "No search results found.")
  /\ (forall msg, research api_key http llm query focus = Raises msg ->
      exists web_results input,
        PyStr.truthy api_key = true /\ http = Returns web_results
        /\ web_results <> [] /\ llm input = Raises msg).
Proof.
  unfold research, search_and_summarize, brave_search.
  split; [by intros ->|]. split; [by intros msg -> ->|]. split.
  - intros web_results -> -> Hnone. unfold brave_results. by rewrite Hnone.
  - intros msg. destruct (PyStr.truthy api_key); [|discriminate]. cbn [negb].
    destruct http as [web_results|e]; [|discriminate].
    destruct (brave_results web_results 5) as [|r rs] eqn:Hres; [discriminate|].
    intros Hraise. eexists web_results, _. repeat split; [|exact Hraise].
    intros ->. discriminate.
Qed.

(** No key in the environment. *)
Lemma research_failures_witness :
  research None (Returns [mkWebItem (Some "a") None None]) (fun _ => Raises "down")
    "NWDAF" "" = Returns "Search failed: BRAVE_API_KEY not found in environment".
Proof.
  apply (proj1 (research_failures None (Returns [mkWebItem (Some "a") None None])
                  (fun _ => Raises "down") "NWDAF" "")).
  reflexivity.
Defined.

(** * The vector store *)

Lemma insert_chunk_perm c l : insert_chunk c l ≡ₚ c :: l.
Proof.
  induction l as [|d l IH]; [done|]. simpl.
  destruct (chunk_index c <=? chunk_index d)%Z; [done|].
  rewrite IH. apply Permutation_swap.
Qed.

Lemma sort_chunks_perm l : sort_chunks l ≡ₚ l.
Proof.
  induction l as [|c l IH]; [done|]. simpl. by rewrite insert_chunk_perm, IH.
Qed.

Lemma insert_chunk_sorted c l : in_document_order l -> in_document_order (insert_chunk c l).
Proof.
  unfold in_document_order. induction 1 as [|d l Hl IH Hd]; simpl.
  - by repeat constructor.
  - destruct (Z.leb_spec (chunk_index c) (chunk_index d)).
    + constructor; [by constructor|]. constructor; [done|].
      eapply Forall_impl; [exact Hd|]. simpl. intros; lia.
    + constructor; [exact IH|].
      rewrite insert_chunk_perm. constructor; [lia | exact Hd].
Qed.

Lemma insert_chunk_at index c l :
  chunks_at index (insert_chunk c l)
  = if decide (chunk_index c = index) then c :: chunks_at index l else chunks_at index l.
Proof.
  unfold chunks_at. induction l as [|d l IH]; simpl.
  - rewrite filter_cons, filter_nil. by destruct (decide (chunk_index c = index)).
  - destruct (Z.leb_spec (chunk_index c) (chunk_index d)).
    + by rewrite !filter_cons.
    + rewrite !filter_cons, IH.
      destruct (decide (chunk_index c = index)) as [Hc|Hc]; [|done].
      repeat case_decide; try done; lia.
Qed.

(** X17. What the search returns is what the store answered, put in the
    order of the chunk indices: the same chunks, ascending, those of equal
    index in the order of the answer.  An exception of the store is the
    search's. *)
Theorem search_in_document_order (section_value : SectionType -> string)
    (category_value : UseCaseCategory -> string)
    (similarity_search : string -> Z -> Where -> outcome (list DocumentChunk))
    (query : string) (k : Z) (use_case_id : option string)
    (section_type : option SectionType) (category : option UseCaseCategory) :
  match ChromaVectorStore_search section_value category_value similarity_search
          query k use_case_id section_type category with
  | Returns chunks =>
      exists results,
        similarity_search query k
          (where_filter (build_metadata_filter section_value category_value
                           use_case_id section_type category)) = Returns results
        /\ chunks ≡ₚ results
        /\ in_document_order chunks
        /\ forall index, chunks_at index chunks = chunks_at index results
  | Raises msg =>
      similarity_search query k
        (where_filter (build_metadata_filter section_value category_value
                         use_case_id section_type category)) = Raises msg
  end.
Proof.
  unfold ChromaVectorStore_search.
  destruct (similarity_search query k _) as [results|msg]; [|done].
  exists results. split; [done|]. split; [apply sort_chunks_perm|]. split.
  - induction results as [|c l IH]; [constructor | by apply insert_chunk_sorted].
  - intros index. induction results as [|c l IH]; [done|]. simpl.
    rewrite insert_chunk_at, IH. unfold chunks_at. rewrite filter_cons.
    by destruct (decide (chunk_index c = index)).
Qed.

(** X18. An empty use case id restricts the search no more than a missing
    one.  The Classifier's searches, with a key of the catalog and a
    section type, are restricted by both; and the search is unrestricted
    only when the id is missing or empty and neither the section type nor
    the category is given. *)
Theorem metadata_filter_conditions (section_value : SectionType -> string)
    (category_value : UseCaseCategory -> string)
    (use_case_id : option string) (section_type : option SectionType)
    (category : option UseCaseCategory) :
  build_metadata_filter section_value category_value (Some EmptyString) section_type category
  = build_metadata_filter section_value category_value None section_type category
  /\ (forall uc name st,
        dict_get uc use_case_names = Some name ->
        where_filter (build_metadata_filter section_value category_value (Some uc) (Some st)
                        None)
        = WhereAnd [("use_case_id", uc); ("section_type", section_value st)])
  /\ (where_filter (build_metadata_filter section_value category_value use_case_id
                      section_type category) = NoFilter
      <-> PyStr.truthy use_case_id = false /\ section_type = None /\ category = None).
Proof.
  split; [reflexivity|]. split.
  - intros uc name st Hkey. unfold build_metadata_filter.
    cbn [PyStr.truthy]. by rewrite (catalog_key_nonempty uc name Hkey).
  - unfold build_metadata_filter.
    destruct (PyStr.truthy use_case_id), section_type, category; simpl; split;
      try done; by intros (? & ? & ?).
Qed.

(** The search for the requirements of use case 5.1.1. *)
Lemma metadata_filter_conditions_witness :
  where_filter (build_metadata_filter (fun _ => "requirements") (fun _ => "consumer")
                  (Some "5.1.1") (Some REQUIREMENTS) None)
  = WhereAnd [("use_case_id", "5.1.1"); ("section_type", "requirements")].
Proof.
  apply (proj1 (proj2 (metadata_filter_conditions (fun _ => "requirements")
                         (fun _ => "consumer") None None None))
           "5.1.1" "AI Agents to Enable Smart Life" REQUIREMENTS).
  reflexivity.
Defined.

(** * Properties of the HTTP interface *)

(** X19. A task that is registered ends [COMPLETED] when the workflow
    returns and [FAILED] when it raises, never in another status.  A
    workflow that returns with an error of a node still completes the
    task: the error is in the result, with no approval and no final
    response; otherwise the result is approved and has a final response.
    The task fails with the text of the exception as its error and its
    result as it was: for the missing [GROQ_API_KEY], the world
    untouched, or for the recursion error of the runtime, which takes a
    bound with [2 max(1, bound) + 1] at the step limit or above.  Either
    way the progress stays at the first step with iteration 0, the other
    tasks are untouched, and the status endpoint answers with the task. *)
Theorem design_task_status (env : Env) (id query : string) (max_iterations : Z)
    (tasks : gmap string Task) (t : Task) (w : World) :
  tasks !! id = Some t ->
  exists tasks' w' t',
    run_design_task env id query max_iterations tasks w = (Returns tt, tasks', w')
    /\ get_design_status tasks' id = Answer t'
    /\ (forall j, j <> id -> tasks' !! j = tasks !! j)
    /\ task_completed_at t' = Some (clock w')
    /\ task_progress t' = Some (mkProgress QUERY_ANALYSIS 0 max_iterations [])
    /\ match run_design_workflow env query max_iterations w with
       | (Returns _, w1) =>
           w' = w1
           /\ task_status t' = COMPLETED
           /\ task_error t' = task_error t
           /\ exists r,
                task_result t' = Some r
                /\ result_task_id r = id /\ result_status r = COMPLETED
                /\ ((PyStr.truthy (result_error r) = true /\ result_is_approved r = false
                     /\ result_final_response r = None)
                    \/ (result_error r = None /\ result_is_approved r = true
                        /\ PyStr.truthy (result_final_response r) = true))
       | (Raises msg, w1) =>
           w' = w1
           /\ task_status t' = FAILED
           /\ task_error t' = Some msg
           /\ task_result t' = task_result t
           /\ ((PyStr.truthy (groq_api_key env) = false
                /\ msg = "GROQ_API_KEY not found in environment" /\ w' = w)
               \/ (PyStr.truthy (groq_api_key env) = true
                   /\ msg = GraphRecursionError env
                   /\ recursion_limit env <= 2 * Z.to_nat (Z.max 1 max_iterations) + 1))
       end.
Proof.
  intros Ht. unfold run_design_task, run_design_workflow, create_app. rewrite Ht.
  unfold get_design_status.
  destruct (PyStr.truthy (groq_api_key env)) eqn:Hkey.
  2:{ eexists _, w, _. split; [reflexivity|]. rewrite lookup_insert_eq.
      split; [reflexivity|]. split; [intros j Hj; by rewrite lookup_insert_ne|].
      cbn [task_status task_error task_completed_at task_progress task_result].
      repeat (split; [reflexivity|]). by left. }
  pose proof (workflow_run env max_iterations query (recursion_limit env) w) as Hrun.
  destruct (app_stream env max_iterations (recursion_limit env) (Some N_query)
              (initial_state query max_iterations) w) as [[stream|msg] w1].
  - destruct Hrun as (_ & _ & _ & n & final & Hlast & Hend).
    rewrite Hlast. cbn [fmap option_fmap option_map snd].
    eexists _, w1, _. split; [reflexivity|]. rewrite lookup_insert_eq.
    split; [reflexivity|]. split; [intros j Hj; by rewrite lookup_insert_ne|].
    cbn [task_status task_error task_completed_at task_progress task_result].
    repeat (split; [reflexivity|]). eexists. split; [reflexivity|].
    cbn [result_task_id result_status result_error result_is_approved
         result_final_response].
    repeat (split; [reflexivity|]). exact Hend.
  - destruct Hrun as [-> Hsteps].
    eexists _, w1, _. split; [reflexivity|]. rewrite lookup_insert_eq.
    split; [reflexivity|]. split; [intros j Hj; by rewrite lookup_insert_ne|].
    cbn [task_status task_error task_completed_at task_progress task_result].
    repeat (split; [reflexivity|]). right. by repeat split.
Qed.

(** A task registered by [start_design], run without the key: failed,
    with the text of the exception; and run with collaborators of which
    the Designer fails: completed, the error in the result. *)
Lemma design_task_status_witness :
  (exists tasks' t',
     run_design_task Sample2.env_no_key "task-1" "smart life" 3
       (<["task-1" := new_task "task-1" "smart life" 3 0]> ∅) Sample.fresh_world
     = (Returns tt, tasks', Sample.fresh_world)
     /\ get_design_status tasks' "task-1" = Answer t'
     /\ task_status t' = FAILED
     /\ task_error t' = Some "GROQ_API_KEY not found in environment")
  /\ exists tasks' w' t',
       run_design_task Sample.env_design_fails "task-1" "smart life" 3
         (<["task-1" := new_task "task-1" "smart life" 3 0]> ∅) Sample.fresh_world
       = (Returns tt, tasks', w')
       /\ get_design_status tasks' "task-1" = Answer t'
       /\ task_status t' = COMPLETED.
Proof.
  split.
  - destruct (design_task_status Sample2.env_no_key "task-1" "smart life" 3
                (<["task-1" := new_task "task-1" "smart life" 3 0]> ∅)
                (new_task "task-1" "smart life" 3 0) Sample.fresh_world)
      as (tasks' & w' & t' & Hrun & Hget & _ & _ & _ & Hcase).
    + by rewrite lookup_insert_eq.
    + change (run_design_workflow Sample2.env_no_key "smart life" 3 Sample.fresh_world)
        with (@Raises (option AgentState) "GROQ_API_KEY not found in environment",
              Sample.fresh_world) in Hcase.
      destruct Hcase as (-> & Hstatus & Herror & _).
      by exists tasks', t'.
  - destruct (design_task_status Sample.env_design_fails "task-1" "smart life" 3
                (<["task-1" := new_task "task-1" "smart life" 3 0]> ∅)
                (new_task "task-1" "smart life" 3 0) Sample.fresh_world)
      as (tasks' & w' & t' & Hrun & Hget & _ & _ & _ & Hcase).
    + by rewrite lookup_insert_eq.
    + destruct (run_design_workflow Sample.env_design_fails "smart life" 3 Sample.fresh_world)
        as [[result|msg] w1] eqn:Hflow; [|vm_compute in Hflow; discriminate].
      destruct Hcase as (_ & Hstatus & _).
      exists tasks', w', t'. split; [exact Hrun|]. split; [exact Hget | exact Hstatus].
Defined.

(** X20. A request that passes the validation of [DesignRequest] (a query
    of at least 5 characters, 1 to 5 iterations), run with the key set
    and under a step limit above 11, gives a stream that ends within 11
    node executions and at most 5 invocations of the Critic; the task of
    such a request, once registered, completes. *)
Theorem valid_request_bounds (env : Env) (id query : string) (max_iterations : Z)
    (tasks : gmap string Task) (w : World) :
  DesignRequest_valid query max_iterations = true ->
  PyStr.truthy (groq_api_key env) = true ->
  11 < recursion_limit env ->
  is_Some (tasks !! id) ->
  exists stream w' tasks',
    app_stream env max_iterations (recursion_limit env) (Some N_query)
      (initial_state query max_iterations) w
    = (Returns stream, w')
    /\ length stream <= 11
    /\ critic_invocations stream <= 5
    /\ run_design_task env id query max_iterations tasks w = (Returns tt, tasks', w')
    /\ task_status <$> tasks' !! id = Some COMPLETED.
Proof.
  intros Hvalid Hkey Hlimit [t Ht]. unfold DesignRequest_valid in Hvalid.
  apply andb_prop in Hvalid as [Hvalid Hle]. apply andb_prop in Hvalid as [_ Hge].
  apply Z.leb_le in Hle, Hge.
  assert (Hbound : Z.to_nat (Z.max 1 max_iterations) <= 5) by lia.
  unfold run_design_task, run_design_workflow, create_app. rewrite Ht, Hkey.
  pose proof (workflow_run env max_iterations query (recursion_limit env) w) as Hrun.
  destruct (app_stream env max_iterations (recursion_limit env) (Some N_query)
              (initial_state query max_iterations) w) as [[stream|msg] w'].
  - destruct Hrun as (Hlen & _ & Hcount & n & final & Hlast & _).
    rewrite Hlast. cbn [fmap option_fmap option_map snd].
    eexists stream, w', _. split; [reflexivity|]. split; [lia|]. split; [lia|].
    split; [reflexivity|]. by rewrite lookup_insert_eq.
  - destruct Hrun as [_ Hsteps]. lia.
Qed.

(** The default request, three iterations. *)
Lemma valid_request_bounds_witness :
  exists stream w' tasks',
    app_stream Sample.env_revise 3 (recursion_limit Sample.env_revise) (Some N_query)
      (initial_state "smart life" 3) Sample.fresh_world
    = (Returns stream, w')
    /\ length stream <= 11
    /\ critic_invocations stream <= 5
    /\ run_design_task Sample.env_revise "task-1" "smart life" 3
         (<["task-1" := new_task "task-1" "smart life" 3 0]> ∅) Sample.fresh_world
       = (Returns tt, tasks', w')
    /\ task_status <$> tasks' !! "task-1" = Some COMPLETED.
Proof.
  apply (valid_request_bounds Sample.env_revise "task-1" "smart life" 3).
  - reflexivity.
  - reflexivity.
  - simpl. lia.
  - rewrite lookup_insert_eq. by eexists.
Defined.

(** What a read of the memory returns: the lessons of the id. *)
Lemma get_lessons_texts (i n : string) (w : World) :
  exists l w',
    get_lessons (Some i) (Some n) w = (Returns l, w')
    /\ map lesson (lessons l) = lesson_texts i (_data (memory w))
    /\ clock w' = clock w /\ log w' = log w
    /\ (forall j, lesson_texts j (_data (memory w')) = lesson_texts j (_data (memory w))).
Proof.
  unfold get_lessons, lesson_texts.
  destruct (_data (memory w) !! i) as [l|] eqn:E.
  - by exists l, w.
  - eexists _, _. split; [reflexivity|]. cbn [clock log memory _data lessons map].
    split; [done|]. split; [done|]. split; [done|].
    intros j. destruct (decide (j = i)) as [->|Hne].
    + by rewrite lookup_insert_eq, E.
    + by rewrite lookup_insert_ne.
Qed.

(** The loop of [get_all_lessons], from any accumulators. *)
Lemma collect_lessons_spec (table : list (string * (string * string))) :
  forall use_cases total w,
  exists new w',
    collect_lessons table use_cases total w
    = (Returns (mkAllLessons (use_cases ++ new) (total + stored_total table (_data (memory w)))),
       w')
    /\ clock w' = clock w /\ log w' = log w
    /\ (forall j, lesson_texts j (_data (memory w')) = lesson_texts j (_data (memory w)))
    /\ map response_use_case_id new
       = filter (fun i => lesson_texts i (_data (memory w)) <> []) (map fst table)
    /\ Forall (fun u => map lesson (response_lessons u)
                        = lesson_texts (response_use_case_id u) (_data (memory w))
                        /\ In (response_use_case_id u, response_use_case_name u)
                             (map (fun e => (e.1, e.2.1)) table)) new.
Proof.
  induction table as [|[i [n c]] table IH]; intros use_cases total w.
  - exists [], w. cbn [collect_lessons]. unfold ret, stored_total. simpl.
    rewrite app_nil_r, Nat.add_0_r. repeat split; done.
  - cbn [collect_lessons]. unfold bind.
    destruct (get_lessons_texts i n w) as (l & w1 & -> & Hl & Hc & Hlog & Hsame).
    unfold stored_total. cbn [map sum_list fst]. fold (stored_total table (_data (memory w))).
    assert (Htot : stored_total table (_data (memory w1))
                   = stored_total table (_data (memory w))).
    { unfold stored_total. f_equal. apply map_ext. intros u. by rewrite Hsame. }
    assert (Hfil : filter (fun j => lesson_texts j (_data (memory w1)) <> []) (map fst table)
                   = filter (fun j => lesson_texts j (_data (memory w)) <> []) (map fst table)).
    { apply list_filter_iff. intros j. by rewrite Hsame. }
    rewrite filter_cons. rewrite <- Hl.
    destruct (lessons l) as [|x ls] eqn:El.
    + destruct (IH use_cases total w1) as (new & w' & -> & Hc' & Hlog' & Hsame' & Hids & Hall).
      exists new, w'. rewrite Htot. cbn [map length]. rewrite Nat.add_0_l.
      split; [reflexivity|]. split; [congruence|]. split; [congruence|].
      split; [intros j; by rewrite Hsame', Hsame|].
      rewrite decide_False by (intros H; by apply H).
      split; [by rewrite Hids, Hfil|].
      eapply Forall_impl; [exact Hall|]. intros u [Hu Hin]. cbn beta in *.
      split; [by rewrite Hu, Hsame|]. by right.
    + destruct (IH (use_cases ++ [mkLessonsResponse i n (x :: ls)]) (total + length (x :: ls)) w1)
        as (new & w' & -> & Hc' & Hlog' & Hsame' & Hids & Hall).
      exists (mkLessonsResponse i n (x :: ls) :: new), w'.
      rewrite Htot, <- app_assoc. cbn [app]. rewrite length_map, Nat.add_assoc.
      split; [reflexivity|]. split; [congruence|]. split; [congruence|].
      split; [intros j; by rewrite Hsame', Hsame|].
      rewrite decide_True by done.
      split; [cbn [map response_use_case_id]; by rewrite Hids, Hfil|].
      apply Forall_cons. split.
      * cbn [response_lessons response_use_case_id response_use_case_name].
        split; [by rewrite <- Hl | by left].
      * eapply Forall_impl; [exact Hall|]. intros u [Hu Hin]. cbn beta in *.
        split; [by rewrite Hu, Hsame|]. by right.
Qed.

(** The count of the health check, from any start. *)
Lemma count_lessons_spec (table : list (string * (string * string))) :
  forall lesson_count w,
  exists w',
    count_lessons table lesson_count w
    = (Returns (lesson_count + stored_total table (_data (memory w))), w')
    /\ forall j, lesson_texts j (_data (memory w')) = lesson_texts j (_data (memory w)).
Proof.
  induction table as [|[i [n c]] table IH]; intros lesson_count w.
  - exists w. cbn [count_lessons]. unfold ret, stored_total. simpl.
    by rewrite Nat.add_0_r.
  - cbn [count_lessons]. unfold bind.
    destruct (get_lessons_texts i n w) as (l & w1 & -> & Hl & _ & _ & Hsame).
    destruct (IH (lesson_count + length (lessons l)) w1) as (w' & -> & Hsame').
    exists w'. split.
    + unfold stored_total. cbn [map sum_list fst].
      rewrite <- Hl, length_map, Nat.add_assoc. do 4 f_equal.
      apply map_ext. intros u. by rewrite Hsame.
    + intros j. by rewrite Hsame', Hsame.
Qed.

(** The use cases without a lesson add nothing to the total. *)
Lemma sum_filter_nonempty (d : gmap string UseCaseLessons)
    (table : list (string * (string * string))) :
  sum_list (map (fun i => length (lesson_texts i d))
              (filter (fun i => lesson_texts i d <> []) (map fst table)))
  = sum_list (map (fun u => length (lesson_texts u.1 d)) table).
Proof.
  induction table as [|[i v] table IH]; [reflexivity|].
  cbn [map fst]. rewrite filter_cons. case_decide as Hi.
  - cbn [map sum_list fst]. by rewrite IH.
  - cbn [map sum_list fst]. rewrite IH.
    destruct (lesson_texts i d); [reflexivity | discriminate].
Qed.

(** X21. The listing of all lessons returns, logs and writes nothing and
    changes no lesson.  Its total is the number of lessons stored for the
    use cases of the catalog, which is the sum over the entries it lists
    and the count that the health check reports; it lists the use cases
    of the catalog that have a lesson, in the order of the catalog, each
    under its catalog name and with its stored lessons. *)
Theorem all_lessons_listing (w : World) :
  exists r w',
    get_all_lessons w = (Returns r, w')
    /\ clock w' = clock w /\ log w' = log w
    /\ (forall j, lesson_texts j (_data (memory w')) = lesson_texts j (_data (memory w)))
    /\ total_lessons r = stored_total USE_CASES (_data (memory w))
    /\ total_lessons r = sum_list (map (fun u => length (response_lessons u)) (response_use_cases r))
    /\ returned (count_lessons USE_CASES 0 w) = Some (total_lessons r)
    /\ map response_use_case_id (response_use_cases r)
       = filter (fun i => lesson_texts i (_data (memory w)) <> []) (map fst USE_CASES)
    /\ Forall (fun u => map lesson (response_lessons u)
                        = lesson_texts (response_use_case_id u) (_data (memory w))
                        /\ response_lessons u <> []
                        /\ (fst <$> use_case_entry (response_use_case_id u) USE_CASES)
                           = Some (response_use_case_name u))
         (response_use_cases r).
Proof.
  destruct (collect_lessons_spec USE_CASES [] 0 w)
    as (new & w' & Hrun & Hc & Hlog & Hsame & Hids & Hall).
  destruct (count_lessons_spec USE_CASES 0 w) as (w2 & Hcount & _).
  exists (mkAllLessons new (stored_total USE_CASES (_data (memory w)))), w'.
  split; [exact Hrun|]. split; [exact Hc|]. split; [exact Hlog|]. split; [exact Hsame|].
  cbn [total_lessons response_use_cases].
  split; [reflexivity|]. split; [|split; [by rewrite Hcount|split; [exact Hids|]]].
  - unfold stored_total. rewrite <- (sum_filter_nonempty _ USE_CASES).
    rewrite <- Hids, map_map. f_equal. apply List.map_ext_Forall.
    eapply Forall_impl; [exact Hall|]. intros u [Hu _]. cbn beta in *.
    by rewrite <- Hu, length_map.
  - apply Forall_forall. intros u Hin.
    assert (Hid : response_use_case_id u
                  ∈ filter (fun i => lesson_texts i (_data (memory w)) <> [])
                      (map fst USE_CASES)).
    { rewrite <- Hids. apply list_elem_of_fmap. by exists u. }
    apply list_elem_of_filter in Hid as [Hne _].
    apply (proj1 (Forall_forall _ _) Hall) in Hin as [Hu Hname].
    split; [exact Hu|]. split.
    + intros Hnil. apply Hne. by rewrite <- Hu, Hnil.
    + cbn [USE_CASES map fst snd] in Hname.
      repeat (destruct Hname as [Hname|Hname];
              [injection Hname as <- <-; reflexivity|]).
      destruct Hname.
Qed.

(** A key that [USE_CASES[key]] finds is a key of the table. *)
Lemma use_case_entry_Some i v (table : list (string * (string * string))) :
  use_case_entry i table = Some v -> i ∈ map fst table.
Proof.
  induction table as [|[k u] table IH]; [discriminate|].
  cbn [use_case_entry map fst]. destruct (String.eqb_spec i k) as [->|Hne].
  - intros _. apply list_elem_of_here.
  - intros H. apply list_elem_of_further. by apply IH.
Qed.

Lemma use_case_entry_None i (table : list (string * (string * string))) :
  use_case_entry i table = None -> i ∉ map fst table.
Proof.
  induction table as [|[k u] table IH]; [intros _ H; inversion H|].
  cbn [use_case_entry map fst]. destruct (String.eqb_spec i k) as [->|Hne]; [discriminate|].
  intros H Hin. apply elem_of_cons in Hin as [Heq|Hin]; [done|]. by apply IH.
Qed.

(** The total depends on the lessons of the use cases of the table only. *)
Lemma stored_total_ext (table : list (string * (string * string))) d d' :
  (forall j, j ∈ map fst table -> lesson_texts j d' = lesson_texts j d) ->
  stored_total table d' = stored_total table d.
Proof.
  intros H. unfold stored_total. f_equal. apply List.map_ext_Forall, Forall_forall.
  intros u Hu. rewrite H; [reflexivity|]. apply list_elem_of_fmap. by exists u.
Qed.

(** One more lesson for a use case of the table: one more in the total. *)
Lemma stored_total_add (table : list (string * (string * string))) i text d d' :
  NoDup (map fst table) ->
  i ∈ map fst table ->
  lesson_texts i d' = lesson_texts i d ++ [text] ->
  (forall j, j <> i -> lesson_texts j d' = lesson_texts j d) ->
  stored_total table d' = S (stored_total table d).
Proof.
  intros Hnodup Hin Hi Hother.
  induction table as [|[k u] table IH]; [inversion Hin|].
  cbn [map fst] in Hnodup, Hin. apply NoDup_cons in Hnodup as [Hk Hnodup].
  unfold stored_total. cbn [map sum_list fst].
  fold (stored_total table d') (stored_total table d).
  destruct (decide (k = i)) as [->|Hne].
  - rewrite Hi, length_app. cbn [length].
    rewrite (stored_total_ext table d d').
    + unfold id. lia.
    + intros j Hj. apply Hother. by intros ->.
  - apply elem_of_cons in Hin as [Heq|Hin]; [done|].
    rewrite (Hother k Hne), (IH Hnodup Hin). unfold id. lia.
Qed.

Lemma USE_CASES_NoDup : NoDup (map fst USE_CASES).
Proof. apply (bool_decide_unpack _). vm_compute. reflexivity. Qed.

(** What [add_lesson] does to the lessons of each use case. *)
Lemma add_lesson_texts (env : Env) (i n text : string) (w : World) :
  let w' := world_after (add_lesson env (Some i) (Some n) text w) in
  lesson_texts i (_data (memory w')) = lesson_texts i (_data (memory w)) ++ [text]
  /\ forall j, j <> i -> lesson_texts j (_data (memory w')) = lesson_texts j (_data (memory w)).
Proof.
  destruct (add_lesson_effect env i n text w) as (d' & Hrun & Htexts & Hother).
  cbv zeta. rewrite Hrun. unfold world_after. cbn [snd memory _data].
  split; [exact Htexts|]. intros j Hj. unfold lesson_texts. by rewrite Hother.
Qed.

(** The listing: its total and the use cases it lists. *)
Lemma all_lessons_run (w : World) :
  exists r w',
    get_all_lessons w = (Returns r, w')
    /\ total_lessons r = stored_total USE_CASES (_data (memory w))
    /\ map response_use_case_id (response_use_cases r)
       = filter (fun i => lesson_texts i (_data (memory w)) <> []) (map fst USE_CASES).
Proof.
  destruct (collect_lessons_spec USE_CASES [] 0 w) as (new & w' & Hrun & _ & _ & _ & Hids & _).
  by eexists _, w'.
Qed.

(** Two filters that agree on the elements of a list. *)
Lemma filter_ext_elem {A} (P1 P2 : A -> Prop)
    `{!forall x, Decision (P1 x), !forall x, Decision (P2 x)} (l : list A) :
  (forall x, x ∈ l -> P1 x <-> P2 x) -> filter P1 l = filter P2 l.
Proof.
  induction l as [|a l IH]; intros Hext; [reflexivity|].
  rewrite !filter_cons, IH by (intros x Hx; apply Hext; by apply list_elem_of_further).
  apply decide_ext, Hext, list_elem_of_here.
Qed.

(** X22. A lesson added for a use case of the catalog is seen through the
    interface at once, whether its write to the file succeeded or not:
    the endpoint of the use case answers with the lessons it had and the
    new one at the end, under the catalog name, and the listing of all
    lessons contains the use case with a total that is one more than
    before. *)
Theorem lesson_visible_through_api (env : Env) (id name category text : string) (w : World) :
  use_case_entry id USE_CASES = Some (name, category) ->
  let w1 := world_after (add_lesson env (Some id) (Some name) text w) in
  exists l w2 before after,
    get_use_case_lessons id w1 = (Returns (Answer (mkLessonsResponse id name l)), w2)
    /\ map lesson l = lesson_texts id (_data (memory w)) ++ [text]
    /\ log w2 = log w1
    /\ returned (get_all_lessons w) = Some before
    /\ returned (get_all_lessons w1) = Some after
    /\ total_lessons after = S (total_lessons before)
    /\ id ∈ map response_use_case_id (response_use_cases after).
Proof.
  intros Hentry w1.
  destruct (add_lesson_texts env id name text w) as [Hid Hother]. fold w1 in Hid, Hother.
  destruct (get_lessons_texts id name w1) as (l & w2 & Hget & Hl & _ & Hlog & _).
  destruct (all_lessons_run w) as (before & w3 & Hbefore & Htotal & _).
  destruct (all_lessons_run w1) as (after & w4 & Hafter & Htotal' & Hids).
  exists (lessons l), w2, before, after.
  split; [unfold get_use_case_lessons, bind, ret; by rewrite Hentry, Hget|].
  split; [by rewrite Hl, Hid|]. split; [exact Hlog|].
  split; [by rewrite Hbefore|]. split; [by rewrite Hafter|].
  apply use_case_entry_Some in Hentry. split.
  - rewrite Htotal, Htotal'.
    apply (stored_total_add _ id text);
      [apply USE_CASES_NoDup | exact Hentry | exact Hid | exact Hother].
  - rewrite Hids. apply list_elem_of_filter. split; [|exact Hentry].
    rewrite Hid. by destruct (lesson_texts id (_data (memory w))).
Qed.

(** A first lesson for use case 5.1.3, the file read-only. *)
Lemma lesson_visible_through_api_witness :
  exists l w2 before after,
    get_use_case_lessons "5.1.3"
      (world_after (add_lesson Sample2.env_read_only (Some "5.1.3") (Some "AI Phone")
                      "Cache results" Sample.fresh_world))
    = (Returns (Answer (mkLessonsResponse "5.1.3" "AI Phone" l)), w2)
    /\ map lesson l = ["Cache results"]
    /\ returned (get_all_lessons Sample.fresh_world) = Some before
    /\ total_lessons after = S (total_lessons before).
Proof.
  destruct (lesson_visible_through_api Sample2.env_read_only "5.1.3" "AI Phone" "consumer"
              "Cache results" Sample.fresh_world)
    as (l & w2 & before & after & Hget & Hl & _ & Hbefore & _ & Htotal & _).
  - reflexivity.
  - exists l, w2, before, after.
    split; [exact Hget|]. split; [exact Hl|]. split; [exact Hbefore | exact Htotal].
Defined.

(** X23. An id outside the catalog is unknown to the interface: its
    endpoint answers 404 and leaves the world as it is, and a lesson
    stored under it is not listed and not counted, neither by the
    listing nor by the health check. *)
Theorem lesson_outside_catalog_hidden (env : Env) (id name text : string) (w : World) :
  use_case_entry id USE_CASES = None ->
  let w1 := world_after (add_lesson env (Some id) (Some name) text w) in
  get_use_case_lessons id w1 = (Returns (HttpError 404 "Use case not found"), w1)
  /\ lesson_texts id (_data (memory w1)) = lesson_texts id (_data (memory w)) ++ [text]
  /\ exists before after,
       returned (get_all_lessons w) = Some before
       /\ returned (get_all_lessons w1) = Some after
       /\ total_lessons after = total_lessons before
       /\ map response_use_case_id (response_use_cases after)
          = map response_use_case_id (response_use_cases before)
       /\ (id ∉ map response_use_case_id (response_use_cases after))
       /\ returned (count_lessons USE_CASES 0 w1) = Some (total_lessons before).
Proof.
  intros Hentry w1.
  destruct (add_lesson_texts env id name text w) as [Hid Hother]. fold w1 in Hid, Hother.
  split; [unfold get_use_case_lessons, ret; by rewrite Hentry|].
  split; [exact Hid|].
  destruct (all_lessons_run w) as (before & w3 & Hbefore & Htotal & Hids).
  destruct (all_lessons_run w1) as (after & w4 & Hafter & Htotal' & Hids').
  destruct (count_lessons_spec USE_CASES 0 w1) as (w5 & Hcount & _).
  apply use_case_entry_None in Hentry.
  assert (Hsame : stored_total USE_CASES (_data (memory w1))
                  = stored_total USE_CASES (_data (memory w))).
  { apply stored_total_ext. intros j Hj. apply Hother. by intros ->. }
  exists before, after.
  split; [by rewrite Hbefore|]. split; [by rewrite Hafter|].
  split; [by rewrite Htotal, Htotal'|].
  split; [|split].
  - rewrite Hids, Hids'. apply filter_ext_elem. intros j Hj.
    rewrite Hother; [reflexivity|]. by intros ->.
  - rewrite Hids'. intros Hin. by apply list_elem_of_filter in Hin as [_ Hin].
  - by rewrite Hcount, Htotal, Hsame.
Qed.

(** A lesson stored under an id that the catalog does not have. *)
Lemma lesson_outside_catalog_hidden_witness :
  get_use_case_lessons "6.1.1"
    (world_after (add_lesson Sample.env_revise (Some "6.1.1") (Some "Drones")
                    "Cache results" Sample.fresh_world))
  = (Returns (HttpError 404 "Use case not found"),
     world_after (add_lesson Sample.env_revise (Some "6.1.1") (Some "Drones")
                    "Cache results" Sample.fresh_world)).
Proof.
  destruct (lesson_outside_catalog_hidden Sample.env_revise "6.1.1" "Drones"
              "Cache results" Sample.fresh_world) as [H404 _].
  - reflexivity.
  - exact H404.
Defined.

(** * The text of the lessons *)


(** The decimal digits of a number hold no line feed. *)
Lemma of_Z_no_newline (n : Z) : PyStr.mem_char PyStr.newline (PyStr.of_Z n) = false.
Proof.
  unfold PyStr.of_Z.
  assert (He : forall d, PyStr.mem_char PyStr.newline (NilEmpty.string_of_uint d) = false).
  { induction d as [|d IH|d IH|d IH|d IH|d IH|d IH|d IH|d IH|d IH|d IH];
      [reflexivity | exact IH ..]. }
  assert (Hu : forall d, PyStr.mem_char PyStr.newline (NilZero.string_of_uint d) = false).
  { intros d. destruct d; [reflexivity | apply He ..]. }
  destruct (Z.to_int n) as [d|d]; cbn [NilZero.string_of_int].
  - apply Hu.
  - exact (Hu d).
Qed.

(** X24. The text that the Designer is given for the lessons of a use case
    is the fixed sentence when there is none; otherwise, when neither the
    name nor a lesson holds a line feed, its lines are a header with the
    name and then one line for each lesson, in the order of storing, the
    lesson at index [k] on line [k + 1] after its number [k + 1]. *)
Theorem lessons_text_lines (l : UseCaseLessons) :
  PyStr.mem_char PyStr.newline (uc_name l) = false ->
  Forall (fun x => PyStr.mem_char PyStr.newline (lesson x) = false) (lessons l) ->
  (lessons l = [] -> get_lessons_text l = "No previous lessons for this use case.")
  /\ (lessons l <> [] ->
      PyStr.split PyStr.newline (get_lessons_text l)
      = ("Learned lessons for " +:+ uc_name l +:+ ":") :: numbered (lessons l)
      /\ length (PyStr.split PyStr.newline (get_lessons_text l)) = S (length (lessons l))
      /\ forall k x, lessons l !! k = Some x ->
           PyStr.split PyStr.newline (get_lessons_text l) !! S k
           = Some ("  " +:+ PyStr.of_Z (Z.of_nat (S k)) +:+ ". " +:+ lesson x)).
Proof.
  intros Hname Hall. unfold get_lessons_text. split; [by intros ->|]. intros Hne.
  assert (Hsplit : PyStr.split PyStr.newline
                     (PyStr.join (String PyStr.newline EmptyString)
                        (("Learned lessons for " +:+ uc_name l +:+ ":") :: numbered (lessons l)))
                   = ("Learned lessons for " +:+ uc_name l +:+ ":") :: numbered (lessons l)).
  { apply split_join; [done|]. apply Forall_cons. split.
    - by rewrite !mem_char_app, Hname.
    - apply Forall_forall. intros line Hline. unfold numbered in Hline.
      apply elem_of_lookup_imap in Hline as (k & x & -> & Hx).
      rewrite !mem_char_app, of_Z_no_newline.
      by rewrite (proj1 (Forall_forall _ _) Hall x (list_elem_of_lookup_2 _ _ _ Hx)). }
  destruct (lessons l) as [|x0 ls] eqn:El; [done|]. fold (numbered (x0 :: ls)).
  rewrite Hsplit. split; [reflexivity|]. split.
  - unfold numbered. by rewrite length_cons, length_imap.
  - intros k x Hk. rewrite lookup_cons. cbv iota beta. unfold numbered.
    by rewrite list_lookup_imap, Hk.
Qed.

(** Two lessons of use case 5.1.1. *)
Lemma lessons_text_lines_witness :
  PyStr.split PyStr.newline
    (get_lessons_text
       (mkLessons "5.1.1" "AI Agents to Enable Smart Life"
          [mkLesson "Use circuit breakers" 0; mkLesson "Cache results" 1]))
  = ["Learned lessons for AI Agents to Enable Smart Life:";
     "  1. Use circuit breakers"; "  2. Cache results"].
Proof.
  destruct (lessons_text_lines
              (mkLessons "5.1.1" "AI Agents to Enable Smart Life"
                 [mkLesson "Use circuit breakers" 0; mkLesson "Cache results" 1]))
    as [_ Hlines].
  - reflexivity.
  - repeat constructor.
  - destruct Hlines as [Hsplit _]; [discriminate|]. exact Hsplit.
Defined.
